(** * Tool registry and dispatch layer of the Waka voyage agent

    A shallow embedding of [tools/__init__.py], of the tool modules it
    dispatches to ([tool_flight_search], [tool_hotel_search],
    [tool_health_advice], [tool_email], [tool_places], [tool_bus_schedule],
    [tool_flight_booking], [tool_hotel_booking], [tool_pharmacy_locator],
    [tool_end_conversation], [tool_government_services]) and of the
    request handler of [server_v2.py], followed by the
    properties of the schema adapter, of the dispatch table and of the
    tools.

    Python values are embedded as an untyped [value] tree, Python strings as
    lists of Unicode code points, exceptions as an explicit [outcome], and
    outbound HTTP calls as a trace threaded through a small monad. *)

From Stdlib Require Import List NArith ZArith Bool String Ascii Lia.
From Stdlib Require Import DecimalString.
Import ListNotations.

Set Implicit Arguments.

(* ===================================================================== *)
(** ** Python strings *)
(* ===================================================================== *)

Module PyStr.

(** A [str] is a sequence of Unicode code points; [len] counts code points. *)
Definition char := N.
Definition pystr := list char.

Definition len (s : pystr) : nat := List.length s.

(** UTF-8 decoding, used to write the literals of the source files. *)
Fixpoint utf8_decode (bs : list N) : pystr :=
  match bs with
  | [] => []
  | b :: r =>
      if (b <? 128)%N then b :: utf8_decode r
      else if (b <? 224)%N then
        match r with
        | b1 :: r1 => ((b mod 32) * 64 + b1 mod 64)%N :: utf8_decode r1
        | [] => [b]
        end
      else if (b <? 240)%N then
        match r with
        | b1 :: b2 :: r2 =>
            ((b mod 16) * 4096 + (b1 mod 64) * 64 + b2 mod 64)%N :: utf8_decode r2
        | _ => [b]
        end
      else
        match r with
        | b1 :: b2 :: b3 :: r3 =>
            ((b mod 8) * 262144 + (b1 mod 64) * 4096 + (b2 mod 64) * 64 + b3 mod 64)%N
              :: utf8_decode r3
        | _ => [b]
        end
  end.

Fixpoint bytes_of_string (s : string) : list N :=
  match s with
  | EmptyString => []
  | String a s' => N_of_ascii a :: bytes_of_string s'
  end.

Definition u (s : string) : pystr := utf8_decode (bytes_of_string s).

(** [str.isspace] on one code point: the set used by [split()] and
    [strip()] when called without argument. *)
Definition is_space (c : char) : bool :=
  ((9 <=? c) && (c <=? 13) || (28 <=? c) && (c <=? 32)
   || (c =? 133) || (c =? 160) || (c =? 5760)
   || (8192 <=? c) && (c <=? 8202)
   || (c =? 8232) || (c =? 8233) || (c =? 8239) || (c =? 8287)
   || (c =? 12288))%N.

Definition SPACE : char := 32%N.

Fixpoint lstrip (s : pystr) : pystr :=
  match s with
  | [] => []
  | c :: s' => if is_space c then lstrip s' else s
  end.

Definition rstrip (s : pystr) : pystr := rev (lstrip (rev s)).

(** [s.strip()] *)
Definition strip (s : pystr) : pystr := rstrip (lstrip s).

(** [s.split()]: the maximal runs of non-whitespace characters, in order. *)
Fixpoint split (s : pystr) : list pystr :=
  match s with
  | [] => []
  | c :: s' =>
      if is_space c then split s'
      else
        match s' with
        | [] => [[c]]
        | c' :: _ =>
            if is_space c' then [c] :: split s'
            else
              match split s' with
              | w :: ws => (c :: w) :: ws
              | [] => [[c]]
              end
        end
  end.

(** [sep.join(parts)] *)
Fixpoint join (sep : pystr) (parts : list pystr) : pystr :=
  match parts with
  | [] => []
  | w :: ws =>
      match ws with
      | [] => w
      | _ :: _ => w ++ sep ++ join sep ws
      end
  end.

(** [s[:n]] for a non-negative [n]. *)
Definition slice_to (n : nat) (s : pystr) : pystr := firstn n s.

(** The text before the last occurrence of [sep] in [s], if [sep] occurs. *)
Fixpoint before_last (sep : char) (s : pystr) : option pystr :=
  match s with
  | [] => None
  | c :: s' =>
      match before_last sep s' with
      | Some p => Some (c :: p)
      | None => if (c =? sep)%N then Some [] else None
      end
  end.

(** [s.rsplit(' ', 1)[0]] *)
Definition rsplit1_head (s : pystr) : pystr :=
  match before_last SPACE s with
  | Some p => p
  | None => s
  end.

Fixpoint starts_with (p s : pystr) : bool :=
  match p, s with
  | [], _ => true
  | _ :: _, [] => false
  | a :: p', b :: s' => (a =? b)%N && starts_with p' s'
  end.

(** [needle in hay] on two strings. *)
Fixpoint contains (needle hay : pystr) : bool :=
  starts_with needle hay
  || match hay with
     | [] => false
     | _ :: hay' => contains needle hay'
     end.

Fixpoint eqb (a b : pystr) : bool :=
  match a, b with
  | [], [] => true
  | x :: a', y :: b' => (x =? y)%N && eqb a' b'
  | _, _ => false
  end.

(** Decimal rendering of an integer, as [str(int)] prints it. *)
Definition of_Z (z : Z) : pystr :=
  bytes_of_string (NilEmpty.string_of_int (Z.to_int z)).

End PyStr.
Import PyStr.

(* ===================================================================== *)
(** ** Python values, exceptions and dictionaries *)
(* ===================================================================== *)

(** JSON-like Python values.  A [dict] keeps its insertion order and has
    string keys; floating-point numbers are not represented. *)
#[warnings="-register-all"]
Inductive value : Type :=
| VNone
| VBool (b : bool)
| VInt (z : Z)
| VStr (s : pystr)
| VList (l : list value)
| VDict (d : list (pystr * value)).

Definition dict := list (pystr * value).

(** An exception object: its class name and [str(e)]. *)
Record exn : Type := Exn { exn_class : pystr; exn_text : pystr }.

(** The result of running Python code: a returned value or a raised
    exception (an instance of [Exception]). *)
Inductive outcome (A : Type) : Type :=
| Returned (a : A)
| Raised (e : exn).
Arguments Returned {A} a.
Arguments Raised {A} e.

Definition bind {A B : Type} (c : outcome A) (k : A -> outcome B) : outcome B :=
  match c with
  | Returned a => k a
  | Raised e => Raised e
  end.

Declare Scope py_scope.
Delimit Scope py_scope with py.
Notation "x <- c ;; k" := (bind c (fun x => k))
  (at level 61, c at next level, right associativity) : py_scope.
Open Scope py_scope.

(** [try: body  except Exception as e: handler(e)] *)
Definition try_except {A : Type} (body : outcome A) (handler : exn -> outcome A)
  : outcome A :=
  match body with
  | Returned a => Returned a
  | Raised e => handler e
  end.

Module Py.

(** [bool(v)] *)
Definition truthy (v : value) : bool :=
  match v with
  | VNone => false
  | VBool b => b
  | VInt z => negb (z =? 0)%Z
  | VStr s => match s with [] => false | _ :: _ => true end
  | VList l => match l with [] => false | _ :: _ => true end
  | VDict d => match d with [] => false | _ :: _ => true end
  end.

(** [type(v).__name__] *)
Definition type_name (v : value) : pystr :=
  match v with
  | VNone => u "NoneType"
  | VBool _ => u "bool"
  | VInt _ => u "int"
  | VStr _ => u "str"
  | VList _ => u "list"
  | VDict _ => u "dict"
  end.

Definition AttributeError (v : value) (attr : pystr) : exn :=
  Exn (u "AttributeError")
      (u "'" ++ type_name v ++ u "' object has no attribute '" ++ attr ++ u "'").

Definition TypeError (text : pystr) : exn := Exn (u "TypeError") text.

Definition KeyError (k : pystr) : exn :=
  Exn (u "KeyError") (u "'" ++ k ++ u "'").

Fixpoint dict_lookup (k : pystr) (d : dict) : option value :=
  match d with
  | [] => None
  | (k', v) :: d' => if PyStr.eqb k k' then Some v else dict_lookup k d'
  end.

Definition dict_mem (k : pystr) (d : dict) : bool :=
  match dict_lookup k d with Some _ => true | None => false end.

(** [d[k] = v]: an existing key keeps its position. *)
Fixpoint dict_set (k : pystr) (v : value) (d : dict) : dict :=
  match d with
  | [] => [(k, v)]
  | (k', v') :: d' =>
      if PyStr.eqb k k' then (k', v) :: d' else (k', v') :: dict_set k v d'
  end.

Definition is_str (k : pystr) (v : value) : bool :=
  match v with
  | VStr s => PyStr.eqb s k
  | _ => false
  end.

(** [k in v] for a string [k]. *)
Definition contains_op (k : pystr) (v : value) : outcome bool :=
  match v with
  | VDict d => Returned (dict_mem k d)
  | VList l => Returned (existsb (is_str k) l)
  | VStr s => Returned (PyStr.contains k s)
  | _ => Raised (TypeError (u "argument of type '" ++ type_name v
                              ++ u "' is not iterable"))
  end.

(** [v[k]] for a string [k]. *)
Definition getitem (v : value) (k : pystr) : outcome value :=
  match v with
  | VDict d =>
      match dict_lookup k d with
      | Some x => Returned x
      | None => Raised (KeyError k)
      end
  | VList _ =>
      Raised (TypeError (u "list indices must be integers or slices, not str"))
  | VStr _ => Raised (TypeError (u "string indices must be integers, not 'str'"))
  | _ => Raised (TypeError (u "'" ++ type_name v ++ u "' object is not subscriptable"))
  end.

(** [v.get(k, default)] *)
Definition get (v : value) (k : pystr) (default : value) : outcome value :=
  match v with
  | VDict d =>
      match dict_lookup k d with
      | Some x => Returned x
      | None => Returned default
      end
  | _ => Raised (AttributeError v (u "get"))
  end.

(** The value [d.get(k, default)] returns on a dictionary. *)
Definition dict_get (d : dict) (k : pystr) (default : value) : value :=
  match dict_lookup k d with
  | Some x => x
  | None => default
  end.

(** [v.items()] *)
Definition items (v : value) : outcome dict :=
  match v with
  | VDict d => Returned d
  | _ => Raised (AttributeError v (u "items"))
  end.

End Py.

(** A result envelope is a dictionary tagged by its ["status"] entry. *)
Definition status_of (v : value) : option value :=
  match v with
  | VDict d => Py.dict_lookup (u "status") d
  | _ => None
  end.

Definition is_success (v : value) : bool :=
  match status_of v with
  | Some s => Py.is_str (u "success") s
  | None => false
  end.

Definition is_error (v : value) : bool :=
  match status_of v with
  | Some s => Py.is_str (u "error") s
  | None => false
  end.

Definition message_of (v : value) : option pystr :=
  match v with
  | VDict d =>
      match Py.dict_lookup (u "message") d with
      | Some (VStr m) => Some m
      | _ => None
      end
  | _ => None
  end.

(* ===================================================================== *)
(** ** tools/__init__.py *)
(* ===================================================================== *)

Module tools.

Definition ELLIPSIS : pystr := u "...".

(** [' '.join(text.split())] *)
Definition collapse (text : pystr) : pystr := join [SPACE] (split text).

Definition _truncate_description (text : value) (max_length : nat) : outcome value :=
  if negb (Py.truthy text) then Returned text
  else
    match text with
    | VStr s =>
        let text := collapse s in
        if (len text <=? max_length)%nat then Returned (VStr text)
        else
          let truncated := rsplit1_head (slice_to max_length text) in
          Returned (VStr (truncated ++ ELLIPSIS))
    | _ => Raised (Py.AttributeError text (u "split"))
    end.

(** The body of the loop over [params['properties'].items()]; [acc] is
    [compact_func['parameters']['properties']]. *)
Fixpoint compact_properties (props : dict) (acc : dict) : outcome dict :=
  match props with
  | [] => Returned acc
  | (key, value) :: rest =>
      ty <- Py.get value (u "type") (VStr (u "string"));;
      d <- Py.get value (u "description") (VStr []);;
      d' <- _truncate_description d 80;;
      let entry := [(u "type", ty); (u "description", d')] in
      has_default <- Py.contains_op (u "default") value;;
      entry' <- (if has_default : bool
                 then dv <- Py.getitem value (u "default");;
                      Returned (Py.dict_set (u "default") dv entry)
                 else Returned entry);;
      compact_properties rest (Py.dict_set key (VDict entry') acc)
  end.

Definition _compact_tool_definition (tool : value) : outcome value :=
  is_nested <- Py.contains_op (u "function") tool;;
  if is_nested : bool then
    func <- Py.getitem tool (u "function");;
    name <- Py.get func (u "name") (VStr []);;
    d <- Py.get func (u "description") (VStr []);;
    description <- _truncate_description d 150;;
    params <- Py.get func (u "parameters") (VDict []);;
    has_props <- Py.contains_op (u "properties") params;;
    properties <- (if has_props : bool
                   then p <- Py.getitem params (u "properties");;
                        its <- Py.items p;;
                        compact_properties its []
                   else Returned []);;
    has_req <- Py.contains_op (u "required") params;;
    required <- (if has_req : bool
                 then Py.getitem params (u "required")
                 else Returned (VList []));;
    Returned
      (VDict [(u "type", VStr (u "function"));
              (u "function",
               VDict [(u "name", name);
                      (u "description", description);
                      (u "parameters",
                       VDict [(u "type", VStr (u "object"));
                              (u "properties", VDict properties);
                              (u "required", required)])])])
  else Returned tool.

(** The format correction applied to each raw definition in
    [get_tools_definition]. *)
Definition format_tool (tool : value) : outcome value :=
  is_nested <- Py.contains_op (u "function") tool;;
  if is_nested : bool then Returned tool
  else
    has_name <- Py.contains_op (u "name") tool;;
    has_description <- (if has_name : bool
                        then Py.contains_op (u "description") tool
                        else Returned false);;
    if has_description : bool then
      name <- Py.getitem tool (u "name");;
      description <- Py.getitem tool (u "description");;
      parameters <- Py.get tool (u "parameters") (VDict []);;
      Returned
        (VDict [(u "type", VStr (u "function"));
                (u "function",
                 VDict [(u "name", name);
                        (u "description", description);
                        (u "parameters", parameters)])])
    else Returned tool.

Fixpoint for_each (f : value -> outcome value) (l : list value)
  : outcome (list value) :=
  match l with
  | [] => Returned []
  | x :: l' =>
      y <- f x;;
      ys <- for_each f l';;
      Returned (y :: ys)
  end.

(** [get_tools_definition(compact)], given the definitions collected from
    the tool modules. *)
Definition get_tools_definition (raw_tools : list value) (compact : bool)
  : outcome (list value) :=
  formatted_tools <- for_each format_tool raw_tools;;
  if compact then for_each _compact_tool_definition formatted_tools
  else Returned formatted_tools.

Definition get_tools_definition_compact (raw_tools : list value) :=
  get_tools_definition raw_tools true.

(** The modules bound by the imports of [execute_tool]. *)
Inductive tool_module : Type :=
| tool_search_web | tool_email | tool_weather | tool_cv | tool_currency
| tool_flight_search | tool_hotel_search | tool_flight_booking
| tool_hotel_booking | tool_exercises | tool_dogs | tool_knowledge_base
| tool_health_advice | tool_news | tool_places | tool_translator
| tool_calculator | tool_end_conversation | tool_prayer_times
| tool_pharmacy_locator | tool_taxi_estimate | tool_bus_schedule
| tool_school_info | tool_government_services | tool_tax_calculator
| tool_conversation_brain | tool_schedule_callback
| tool_send_confirmation_email | tool_send_sms_disconnection
| tool_send_sms_payment_promise | tool_send_sms_extension_confirm
| document_generator | document_analyzer | tool_create_agent_config
| tool_list_azure_voices.

Definition tool_map : list (pystr * tool_module) :=
  [ (u "search_web", tool_search_web);
    (u "send_email", tool_email);
    (u "get_weather_forecast", tool_weather);
    (u "create_cv", tool_cv);
    (u "convert_currency", tool_currency);
    (u "search_flights", tool_flight_search);
    (u "search_hotels", tool_hotel_search);
    (u "book_flight", tool_flight_booking);
    (u "book_hotel", tool_hotel_booking);
    (u "search_exercises", tool_exercises);
    (u "search_dog_breeds", tool_dogs);
    (u "search_knowledge_base", tool_knowledge_base);
    (u "get_health_advice", tool_health_advice);
    (u "get_news", tool_news);
    (u "search_places", tool_places);
    (u "translate_text", tool_translator);
    (u "calculate", tool_calculator);
    (u "end_conversation", tool_end_conversation);
    (u "get_prayer_times", tool_prayer_times);
    (u "find_pharmacy", tool_pharmacy_locator);
    (u "estimate_taxi_fare", tool_taxi_estimate);
    (u "get_bus_schedule", tool_bus_schedule);
    (u "get_school_info", tool_school_info);
    (u "get_government_service_info", tool_government_services);
    (u "calculate_tax", tool_tax_calculator);
    (u "get_next_instruction", tool_conversation_brain);
    (u "schedule_callback", tool_schedule_callback);
    (u "send_confirmation_email", tool_send_confirmation_email);
    (u "send_sms_disconnection", tool_send_sms_disconnection);
    (u "send_sms_payment_promise", tool_send_sms_payment_promise);
    (u "send_sms_extension_confirm", tool_send_sms_extension_confirm);
    (u "generate_document", document_generator);
    (u "analyze_document", document_analyzer);
    (u "create_agent_config", tool_create_agent_config);
    (u "list_azure_voices", tool_list_azure_voices) ].

(** [tool_map.get(tool_name)] *)
Fixpoint lookup (tool_name : pystr) (m : list (pystr * tool_module))
  : option tool_module :=
  match m with
  | [] => None
  | (k, md) :: m' => if PyStr.eqb tool_name k then Some md else lookup tool_name m'
  end.

Definition error_result (message : pystr) : value :=
  VDict [(u "status", VStr (u "error")); (u "message", VStr message)].

Definition success_result (result : value) : value :=
  VDict [(u "status", VStr (u "success")); (u "result", result)].

Definition not_found_message (tool_name : pystr) : pystr :=
  u "Outil '" ++ tool_name ++ u "' non trouvé. Outils disponibles: "
    ++ join (u ", ") (map fst tool_map).

Definition failure_message (tool_name : pystr) (e : exn) : pystr :=
  u "Erreur lors de l'exécution de l'outil '" ++ tool_name ++ u "': "
    ++ exn_text e.

(** What [execute_tool] uses of an imported module: its [execute] and the
    entry points of the two document modules.  An attribute that a module
    does not define is a function raising the [AttributeError] of the
    attribute access. *)
Record py_module : Type := PyModule {
  execute : value -> outcome value;
  handle_document_generation_tool_call : value -> outcome value;
  handle_document_analyzer_tool_call :
    value -> value -> value -> value -> outcome value
}.

Section Dispatch.

(** [from . import m] (for the two document modules,
    [from utils.tools import m]): the module object bound to the name, or
    the exception the statement raises, which is [ImportError] when the
    module is not found and otherwise what its top-level code raises. *)
Variable import_ : tool_module -> outcome py_module.

(** The import statements at the top of [execute_tool], in their order,
    and the names they bind. *)
Definition import_all : outcome (tool_module -> py_module) :=
  m_tool_search_web <- import_ tool_search_web;;
  m_tool_email <- import_ tool_email;;
  m_tool_weather <- import_ tool_weather;;
  m_tool_cv <- import_ tool_cv;;
  m_tool_currency <- import_ tool_currency;;
  m_tool_flight_search <- import_ tool_flight_search;;
  m_tool_hotel_search <- import_ tool_hotel_search;;
  m_tool_flight_booking <- import_ tool_flight_booking;;
  m_tool_hotel_booking <- import_ tool_hotel_booking;;
  m_tool_exercises <- import_ tool_exercises;;
  m_tool_dogs <- import_ tool_dogs;;
  m_tool_knowledge_base <- import_ tool_knowledge_base;;
  m_tool_health_advice <- import_ tool_health_advice;;
  m_tool_news <- import_ tool_news;;
  m_tool_places <- import_ tool_places;;
  m_tool_translator <- import_ tool_translator;;
  m_tool_calculator <- import_ tool_calculator;;
  m_tool_end_conversation <- import_ tool_end_conversation;;
  m_tool_prayer_times <- import_ tool_prayer_times;;
  m_tool_pharmacy_locator <- import_ tool_pharmacy_locator;;
  m_tool_taxi_estimate <- import_ tool_taxi_estimate;;
  m_tool_bus_schedule <- import_ tool_bus_schedule;;
  m_tool_school_info <- import_ tool_school_info;;
  m_tool_government_services <- import_ tool_government_services;;
  m_tool_tax_calculator <- import_ tool_tax_calculator;;
  m_tool_conversation_brain <- import_ tool_conversation_brain;;
  m_document_generator <- import_ document_generator;;
  m_document_analyzer <- import_ document_analyzer;;
  m_tool_create_agent_config <- import_ tool_create_agent_config;;
  m_tool_list_azure_voices <- import_ tool_list_azure_voices;;
  m_tool_schedule_callback <- import_ tool_schedule_callback;;
  m_tool_send_confirmation_email <- import_ tool_send_confirmation_email;;
  m_tool_send_sms_disconnection <- import_ tool_send_sms_disconnection;;
  m_tool_send_sms_payment_promise <- import_ tool_send_sms_payment_promise;;
  m_tool_send_sms_extension_confirm <- import_ tool_send_sms_extension_confirm;;
  Returned
    (fun m =>
       match m with
       | tool_search_web => m_tool_search_web
       | tool_email => m_tool_email
       | tool_weather => m_tool_weather
       | tool_cv => m_tool_cv
       | tool_currency => m_tool_currency
       | tool_flight_search => m_tool_flight_search
       | tool_hotel_search => m_tool_hotel_search
       | tool_flight_booking => m_tool_flight_booking
       | tool_hotel_booking => m_tool_hotel_booking
       | tool_exercises => m_tool_exercises
       | tool_dogs => m_tool_dogs
       | tool_knowledge_base => m_tool_knowledge_base
       | tool_health_advice => m_tool_health_advice
       | tool_news => m_tool_news
       | tool_places => m_tool_places
       | tool_translator => m_tool_translator
       | tool_calculator => m_tool_calculator
       | tool_end_conversation => m_tool_end_conversation
       | tool_prayer_times => m_tool_prayer_times
       | tool_pharmacy_locator => m_tool_pharmacy_locator
       | tool_taxi_estimate => m_tool_taxi_estimate
       | tool_bus_schedule => m_tool_bus_schedule
       | tool_school_info => m_tool_school_info
       | tool_government_services => m_tool_government_services
       | tool_tax_calculator => m_tool_tax_calculator
       | tool_conversation_brain => m_tool_conversation_brain
       | document_generator => m_document_generator
       | document_analyzer => m_document_analyzer
       | tool_create_agent_config => m_tool_create_agent_config
       | tool_list_azure_voices => m_tool_list_azure_voices
       | tool_schedule_callback => m_tool_schedule_callback
       | tool_send_confirmation_email => m_tool_send_confirmation_email
       | tool_send_sms_disconnection => m_tool_send_sms_disconnection
       | tool_send_sms_payment_promise => m_tool_send_sms_payment_promise
       | tool_send_sms_extension_confirm => m_tool_send_sms_extension_confirm
       end).

Definition execute_tool (tool_name : pystr) (arguments : value)
  : outcome value :=
  modules <- import_all;;
  match lookup tool_name tool_map with
  | None => Returned (error_result (not_found_message tool_name))
  | Some tool_module =>
      let tool_module := modules tool_module in
      try_except
        (if PyStr.eqb tool_name (u "generate_document") then
           result <- handle_document_generation_tool_call tool_module arguments;;
           Returned (success_result result)
         else if PyStr.eqb tool_name (u "analyze_document") then
           file_content <- Py.get arguments (u "file_content") (VStr []);;
           filename <- Py.get arguments (u "filename") (VStr []);;
           analysis_type <- Py.get arguments (u "analysis_type")
                              (VStr (u "extract_text"));;
           specific_question <- Py.get arguments (u "specific_question") VNone;;
           result <- handle_document_analyzer_tool_call tool_module
                       file_content filename analysis_type specific_question;;
           Returned (success_result result)
         else
           result <- execute tool_module arguments;;
           Returned result)
        (fun e => Returned (error_result (failure_message tool_name e)))
  end.

End Dispatch.

End tools.

(* ===================================================================== *)
(** ** Library functions, process environment and network *)
(* ===================================================================== *)

(** Library functions the tool modules call and whose tables are not part
    of the repository. *)
Record pylib : Type := {
  (** [str.upper] *)
  str_upper : pystr -> pystr;
  (** [str.lower] *)
  str_lower : pystr -> pystr;
  (** [datetime.strptime(s, "%Y-%m-%d")]: year, month and day, or [None]
      where it raises [ValueError] *)
  strptime : pystr -> option (Z * Z * Z);
  (** [int(s)] on a string, or [None] where it raises [ValueError] *)
  int_of_str : pystr -> option Z;
  (** [repr] of a list or of a dictionary *)
  repr : value -> pystr
}.

(** [str(v)], as an f-string renders [{v}]. *)
Definition str_ (py : pylib) (v : value) : pystr :=
  match v with
  | VStr s => s
  | VNone => u "None"
  | VBool true => u "True"
  | VBool false => u "False"
  | VInt z => of_Z z
  | _ => repr py v
  end.

(** The process environment once [load_dotenv()] has run. *)
Definition environ := pystr -> option pystr.

(** [os.getenv(name, default)] *)
Definition getenv (env : environ) (name default : pystr) : pystr :=
  match env name with
  | Some v => v
  | None => default
  end.

Definition nonempty (s : pystr) : bool :=
  match s with [] => false | _ :: _ => true end.

Module Net.

Record request : Type :=
  Request { method : pystr; url : pystr; headers : value; payload : value }.

(** What the code reads of a response: [status_code] and [json()]. *)
Record response : Type :=
  Response { status_code : Z; json : outcome value }.

(** The outside world answers a request, given the requests made so far,
    with a response or with an exception of [requests]. *)
Definition world := list request -> request -> outcome response.

(** Code that may perform HTTP calls: it reads the world and extends the
    trace of the requests it has sent. *)
Definition io (A : Type) := world -> list request -> outcome A * list request.

Definition ret {A : Type} (a : A) : io A := fun _ tr => (Returned a, tr).

Definition lift {A : Type} (c : outcome A) : io A := fun _ tr => (c, tr).

Definition bind {A B : Type} (c : io A) (k : A -> io B) : io B :=
  fun w tr =>
    match c w tr with
    | (Returned a, tr') => k a w tr'
    | (Raised e, tr') => (Raised e, tr')
    end.

Definition try_except {A : Type} (body : io A) (handler : exn -> io A) : io A :=
  fun w tr =>
    match body w tr with
    | (Returned a, tr') => (Returned a, tr')
    | (Raised e, tr') => handler e w tr'
    end.

Definition send (r : request) : io response :=
  fun w tr => (w tr r, tr ++ [r]).

Definition run {A : Type} (c : io A) (w : world) : outcome A * list request :=
  c w [].

End Net.

Declare Scope io_scope.
Delimit Scope io_scope with io.
Notation "x <~ c ;; k" := (Net.bind c (fun x => k))
  (at level 61, c at next level, right associativity) : io_scope.
Open Scope io_scope.

(** Helpers shared by the two Amadeus search tools (each module of the
    source carries its own copy of them). *)
Module Amadeus.
Section Amadeus.

Variable py : pylib.
Variable env : environ.

Definition AMADEUS_API_KEY : pystr := getenv env (u "AMADEUS_API_KEY") [].
Definition AMADEUS_API_SECRET : pystr := getenv env (u "AMADEUS_API_SECRET") [].
Definition AMADEUS_BASE_URL : pystr :=
  getenv env (u "AMADEUS_BASE_URL") (u "test.api.amadeus.com").

Definition token_request : Net.request :=
  Net.Request (u "POST")
    (u "https://" ++ AMADEUS_BASE_URL ++ u "/v1/security/oauth2/token")
    (VDict [(u "Content-Type", VStr (u "application/x-www-form-urlencoded"))])
    (VDict [(u "grant_type", VStr (u "client_credentials"));
            (u "client_id", VStr AMADEUS_API_KEY);
            (u "client_secret", VStr AMADEUS_API_SECRET)]).

Definition get_amadeus_token : Net.io value :=
  Net.try_except
    (response <~ Net.send token_request;;
     if negb (Net.status_code response =? 200)%Z then Net.ret VNone
     else
       token_data <~ Net.lift (Net.json response);;
       Net.lift (Py.get token_data (u "access_token") VNone))
    (fun _ => Net.ret VNone).

Definition missing_keys_error : value :=
  tools.error_result
    (u "Clés API Amadeus manquantes. Configurez AMADEUS_API_KEY et AMADEUS_API_SECRET dans .env").

Definition token_error : value :=
  tools.error_result
    (u "Impossible d'obtenir le token Amadeus. Vérifiez vos credentials.").

Definition date_format_error : value :=
  tools.error_result
    (u "Format de date invalide. Utilisez YYYY-MM-DD (ex: 2025-12-15)").

(** [code.upper().strip()] *)
Definition upper_strip (code : value) : outcome pystr :=
  match code with
  | VStr s => Returned (strip (str_upper py s))
  | _ => Raised (Py.AttributeError code (u "upper"))
  end.

Definition as_int (v : value) : option Z :=
  match v with
  | VInt z => Some z
  | VBool b => Some (if b then 1 else 0)%Z
  | _ => None
  end.

(** [max(lo, min(v, hi))] *)
Definition clamp (lo hi : Z) (v : value) : outcome value :=
  match as_int v with
  | Some a =>
      let m := if (hi <? a)%Z then VInt hi else v in
      let a' := if (hi <? a)%Z then hi else a in
      Returned (if (lo <? a')%Z then m else VInt lo)
  | None =>
      Raised (Py.TypeError (u "'<' not supported between instances of 'int' and '"
                              ++ Py.type_name v ++ u "'"))
  end.

(** [datetime.strptime(v, "%Y-%m-%d")]; [Returned None] stands for the
    [ValueError] that the callers catch on the spot. *)
Definition strptime_value (v : value) : outcome (option (Z * Z * Z)) :=
  match v with
  | VStr s => Returned (strptime py s)
  | _ => Raised (Py.TypeError (u "strptime() argument 1 must be str, not "
                                 ++ Py.type_name v))
  end.

(** [a <= b] on two dates. *)
Definition date_le (a b : Z * Z * Z) : bool :=
  let '(ya, ma, da) := a in
  let '(yb, mb, db) := b in
  ((ya <? yb) || (ya =? yb) && ((ma <? mb) || (ma =? mb) && (da <=? db)))%Z.

End Amadeus.
End Amadeus.

(* ===================================================================== *)
(** ** tools/tool_flight_search.py *)
(* ===================================================================== *)

Module tool_flight_search.
Section FlightSearch.

Variable py : pylib.
Variable env : environ.

(** The mapping of the provider's answer to the list of flights
    (the end of [search_flights], after the offers request). *)
Variable flight_results :
  pystr -> pystr -> value -> value -> value -> value -> Net.response -> outcome value.

Definition iata_error : value :=
  tools.error_result (u "Les codes IATA doivent faire 3 lettres (ex: OUA, CDG, ABJ)").

Definition offers_request (token : value) (origin destination : pystr)
    (departure_date return_date adults travel_class max_results : value)
  : Net.request :=
  let params :=
    [(u "originLocationCode", VStr origin);
     (u "destinationLocationCode", VStr destination);
     (u "departureDate", departure_date);
     (u "adults", adults);
     (u "travelClass", travel_class);
     (u "max", max_results);
     (u "currencyCode", VStr (u "EUR"))] in
  Net.Request (u "GET")
    (u "https://" ++ Amadeus.AMADEUS_BASE_URL env ++ u "/v2/shopping/flight-offers")
    (VDict [(u "Authorization", VStr (u "Bearer " ++ str_ py token))])
    (VDict (if Py.truthy return_date
            then Py.dict_set (u "returnDate") return_date params
            else params)).

(** The inner [try] of [search_flights]: [Returned false] when a date is
    rejected with [ValueError]. *)
Definition dates_valid (departure_date return_date : value) : outcome bool :=
  d <- Amadeus.strptime_value py departure_date;;
  match d with
  | None => Returned false
  | Some _ =>
      if Py.truthy return_date then
        r <- Amadeus.strptime_value py return_date;;
        Returned (match r with Some _ => true | None => false end)
      else Returned true
  end.

Definition search_flights
    (origin destination departure_date return_date adults travel_class
       max_results : value) : Net.io value :=
  Net.try_except
    (if negb (nonempty (Amadeus.AMADEUS_API_KEY env))
        || negb (nonempty (Amadeus.AMADEUS_API_SECRET env))
     then Net.ret Amadeus.missing_keys_error
     else
       origin <~ Net.lift (Amadeus.upper_strip py origin);;
       destination <~ Net.lift (Amadeus.upper_strip py destination);;
       if negb (len origin =? 3)%nat || negb (len destination =? 3)%nat
       then Net.ret iata_error
       else
         adults <~ Net.lift (Amadeus.clamp 1 9 adults);;
         max_results <~ Net.lift (Amadeus.clamp 1 10 max_results);;
         ok <~ Net.lift (dates_valid departure_date return_date);;
         if negb ok then Net.ret Amadeus.date_format_error
         else
           token <~ Amadeus.get_amadeus_token env;;
           if negb (Py.truthy token) then Net.ret Amadeus.token_error
           else
             response <~ Net.send (offers_request token origin destination
                                      departure_date return_date adults
                                      travel_class max_results);;
             Net.lift (flight_results origin destination departure_date
                         return_date adults travel_class response))
    (fun e =>
       Net.ret (tools.error_result
                  (u "Erreur lors de la recherche de vols: " ++ exn_text e))).

Definition execute (arguments : value) : Net.io value :=
  origin <~ Net.lift (Py.get arguments (u "origin") (VStr []));;
  destination <~ Net.lift (Py.get arguments (u "destination") (VStr []));;
  departure_date <~ Net.lift (Py.get arguments (u "departure_date") (VStr []));;
  return_date <~ Net.lift (Py.get arguments (u "return_date") (VStr []));;
  adults <~ Net.lift (Py.get arguments (u "adults") (VInt 1));;
  travel_class <~ Net.lift (Py.get arguments (u "travel_class") (VStr (u "ECONOMY")));;
  max_results <~ Net.lift (Py.get arguments (u "max_results") (VInt 5));;
  search_flights origin destination departure_date return_date adults
    travel_class max_results.

End FlightSearch.
End tool_flight_search.

(* ===================================================================== *)
(** ** tools/tool_hotel_search.py *)
(* ===================================================================== *)

Module tool_hotel_search.
Section HotelSearch.

Variable py : pylib.
Variable env : environ.

(** The two provider requests of [search_hotels] (hotel list, then
    offers) and the mapping of their answers, once a token is held. *)
Variable hotel_results :
  value -> pystr -> value -> value -> value -> value -> value -> Net.io value.

Definition iata_error : value :=
  tools.error_result (u "Le code IATA de ville doit faire 3 lettres (ex: OUA, PAR, ABJ)").

Definition stay_error : value :=
  tools.error_result (u "La date de départ doit être après la date d'arrivée").

Inductive date_check : Type := DatesOk | BadStay | BadFormat.

(** The inner [try] of [search_hotels]. *)
Definition check_dates (check_in_date check_out_date : value)
  : outcome date_check :=
  i <- Amadeus.strptime_value py check_in_date;;
  match i with
  | None => Returned BadFormat
  | Some check_in =>
      o <- Amadeus.strptime_value py check_out_date;;
      match o with
      | None => Returned BadFormat
      | Some check_out =>
          Returned (if Amadeus.date_le check_out check_in then BadStay else DatesOk)
      end
  end.

Definition search_hotels
    (city_code check_in_date check_out_date adults rooms max_results : value)
  : Net.io value :=
  Net.try_except
    (if negb (nonempty (Amadeus.AMADEUS_API_KEY env))
        || negb (nonempty (Amadeus.AMADEUS_API_SECRET env))
     then Net.ret Amadeus.missing_keys_error
     else
       city_code <~ Net.lift (Amadeus.upper_strip py city_code);;
       if negb (len city_code =? 3)%nat then Net.ret iata_error
       else
         adults <~ Net.lift (Amadeus.clamp 1 9 adults);;
         rooms <~ Net.lift (Amadeus.clamp 1 9 rooms);;
         max_results <~ Net.lift (Amadeus.clamp 1 20 max_results);;
         chk <~ Net.lift (check_dates check_in_date check_out_date);;
         match chk with
         | BadStay => Net.ret stay_error
         | BadFormat => Net.ret Amadeus.date_format_error
         | DatesOk =>
             token <~ Amadeus.get_amadeus_token env;;
             if negb (Py.truthy token) then Net.ret Amadeus.token_error
             else hotel_results token city_code check_in_date check_out_date
                    adults rooms max_results
         end)
    (fun e =>
       Net.ret (tools.error_result
                  (u "Erreur lors de la recherche d'hôtels: " ++ exn_text e))).

Definition execute (arguments : value) : Net.io value :=
  city_code <~ Net.lift (Py.get arguments (u "city_code") (VStr []));;
  check_in_date <~ Net.lift (Py.get arguments (u "check_in_date") (VStr []));;
  check_out_date <~ Net.lift (Py.get arguments (u "check_out_date") (VStr []));;
  adults <~ Net.lift (Py.get arguments (u "adults") (VInt 1));;
  rooms <~ Net.lift (Py.get arguments (u "rooms") (VInt 1));;
  max_results <~ Net.lift (Py.get arguments (u "max_results") (VInt 10));;
  search_hotels city_code check_in_date check_out_date adults rooms max_results.

End HotelSearch.
End tool_hotel_search.

(* ===================================================================== *)
(** ** tools/tool_health_advice.py *)
(* ===================================================================== *)

Module tool_health_advice.

(** One entry of the local knowledge base. *)
Record advice : Type := {
  possible_causes : list pystr;
  remedies : list pystr;
  when_to_see_doctor : pystr;
  natural_remedies : list pystr
}.

Definition advice_database : list (pystr * advice) :=
  [ (u "ballonnement",
     {| possible_causes :=
          [u "Excès de gaz intestinaux"; u "Indigestion"; u "Constipation";
           u "Syndrome de l'intestin irritable"];
        remedies :=
          [u "Boire une tisane de gingembre ou de menthe";
           u "Masser doucement l'abdomen dans le sens des aiguilles d'une montre";
           u "Éviter les aliments gazeux (choux, haricots, boissons gazeuses)";
           u "Marcher 15-20 minutes après les repas";
           u "Charbon actif (disponible en pharmacie)"];
        when_to_see_doctor :=
          u "Si douleur intense, fièvre, vomissements ou symptômes persistant plus de 3 jours";
        natural_remedies :=
          [u "Tisane de fenouil"; u "Eau chaude citronnée"; u "Yaourt probiotique"] |});
    (u "maux de tête",
     {| possible_causes :=
          [u "Tension"; u "Déshydratation"; u "Fatigue"; u "Stress"; u "Migraine"];
        remedies :=
          [u "Repos dans un endroit calme et sombre";
           u "Boire beaucoup d'eau (1-2 litres)";
           u "Compresse froide sur le front";
           u "Paracétamol 500mg (si nécessaire)";
           u "Massage des tempes avec huile essentielle de menthe"];
        when_to_see_doctor :=
          u "Si très intense, soudain, accompagné de fièvre, confusion ou raideur de la nuque";
        natural_remedies :=
          [u "Tisane de camomille"; u "Huile essentielle de lavande"; u "Repos"] |});
    (u "fièvre",
     {| possible_causes :=
          [u "Infection virale"; u "Infection bactérienne"; u "Inflammation"];
        remedies :=
          [u "Repos complet";
           u "Boire beaucoup de liquides (eau, jus, bouillon)";
           u "Paracétamol 1g toutes les 6h (adulte)";
           u "Compresses tièdes pour faire baisser la température";
           u "Vêtements légers"];
        when_to_see_doctor :=
          u "Si fièvre >39°C persistante, difficulté à respirer, confusion ou convulsions";
        natural_remedies :=
          [u "Tisane de citronnelle"; u "Eau de coco"; u "Bain tiède"] |});
    (u "toux",
     {| possible_causes :=
          [u "Rhume"; u "Grippe"; u "Allergie"; u "Irritation des voies respiratoires"];
        remedies :=
          [u "Miel + citron dans de l'eau chaude";
           u "Inhalation de vapeur d'eau";
           u "Repos vocal";
           u "Hydratation abondante";
           u "Éviter les irritants (fumée, poussière)"];
        when_to_see_doctor :=
          u "Si toux avec sang, fièvre élevée, essoufflement ou durée >2 semaines";
        natural_remedies :=
          [u "Sirop de miel et gingembre"; u "Tisane de thym";
           u "Inhalation d'eucalyptus"] |});
    (u "diarrhée",
     {| possible_causes :=
          [u "Infection intestinale"; u "Intoxication alimentaire"; u "Stress"];
        remedies :=
          [u "Réhydratation orale (SRO) - eau + sel + sucre";
           u "Riz blanc, banane, compote de pomme";
           u "Éviter produits laitiers et aliments gras";
           u "Repos";
           u "Probiotiques naturels (yaourt après amélioration)"];
        when_to_see_doctor :=
          u "Si sang dans les selles, déshydratation sévère, fièvre élevée ou durée >3 jours";
        natural_remedies :=
          [u "Eau de riz"; u "Tisane de menthe"; u "Charbon actif"] |}) ].

Definition strings (l : list pystr) : value := VList (map VStr l).

Definition default_advice (symptoms : value) : value :=
  VDict
    [(u "status", VStr (u "success"));
     (u "symptoms", symptoms);
     (u "advice",
      VDict
        [(u "general_advice",
          strings [u "Repos et hydratation";
                   u "Surveiller l'évolution des symptômes";
                   u "Consulter un médecin si les symptômes persistent ou s'aggravent";
                   u "Éviter l'automédication prolongée"]);
         (u "when_to_see_doctor",
          VStr (u "Si symptômes graves, persistants (>3 jours) ou inquiétants"));
         (u "emergency_signs",
          strings [u "Douleur intense soudaine";
                   u "Difficulté à respirer";
                   u "Perte de conscience";
                   u "Fièvre très élevée (>40°C)";
                   u "Saignement important"])]);
     (u "disclaimer",
      VStr (u "⚠️ Ces conseils sont généraux. Consultez un professionnel de santé pour un diagnostic précis."));
     (u "note",
      VStr (u "Pour des conseils plus précis, configurez INFERMEDICA_APP_ID et INFERMEDICA_APP_KEY dans .env"))].

Definition matched_result (symptoms : value) (matched_advice : advice) : value :=
  VDict
    [(u "status", VStr (u "success"));
     (u "symptoms", symptoms);
     (u "possible_causes", strings (possible_causes matched_advice));
     (u "advice",
      VDict [(u "remedies", strings (remedies matched_advice));
             (u "natural_remedies", strings (natural_remedies matched_advice));
             (u "when_to_see_doctor", VStr (when_to_see_doctor matched_advice))]);
     (u "emergency_signs",
      strings [u "Douleur intense soudaine";
               u "Difficulté à respirer";
               u "Perte de conscience";
               u "Saignement important"]);
     (u "disclaimer",
      VStr (u "⚠️ Ces conseils sont informatifs. Consultez un médecin si les symptômes persistent ou s'aggravent."))].

Definition get_tool_definition : value :=
  VDict
    [(u "type", VStr (u "function"));
     (u "name", VStr (u "get_health_advice"));
     (u "description",
      VStr (u "Analyse des symptômes et fourniture de conseils santé, remèdes naturels et recommandations médicales. Indique quand consulter un médecin. Supporte les symptômes courants (ballonnement, maux de tête, fièvre, toux, etc.)"));
     (u "parameters",
      VDict
        [(u "type", VStr (u "object"));
         (u "properties",
          VDict
            [(u "symptoms",
              VDict
                [(u "type", VStr (u "string"));
                 (u "description",
                  VStr (u "Description des symptômes ressentis (ex: 'ballonnement et douleur abdominale', 'maux de tête et fièvre', 'toux sèche')"))]);
             (u "age",
              VDict
                [(u "type", VStr (u "integer"));
                 (u "description",
                  VStr (u "Âge de la personne (optionnel, pour des conseils plus précis)"));
                 (u "default", VInt 30)]);
             (u "sex",
              VDict
                [(u "type", VStr (u "string"));
                 (u "description",
                  VStr (u "Sexe de la personne: 'male' ou 'female' (optionnel)"));
                 (u "enum", VList [VStr (u "male"); VStr (u "female")])])]);
         (u "required", VList [VStr (u "symptoms")])])].

Section HealthAdvice.

Variable py : pylib.
Variable env : environ.

(** The mapping of the diagnosis answer to the result (the end of
    [get_health_advice], from [diagnosis_response.json()] on). *)
Variable diagnosis_results :
  value -> value -> value -> Net.response -> outcome value.

Definition INFERMEDICA_APP_ID : pystr := getenv env (u "INFERMEDICA_APP_ID") [].
Definition INFERMEDICA_APP_KEY : pystr := getenv env (u "INFERMEDICA_APP_KEY") [].
Definition INFERMEDICA_API_URL : pystr := u "https://api.infermedica.com/v3".

Definition get_generic_health_advice (symptoms : value) : outcome value :=
  match symptoms with
  | VStr s =>
      let symptoms_lower := str_lower py s in
      match find (fun entry => contains (fst entry) symptoms_lower) advice_database with
      | Some (_, matched_advice) => Returned (matched_result symptoms matched_advice)
      | None => Returned (default_advice symptoms)
      end
  | _ => Raised (Py.AttributeError symptoms (u "lower"))
  end.

(** [not symptoms or len(symptoms.strip()) == 0] *)
Definition no_symptoms (symptoms : value) : outcome bool :=
  if negb (Py.truthy symptoms) then Returned true
  else
    match symptoms with
    | VStr s => Returned (len (strip s) =? 0)%nat
    | _ => Raised (Py.AttributeError symptoms (u "strip"))
    end.

Definition request_headers : value :=
  VDict [(u "App-Id", VStr INFERMEDICA_APP_ID);
         (u "App-Key", VStr INFERMEDICA_APP_KEY);
         (u "Content-Type", VStr (u "application/json"))].

Definition parse_request (symptoms age sex : value) : Net.request :=
  Net.Request (u "POST") (INFERMEDICA_API_URL ++ u "/parse") request_headers
    (VDict [(u "text", symptoms);
            (u "age", VDict [(u "value", age)]);
            (u "sex", sex)]).

Definition diagnosis_request (age sex : value) (evidence : list value)
  : Net.request :=
  Net.Request (u "POST") (INFERMEDICA_API_URL ++ u "/diagnosis") request_headers
    (VDict [(u "sex", sex);
            (u "age", VDict [(u "value", age)]);
            (u "evidence", VList evidence)]).

(** The elements a [for] loop visits. *)
Definition iterate (v : value) : outcome (list value) :=
  match v with
  | VList l => Returned l
  | VDict d => Returned (map (fun kv => VStr (fst kv)) d)
  | VStr s => Returned (map (fun c => VStr [c]) s)
  | _ => Raised (Py.TypeError (u "'" ++ Py.type_name v ++ u "' object is not iterable"))
  end.

Fixpoint collect_evidence (mentions : list value) : outcome (list value) :=
  match mentions with
  | [] => Returned []
  | mention :: rest =>
      choice <- Py.get mention (u "choice_id") VNone;;
      if Py.is_str (u "present") choice then
        id <- Py.get mention (u "id") VNone;;
        evidence <- collect_evidence rest;;
        Returned (VDict [(u "id", id);
                         (u "choice_id", VStr (u "present"));
                         (u "source", VStr (u "initial"))] :: evidence)
      else collect_evidence rest
  end.

Definition no_symptoms_error : value :=
  tools.error_result (u "Veuillez décrire vos symptômes").

Definition get_health_advice (symptoms age sex : value) : Net.io value :=
  Net.try_except
    (if negb (nonempty INFERMEDICA_APP_ID) || negb (nonempty INFERMEDICA_APP_KEY)
     then Net.lift (get_generic_health_advice symptoms)
     else
       blank <~ Net.lift (no_symptoms symptoms);;
       if blank : bool then Net.ret no_symptoms_error
       else
         parse_response <~ Net.send (parse_request symptoms age sex);;
         if negb (Net.status_code parse_response =? 200)%Z
         then Net.lift (get_generic_health_advice symptoms)
         else
           parsed_data <~ Net.lift (Net.json parse_response);;
           mentioned_symptoms <~ Net.lift (Py.get parsed_data (u "mentions") (VList []));;
           if negb (Py.truthy mentioned_symptoms)
           then Net.lift (get_generic_health_advice symptoms)
           else
             mentions <~ Net.lift (iterate mentioned_symptoms);;
             evidence <~ Net.lift (collect_evidence mentions);;
             diagnosis_response <~ Net.send (diagnosis_request age sex evidence);;
             if negb (Net.status_code diagnosis_response =? 200)%Z
             then Net.lift (get_generic_health_advice symptoms)
             else Net.lift (diagnosis_results symptoms age sex diagnosis_response))
    (fun _ => Net.lift (get_generic_health_advice symptoms)).

Definition execute (arguments : value) : Net.io value :=
  symptoms <~ Net.lift (Py.get arguments (u "symptoms") (VStr []));;
  age <~ Net.lift (Py.get arguments (u "age") (VInt 30));;
  sex <~ Net.lift (Py.get arguments (u "sex") (VStr (u "male")));;
  get_health_advice symptoms age sex.

End HealthAdvice.
End tool_health_advice.

(* ===================================================================== *)
(** ** tools/tool_email.py *)
(* ===================================================================== *)

Module tool_email.

(** [x or y], where [y] is evaluated only when [x] is falsy. *)
Definition or_else (x y : outcome value) : outcome value :=
  v <- x;;
  if Py.truthy v then Returned v else y.

(** [arguments.get(key)] *)
Definition arg (arguments : value) (key : pystr) : outcome value :=
  Py.get arguments key VNone.

Definition resolve_email (arguments : value) : outcome value :=
  or_else
    (or_else (or_else (arg arguments (u "email")) (arg arguments (u "to_email")))
             (arg arguments (u "recipient")))
    (Returned (VStr [])).

Definition resolve_message (arguments : value) : outcome value :=
  or_else
    (or_else (or_else (arg arguments (u "message")) (arg arguments (u "body")))
             (arg arguments (u "content")))
    (Returned (VStr [])).

Definition resolve_url (arguments : value) : outcome value :=
  or_else (or_else (arg arguments (u "url")) (arg arguments (u "link")))
          (Returned (VStr [])).

(** [subject[:30]], evaluated for the log line. *)
Definition slice_check (subject : value) : outcome unit :=
  match subject with
  | VStr _ | VList _ => Returned tt
  | VDict _ => Raised (Py.TypeError (u "unhashable type: 'slice'"))
  | _ => Raised (Py.TypeError (u "'" ++ Py.type_name subject
                                 ++ u "' object is not subscriptable"))
  end.

(** [len(message)], evaluated for the log line. *)
Definition len_check (message : value) : outcome unit :=
  match message with
  | VStr _ | VList _ | VDict _ => Returned tt
  | _ => Raised (Py.TypeError (u "object of type '" ++ Py.type_name message
                                 ++ u "' has no len()"))
  end.

Section Email.

(** [send_email(email, subject, message, url)]: validation of the address
    and the exchange with the mail service. *)
Variable send_email : value -> value -> value -> value -> outcome value.

Definition execute (arguments : value) : outcome value :=
  email <- resolve_email arguments;;
  subject <- Py.get arguments (u "subject") (VStr []);;
  message <- resolve_message arguments;;
  url <- resolve_url arguments;;
  _ <- slice_check subject;;
  _ <- len_check message;;
  send_email email subject message url.

End Email.
End tool_email.

(* ===================================================================== *)
(** ** tools/tool_places.py *)
(* ===================================================================== *)

Module tool_places.
Section Places.

Variable py : pylib.
Variable env : environ.

(** The request to the maps service and the mapping of its answer, in
    [search_places_azure_maps] once the key is known to be set; its own
    [try] turns every failure into the empty list. *)
Variable azure_maps_search : value -> value -> Z -> list value.

Definition AZURE_MAPS_KEY : pystr := getenv env (u "AZURE_MAPS_SUBSCRIPTION_KEY") [].

Definition search_places_azure_maps (query location : value) (max_results : Z)
  : list value :=
  if negb (nonempty AZURE_MAPS_KEY) then []
  else azure_maps_search query location max_results.

(** [int(v)] *)
Definition int_ (v : value) : outcome Z :=
  match v with
  | VInt z => Returned z
  | VBool b => Returned (if b then 1 else 0)%Z
  | VStr s =>
      match int_of_str py s with
      | Some z => Returned z
      | None => Raised (Exn (u "ValueError")
                          (u "invalid literal for int() with base 10: " ++ repr py v))
      end
  | _ => Raised (Py.TypeError
                   (u "int() argument must be a string, a bytes-like object or a real number, not '"
                      ++ Py.type_name v ++ u "'"))
  end.

Definition execute (arguments : value) : outcome value :=
  query <- Py.get arguments (u "query") (VStr []);;
  location <- Py.get arguments (u "location") (VStr (u "Ouagadougou"));;
  m <- Py.get arguments (u "max_results") (VInt 5);;
  n <- int_ m;;
  let max_results := if (10 <? n)%Z then 10%Z else n in
  if negb (Py.truthy query) then
    Returned (tools.error_result
                (u "Veuillez spécifier un type de lieu à rechercher (ex: 'restaurant', 'pharmacie', 'hôtel')"))
  else
    try_except
      (let places := search_places_azure_maps query location max_results in
       match places with
       | [] =>
           Returned
             (VDict
                [(u "status", VStr (u "no_results"));
                 (u "query", query);
                 (u "location", location);
                 (u "message",
                  VStr (u "Aucun lieu trouvé pour '" ++ str_ py query ++ u "' à "
                          ++ str_ py location ++ u ". Essayez une autre recherche."));
                 (u "suggestions",
                  VList
                    [VStr (u "Utilisez des termes plus généraux (ex: 'restaurant' au lieu de 'restaurant italien')");
                     VStr (u "Vérifiez l'orthographe de la ville");
                     VStr (u "Essayez une autre ville proche")])])
       | _ :: _ =>
           let n_places := of_Z (Z.of_nat (List.length places)) in
           Returned
             (VDict
                [(u "status", VStr (u "success"));
                 (u "query", query);
                 (u "location", location);
                 (u "total_results", VInt (Z.of_nat (List.length places)));
                 (u "places", VList places);
                 (u "message",
                  VStr (u "✅ " ++ n_places ++ u " lieu(x) trouvé(s) pour '"
                          ++ str_ py query ++ u "' à " ++ str_ py location));
                 (u "note",
                  VStr (u "Résultats triés par proximité depuis le centre de la ville"))])
       end)
      (fun e =>
         Returned
           (VDict
              [(u "status", VStr (u "error"));
               (u "message",
                VStr (u "Erreur lors de la recherche de lieux: " ++ exn_text e));
               (u "fallback", VStr (u "Veuillez réessayer dans quelques instants"))])).

End Places.
End tool_places.

(* ===================================================================== *)
(** ** A concrete instance of the library functions *)
(* ===================================================================== *)

(** The library functions restricted to the inputs the examples below use:
    case mappings exact on code points below 256 and the identity above,
    dates and integers written with ASCII digits, [repr] of strings that
    need no escaping. *)
Module Latin1.

Definition upper_char (c : char) : pystr :=
  if ((97 <=? c) && (c <=? 122))%N then [(c - 32)%N]
  else if (c =? 181)%N then [924%N]
  else if (c =? 223)%N then [83%N; 83%N]
  else if (c =? 255)%N then [376%N]
  else if ((224 <=? c) && (c <=? 254) && negb (c =? 247))%N then [(c - 32)%N]
  else [c].

Definition lower_char (c : char) : char :=
  if ((65 <=? c) && (c <=? 90))%N then (c + 32)%N
  else if ((192 <=? c) && (c <=? 222) && negb (c =? 215))%N then (c + 32)%N
  else c.

Definition upper (s : pystr) : pystr := flat_map upper_char s.
Definition lower (s : pystr) : pystr := map lower_char s.

Definition is_digit (c : char) : bool := ((48 <=? c) && (c <=? 57))%N.

(** The number written by a non-empty run of ASCII digits. *)
Fixpoint digits_value (acc : Z) (s : pystr) : option Z :=
  match s with
  | [] => Some acc
  | c :: s' =>
      if is_digit c then digits_value (10 * acc + Z.of_N (c - 48)) s' else None
  end.

Definition number (s : pystr) : option Z :=
  match s with
  | [] => None
  | _ :: _ => digits_value 0 s
  end.

(** [s.split(sep)] for a one-character separator. *)
Fixpoint split_on (sep : char) (s : pystr) : list pystr :=
  match s with
  | [] => [[]]
  | c :: s' =>
      if (c =? sep)%N then [] :: split_on sep s'
      else
        match split_on sep s' with
        | w :: ws => (c :: w) :: ws
        | [] => [[c]]
        end
  end.

Definition leap (y : Z) : bool :=
  ((y mod 4 =? 0) && negb (y mod 100 =? 0) || (y mod 400 =? 0))%Z.

Definition days_in_month (y m : Z) : Z :=
  if (m =? 2)%Z then (if leap y then 29 else 28)%Z
  else if ((m =? 4) || (m =? 6) || (m =? 9) || (m =? 11))%Z then 30%Z
  else 31%Z.

(** The day field of [%d]: one or two digits, or a space and a digit. *)
Definition day_field (s : pystr) : option Z :=
  match s with
  | [c1; c2] => if (c1 =? 32)%N then number [c2] else number s
  | [_] => number s
  | _ => None
  end.

Definition month_field (s : pystr) : option Z :=
  match s with
  | [_] | [_; _] => number s
  | _ => None
  end.

Definition year_field (s : pystr) : option Z :=
  match s with
  | [_; _; _; _] => number s
  | _ => None
  end.

Definition parse_date (s : pystr) : option (Z * Z * Z) :=
  match split_on 45%N s with
  | [ys; ms; ds] =>
      match year_field ys, month_field ms, day_field ds with
      | Some y, Some m, Some d =>
          if ((1 <=? y) && (1 <=? m) && (m <=? 12) && (1 <=? d)
              && (d <=? days_in_month y m))%Z
          then Some (y, m, d) else None
      | _, _, _ => None
      end
  | _ => None
  end.

Definition parse_int (s : pystr) : option Z :=
  match strip s with
  | c :: r =>
      if (c =? 45)%N then option_map Z.opp (number r)
      else if (c =? 43)%N then number r
      else number (c :: r)
  | [] => None
  end.

Fixpoint repr_value (v : value) : pystr :=
  match v with
  | VNone => u "None"
  | VBool true => u "True"
  | VBool false => u "False"
  | VInt z => of_Z z
  | VStr s => u "'" ++ s ++ u "'"
  | VList l => u "[" ++ join (u ", ") (map repr_value l) ++ u "]"
  | VDict d =>
      u "{"
        ++ join (u ", ")
             (map (fun kv => u "'" ++ fst kv ++ u "': " ++ repr_value (snd kv)) d)
        ++ u "}"
  end.

Definition lib : pylib :=
  {| str_upper := upper;
     str_lower := lower;
     strptime := parse_date;
     int_of_str := parse_int;
     repr := repr_value |}.

(** An environment defined by a list of assignments. *)
Fixpoint env_of (l : list (pystr * pystr)) : environ :=
  fun name =>
    match l with
    | [] => None
    | (k, v) :: l' => if PyStr.eqb name k then Some v else env_of l' name
    end.

(** A network on which no connection can be opened. *)
Definition offline : Net.world :=
  fun _ _ => Raised (Exn (u "ConnectionError") (u "Connection refused")).

End Latin1.

(* ===================================================================== *)
(** ** Readings of the specification *)
(* ===================================================================== *)

Module Spec.

(** Alias resolution as the specification words it: the value of the first
    alias, in priority order, that is present in the mapping, and the
    default when none is present. *)
Fixpoint first_present (aliases : list pystr) (d : dict) (default : value) : value :=
  match aliases with
  | [] => default
  | a :: rest =>
      match Py.dict_lookup a d with
      | Some v => v
      | None => first_present rest d default
      end
  end.

(** The value of the first alias, in priority order, that is present with
    a truthy value (not [None], empty, zero or [False]), and the default
    when there is none. *)
Fixpoint first_truthy (aliases : list pystr) (d : dict) (default : value) : value :=
  match aliases with
  | [] => default
  | a :: rest =>
      match Py.dict_lookup a d with
      | Some v => if Py.truthy v then v else first_truthy rest d default
      | None => first_truthy rest d default
      end
  end.

Definition email_aliases : list pystr := [u "email"; u "to_email"; u "recipient"].
Definition message_aliases : list pystr := [u "message"; u "body"; u "content"].
Definition url_aliases : list pystr := [u "url"; u "link"].

(** A word: a non-empty run of characters none of which is whitespace. *)
Definition is_word (w : pystr) : Prop :=
  w <> [] /\ Forall (fun c => is_space c = false) w.

(** Where a text that exceeds the limit is cut: just before the last space
    among its first [limit] characters, and after these characters when
    none of them is a space. *)
Inductive cut_at (limit : nat) (text : pystr) : pystr -> Prop :=
| cut_before_last_space :
    forall p q,
      firstn limit text = p ++ SPACE :: q -> ~ In SPACE q -> cut_at limit text p
| cut_at_limit :
    ~ In SPACE (firstn limit text) -> cut_at limit text (firstn limit text).

(** The truncation rule: the text with its whitespace collapsed when that
    fits the limit, otherwise its cut followed by the ellipsis. *)
Inductive truncated (limit : nat) (s : pystr) : pystr -> Prop :=
| within_limit :
    len (tools.collapse s) <= limit -> truncated limit s (tools.collapse s)
| over_limit :
    forall p,
      limit < len (tools.collapse s) ->
      cut_at limit (tools.collapse s) p ->
      truncated limit s (p ++ tools.ELLIPSIS).

(** A description field and its compact form; a field that holds no text
    ([None], or another empty value) is kept. *)
Definition compacted (limit : nat) (v v' : value) : Prop :=
  match v with
  | VStr s => exists t, v' = VStr t /\ truncated limit s t
  | _ => v' = v
  end.

(** Values a description field may hold without making the compaction
    raise: a string, or a falsy value. *)
Definition describable (v : value) : bool :=
  match v with
  | VStr _ => true
  | _ => negb (Py.truthy v)
  end.

(** The compact form of one property: its type (["string"] when it has
    none), its compacted description and its default when it has one; its
    other entries are dropped. *)
Definition compact_property (property : dict) (description' : value) : dict :=
  [(u "type", Py.dict_get property (u "type") (VStr (u "string")));
   (u "description", description')]
  ++ match Py.dict_lookup (u "default") property with
     | Some default => [(u "default", default)]
     | None => []
     end.

Definition compacted_property (limit : nat)
    (p : pystr * dict) (p' : pystr * value) : Prop :=
  fst p' = fst p
  /\ exists description',
       compacted limit (Py.dict_get (snd p) (u "description") (VStr [])) description'
       /\ snd p' = VDict (compact_property (snd p) description').

(** The dictionary of properties, each of them a dictionary. *)
Definition properties_dict (props : list (pystr * dict)) : dict :=
  map (fun kp => (fst kp, VDict (snd kp))) props.

(** [tool["function"]["parameters"]["properties"][name]] *)
Definition property_of (tool : value) (name : pystr) : option dict :=
  match tool with
  | VDict t =>
      match Py.dict_lookup (u "function") t with
      | Some (VDict f) =>
          match Py.dict_lookup (u "parameters") f with
          | Some (VDict ps) =>
              match Py.dict_lookup (u "properties") ps with
              | Some (VDict props) =>
                  match Py.dict_lookup name props with
                  | Some (VDict property) => Some property
                  | _ => None
                  end
              | _ => None
              end
          | _ => None
          end
      | _ => None
      end
  | _ => None
  end.

(** [tool["function"]["description"]] *)
Definition description_of (tool : value) : option pystr :=
  match tool with
  | VDict t =>
      match Py.dict_lookup (u "function") t with
      | Some (VDict f) =>
          match Py.dict_lookup (u "description") f with
          | Some (VStr s) => Some s
          | _ => None
          end
      | _ => None
      end
  | _ => None
  end.

(** The causes listed by the fever entry of the local dataset. *)
Definition fever_causes : value :=
  tool_health_advice.strings
    [u "Infection virale"; u "Infection bactérienne"; u "Inflammation"].

(** The ["possible_causes"] entry of a result. *)
Definition possible_causes_of (r : value) : option value :=
  match r with
  | VDict d => Py.dict_lookup (u "possible_causes") d
  | _ => None
  end.

End Spec.

(* ===================================================================== *)
(** ** Concrete set-ups used by the examples *)
(* ===================================================================== *)

Module Examples.

(** No credential is configured. *)
Definition no_env : environ := Latin1.env_of [].

(** The Amadeus credentials are configured. *)
Definition amadeus_env : environ :=
  Latin1.env_of [(u "AMADEUS_API_KEY", u "key"); (u "AMADEUS_API_SECRET", u "secret")].

(** The health provider's credentials are configured. *)
Definition infermedica_env : environ :=
  Latin1.env_of [(u "INFERMEDICA_APP_ID", u "id"); (u "INFERMEDICA_APP_KEY", u "key")].

Definition not_modelled : exn := Exn (u "NotImplementedError") [].

(** Stand-ins for the response mappings, which the examples never reach. *)
Definition no_flight_results
    (origin destination : pystr)
    (departure_date return_date adults travel_class : value)
    (response : Net.response) : outcome value := Raised not_modelled.

Definition no_hotel_results
    (token : value) (city_code : pystr)
    (check_in_date check_out_date adults rooms max_results : value)
  : Net.io value := Net.lift (Raised not_modelled).

Definition no_diagnosis_results
    (symptoms age sex : value) (response : Net.response)
  : outcome value := Raised not_modelled.

(** A registry holding the modules embedded above, run without any
    credential on a network that is down; [execute] of the other modules
    is left out. *)
Definition registry (m : tools.tool_module) (arguments : value) : outcome value :=
  match m with
  | tools.tool_places =>
      tool_places.execute Latin1.lib no_env (fun _ _ _ => []) arguments
  | tools.tool_flight_search =>
      fst (Net.run (tool_flight_search.execute Latin1.lib no_env
                      no_flight_results arguments) Latin1.offline)
  | tools.tool_hotel_search =>
      fst (Net.run (tool_hotel_search.execute Latin1.lib no_env
                      no_hotel_results arguments) Latin1.offline)
  | tools.tool_health_advice =>
      fst (Net.run (tool_health_advice.execute Latin1.lib no_env
                      no_diagnosis_results arguments) Latin1.offline)
  | _ => Raised not_modelled
  end.

(** A document handler that reports its failure in the value it returns. *)
Definition failure_report : value :=
  VDict [(u "success", VBool false); (u "error", VStr (u "format non supporté"))].

Definition reporting_handler (arguments : value) : outcome value :=
  Returned failure_report.

Definition no_analyzer (file_content filename analysis_type specific_question : value)
  : outcome value := Raised not_modelled.

Definition module_of (m : tools.tool_module) : tools.py_module :=
  tools.PyModule (registry m) reporting_handler no_analyzer.

(** Every module of the dispatch table is found. *)
Definition import_ (m : tools.tool_module) : outcome tools.py_module :=
  Returned (module_of m).

(** The exception raised by the import of a module that has no file under
    [src/], with the package [tools] installed at [/app/tools]. *)
Definition cannot_import (name : pystr) : exn :=
  Exn (u "ImportError")
      (u "cannot import name '" ++ name
         ++ u "' from 'tools' (/app/tools/__init__.py)").

Definition no_utils : exn :=
  Exn (u "ModuleNotFoundError") (u "No module named 'utils'").

Definition missing (m : tools.tool_module) : option exn :=
  match m with
  | tools.tool_knowledge_base => Some (cannot_import (u "tool_knowledge_base"))
  | tools.tool_taxi_estimate => Some (cannot_import (u "tool_taxi_estimate"))
  | tools.tool_school_info => Some (cannot_import (u "tool_school_info"))
  | tools.tool_tax_calculator => Some (cannot_import (u "tool_tax_calculator"))
  | tools.tool_conversation_brain =>
      Some (cannot_import (u "tool_conversation_brain"))
  | tools.document_generator => Some no_utils
  | tools.document_analyzer => Some no_utils
  | tools.tool_create_agent_config =>
      Some (cannot_import (u "tool_create_agent_config"))
  | tools.tool_list_azure_voices =>
      Some (cannot_import (u "tool_list_azure_voices"))
  | tools.tool_schedule_callback =>
      Some (cannot_import (u "tool_schedule_callback"))
  | tools.tool_send_confirmation_email =>
      Some (cannot_import (u "tool_send_confirmation_email"))
  | tools.tool_send_sms_disconnection =>
      Some (cannot_import (u "tool_send_sms_disconnection"))
  | tools.tool_send_sms_payment_promise =>
      Some (cannot_import (u "tool_send_sms_payment_promise"))
  | tools.tool_send_sms_extension_confirm =>
      Some (cannot_import (u "tool_send_sms_extension_confirm"))
  | _ => None
  end.

(** The imports when only the modules under [src/] are installed. *)
Definition src_import (m : tools.tool_module) : outcome tools.py_module :=
  match missing m with
  | Some e => Raised e
  | None => Returned (module_of m)
  end.

(** A nested definition with the given description and one property. *)
Definition nested_tool (description property_description : pystr) : value :=
  VDict
    [(u "type", VStr (u "function"));
     (u "function",
      VDict
        [(u "name", VStr (u "t"));
         (u "description", VStr description);
         (u "parameters",
          VDict
            [(u "type", VStr (u "object"));
             (u "properties",
              VDict [(u "p",
                      VDict [(u "type", VStr (u "string"));
                             (u "description", VStr property_description)])]);
             (u "required", VList [])])])].

(** The definition of the health-advice tool in nested form, by parts. *)
Definition health_properties : list (pystr * dict) :=
  [(u "symptoms",
    [(u "type", VStr (u "string"));
     (u "description",
      VStr (u "Description des symptômes ressentis (ex: 'ballonnement et douleur abdominale', 'maux de tête et fièvre', 'toux sèche')"))]);
   (u "age",
    [(u "type", VStr (u "integer"));
     (u "description",
      VStr (u "Âge de la personne (optionnel, pour des conseils plus précis)"));
     (u "default", VInt 30)]);
   (u "sex",
    [(u "type", VStr (u "string"));
     (u "description",
      VStr (u "Sexe de la personne: 'male' ou 'female' (optionnel)"));
     (u "enum", VList [VStr (u "male"); VStr (u "female")])])].

Definition health_parameters : dict :=
  [(u "type", VStr (u "object"));
   (u "properties", VDict (Spec.properties_dict health_properties));
   (u "required", VList [VStr (u "symptoms")])].

Definition health_function : dict :=
  [(u "name", VStr (u "get_health_advice"));
   (u "description",
    VStr (u "Analyse des symptômes et fourniture de conseils santé, remèdes naturels et recommandations médicales. Indique quand consulter un médecin. Supporte les symptômes courants (ballonnement, maux de tête, fièvre, toux, etc.)"));
   (u "parameters", VDict health_parameters)].

Definition health_nested : dict :=
  [(u "type", VStr (u "function")); (u "function", VDict health_function)].

(** ASCII letters. *)
Definition is_letter (c : char) : bool :=
  ((65 <=? c) && (c <=? 90) || (97 <=? c) && (c <=? 122))%N.

Definition flight_arguments (origin destination departure_date : pystr) : value :=
  VDict [(u "origin", VStr origin);
         (u "destination", VStr destination);
         (u "departure_date", VStr departure_date)].

Definition hotel_arguments (city_code check_in_date check_out_date : pystr) : value :=
  VDict [(u "city_code", VStr city_code);
         (u "check_in_date", VStr check_in_date);
         (u "check_out_date", VStr check_out_date)].

End Examples.

(* ===================================================================== *)
(** ** tools/__init__.py: the Realtime API format *)
(* ===================================================================== *)

Module realtime.

Definition _convert_to_realtime_format (tool : value) : outcome value :=
  is_nested <- Py.contains_op (u "function") tool;;
  if is_nested : bool then
    func <- Py.getitem tool (u "function");;
    name <- Py.get func (u "name") (VStr []);;
    d <- Py.get func (u "description") (VStr []);;
    description <- tools._truncate_description d 150;;
    parameters <- Py.get func (u "parameters")
                    (VDict [(u "type", VStr (u "object"));
                            (u "properties", VDict [])]);;
    Returned
      (VDict [(u "type", VStr (u "function"));
              (u "name", name);
              (u "description", description);
              (u "parameters", parameters)])
  else Returned tool.

(** [get_tools_definition_realtime()], given the definitions collected
    from the tool modules. *)
Definition get_tools_definition_realtime (raw_tools : list value)
  : outcome (list value) :=
  chat_tools <- tools.get_tools_definition raw_tools true;;
  tools.for_each _convert_to_realtime_format chat_tools.

End realtime.

(* ===================================================================== *)
(** ** tools/tool_bus_schedule.py *)
(* ===================================================================== *)

Module tool_bus_schedule.

(** A time of day, as [datetime.time].  The [datetime] values of this
    module all carry the date of the clock reading, which none of its
    computations looks at, so that only their time of day is kept. *)
Record time : Type :=
  Time { hour : Z; minute : Z; second : Z; microsecond : Z }.

(** [a <= b] on two times of day *)
Definition time_leb (a b : time) : bool :=
  ((hour a <? hour b)
   || (hour a =? hour b)
      && ((minute a <? minute b)
          || (minute a =? minute b)
             && ((second a <? second b)
                 || (second a =? second b)
                    && (microsecond a <=? microsecond b))))%Z.

(** [a < b] *)
Definition time_ltb (a b : time) : bool := negb (time_leb b a).

Record line : Type := Line {
  name : pystr;
  route : pystr;
  stops : list pystr;
  first_departure : pystr;
  last_departure : pystr;
  frequency_peak : Z;
  frequency_offpeak : Z;
  fare : Z;
  operating_days : pystr
}.

Definition SOTRACO_LINES : list (pystr * line) :=
  [ (u "1",
     {| name := u "Ligne 1";
        route := u "Gare Routière ↔ Ouaga 2000";
        stops := [u "Gare Routière"; u "Avenue Kwame N'Krumah";
                  u "Place des Nations Unies"; u "Avenue Charles de Gaulle";
                  u "Ouaga 2000"];
        first_departure := u "05:30";
        last_departure := u "22:00";
        frequency_peak := 15;
        frequency_offpeak := 30;
        fare := 200;
        operating_days := u "Lundi-Dimanche" |});
    (u "2",
     {| name := u "Ligne 2";
        route := u "Zone du Bois ↔ Patte d'Oie";
        stops := [u "Zone du Bois"; u "Avenue de la Liberté"; u "Centre-ville";
                  u "Rond-Point des Nations Unies"; u "Patte d'Oie"];
        first_departure := u "05:45";
        last_departure := u "21:30";
        frequency_peak := 20;
        frequency_offpeak := 40;
        fare := 200;
        operating_days := u "Lundi-Dimanche" |});
    (u "3",
     {| name := u "Ligne 3";
        route := u "Aéroport ↔ Université de Ouagadougou";
        stops := [u "Aéroport International"; u "Avenue de l'Indépendance";
                  u "Place des Cinéastes"; u "Université Joseph Ki-Zerbo"];
        first_departure := u "06:00";
        last_departure := u "20:00";
        frequency_peak := 30;
        frequency_offpeak := 60;
        fare := 250;
        operating_days := u "Lundi-Samedi" |});
    (u "4",
     {| name := u "Ligne 4";
        route := u "Tampouy ↔ Gounghin";
        stops := [u "Tampouy"; u "Avenue Bassawarga"; u "Rond-Point Kennedy";
                  u "Gounghin"];
        first_departure := u "05:30";
        last_departure := u "21:00";
        frequency_peak := 25;
        frequency_offpeak := 45;
        fare := 200;
        operating_days := u "Lundi-Dimanche" |});
    (u "5",
     {| name := u "Ligne 5";
        route := u "Pissy ↔ CHU Yalgado";
        stops := [u "Pissy"; u "Avenue Raoul Follereau"; u "Centre-ville";
                  u "CHU Yalgado Ouédraogo"];
        first_departure := u "06:00";
        last_departure := u "21:30";
        frequency_peak := 20;
        frequency_offpeak := 35;
        fare := 200;
        operating_days := u "Lundi-Dimanche" |}) ].

(** An entry of [SOTRACO_LINES] as the dictionary the source writes. *)
Definition line_value (info : line) : value :=
  VDict [(u "name", VStr (name info));
         (u "route", VStr (route info));
         (u "stops", VList (map VStr (stops info)));
         (u "first_departure", VStr (first_departure info));
         (u "last_departure", VStr (last_departure info));
         (u "frequency_peak", VInt (frequency_peak info));
         (u "frequency_offpeak", VInt (frequency_offpeak info));
         (u "fare", VInt (fare info));
         (u "operating_days", VStr (operating_days info))].

(** [get_current_time_category()], where [now] is the clock reading
    [datetime.now().time()]. *)
Definition get_current_time_category (now : time) : pystr :=
  let morning_peak := time_leb (Time 6 0 0 0) now && time_leb now (Time 9 0 0 0) in
  let evening_peak := time_leb (Time 16 0 0 0) now && time_leb now (Time 19 0 0 0) in
  if morning_peak || evening_peak then u "peak" else u "offpeak".

(** Two decimal digits, as [%H] and [%M] print an hour and a minute. *)
Definition two_digits (z : Z) : pystr :=
  [Z.to_N (48 + z / 10); Z.to_N (48 + z mod 10)].

(** [t.strftime("%H:%M")] *)
Definition strftime_HM (t : time) : pystr :=
  two_digits (hour t) ++ u ":" ++ two_digits (minute t).

Definition minute_error : exn :=
  Exn (u "ValueError") (u "minute must be in 0..59").

(** [current.replace(hour=current.hour, minute=m)]: the hour of [current]
    is that of a time of day already, the minute is converted to a C int
    and checked. *)
Definition replace_minute (current : time) (m : Z) : outcome time :=
  if (m <? - 2 ^ 31)%Z then
    Raised (Exn (u "OverflowError") (u "signed integer is less than minimum"))
  else if (2 ^ 31 <=? m)%Z then
    Raised (Exn (u "OverflowError") (u "signed integer is greater than maximum"))
  else if ((0 <=? m) && (m <=? 59))%Z then
    Returned (Time (hour current) m (second current) (microsecond current))
  else Raised minute_error.

Definition TOMORROW : pystr := u " (demain)".

Definition NL : pystr := [10%N].

Fixpoint find_line (line_number : pystr) (lines : list (pystr * line))
  : option line :=
  match lines with
  | [] => None
  | (k, info) :: lines' =>
      if PyStr.eqb line_number k then Some info else find_line line_number lines'
  end.

(** [line_number in SOTRACO_LINES], with the entry found. *)
Definition lookup_line (line_number : value) : outcome (option line) :=
  match line_number with
  | VStr s => Returned (find_line s SOTRACO_LINES)
  | VList _ | VDict _ =>
      Raised (Py.TypeError (u "unhashable type: '" ++ Py.type_name line_number
                              ++ u "'"))
  | _ => Returned None
  end.

(** One element of the list joined into [lines_text]. *)
Definition line_summary (info : line) : pystr :=
  u "🚌 " ++ name info ++ NL
    ++ u "   Trajet: " ++ route info ++ NL
    ++ u "   Premier bus: " ++ first_departure info
    ++ u " | Dernier: " ++ last_departure info ++ NL
    ++ u "   Fréquence: " ++ of_Z (frequency_peak info) ++ u "min (pointe) / "
    ++ of_Z (frequency_offpeak info) ++ u "min (normale)" ++ NL
    ++ u "   Tarif: " ++ of_Z (fare info) ++ u " FCFA".

Definition urban_all_result : value :=
  let lines_text := join (NL ++ NL) (map (fun kv => line_summary (snd kv)) SOTRACO_LINES) in
  let message := u "🚌 LIGNES SOTRACO OUAGADOUGOU:" ++ NL ++ NL ++ lines_text in
  VDict [(u "status", VStr (u "success"));
         (u "type", VStr (u "urban_all"));
         (u "lines", VDict (map (fun kv => (fst kv, line_value (snd kv))) SOTRACO_LINES));
         (u "message", VStr message)].

Definition urban_line_result (info : line) (frequency : Z) (next_buses : list pystr)
  : value :=
  let stops_text := join (u " → ") (stops info) in
  let next_buses_text := join (u ", ") next_buses in
  let message :=
    u "🚌 " ++ name info ++ u " - SOTRACO" ++ NL ++ NL
      ++ u "📍 Trajet: " ++ route info ++ NL ++ NL
      ++ u "🛑 Arrêts: " ++ stops_text ++ NL ++ NL
      ++ u "⏰ Horaires:" ++ NL
      ++ u "• Premier départ: " ++ first_departure info ++ NL
      ++ u "• Dernier départ: " ++ last_departure info ++ NL
      ++ u "• Fréquence actuelle: " ++ of_Z frequency ++ u " minutes" ++ NL
      ++ u "• Prochains bus: " ++ next_buses_text ++ NL ++ NL
      ++ u "💰 Tarif: " ++ of_Z (fare info) ++ u " FCFA" ++ NL ++ NL
      ++ u "📅 Service: " ++ operating_days info in
  VDict [(u "status", VStr (u "success"));
         (u "type", VStr (u "urban_line"));
         (u "line", line_value info);
         (u "next_departures", VList (map VStr next_buses));
         (u "message", VStr message)].

Section BusSchedule.

Variable py : pylib.

(** [datetime.strptime(s, "%H:%M")]: the hour and the minute read, or the
    [ValueError] raised. *)
Variable strptime_HM : pystr -> outcome (Z * Z).

(** The body of [if transport_type == "interurban" or transport_type ==
    "all"] (its table holds floating-point durations): the result it
    returns for a line number, or [None] when it falls through to the end
    of [execute]. *)
Variable interurban : value -> outcome (option value).

(** [datetime.strptime(s, "%H:%M").time()] *)
Definition strptime_time (s : pystr) : outcome time :=
  hm <- strptime_HM s;;
  Returned (Time (fst hm) (snd hm) 0 0).

(** The [for _ in range(count)] loop taken before the first departure:
    [n] iterations are left. *)
Fixpoint loop_before (n : nat) (current last_time : time) (frequency_min : Z)
    (departures : list pystr) : outcome (list pystr) :=
  match n with
  | O => Returned departures
  | S n' =>
      let departures := departures ++ [strftime_HM current] in
      current <- strptime_time (strftime_HM current);;
      current <- replace_minute current (minute current + frequency_min);;
      if time_ltb last_time current then Returned departures
      else loop_before n' current last_time frequency_min departures
  end.

(** The [while current.time() <= last_time] loop; [None] when it is still
    running after [fuel] iterations. *)
Fixpoint loop_from (fuel : nat) (current current_time last_time : time)
    (frequency_min : Z) (count : nat) (departures : list pystr)
  : option (outcome (list pystr)) :=
  match fuel with
  | O => None
  | S fuel' =>
      if time_leb current last_time then
        let due := time_leb current_time current in
        let departures :=
          if due then departures ++ [strftime_HM current] else departures in
        if due && (count <=? List.length departures)%nat
        then Some (Returned departures)
        else
          match replace_minute current (minute current + frequency_min) with
          | Returned current =>
              loop_from fuel' current current_time last_time frequency_min
                        count departures
          | Raised e => Some (Raised e)
          end
      else Some (Returned departures)
  end.

(** [calculate_next_departures(first_dep, last_dep, frequency_min, count)],
    where [now] is the clock reading [datetime.now()]. *)
Definition calculate_next_departures (fuel : nat) (now : time)
    (first_dep last_dep : pystr) (frequency_min : Z) (count : nat)
  : option (outcome (list pystr)) :=
  let current_time := now in
  match strptime_time first_dep with
  | Raised e => Some (Raised e)
  | Returned first_time =>
      match strptime_time last_dep with
      | Raised e => Some (Raised e)
      | Returned last_time =>
          if time_ltb last_time current_time
          then Some (Returned [first_dep ++ TOMORROW])
          else if time_ltb current_time first_time
          then Some (loop_before count first_time last_time frequency_min [])
          else
            match loop_from fuel first_time current_time last_time
                            frequency_min count [] with
            | None => None
            | Some r =>
                Some (departures <- r;;
                      Returned (match departures with
                                | [] => [first_dep ++ TOMORROW]
                                | _ :: _ => departures
                                end))
            end
      end
  end.

Definition not_found (line_number : value) : value :=
  VDict [(u "status", VStr (u "error"));
         (u "message",
          VStr (u "Ligne '" ++ str_ py line_number
                  ++ u "' non trouvée. Utilisez 'all' pour voir toutes les lignes disponibles."))].

Definition failure (e : exn) : value :=
  VDict [(u "status", VStr (u "error"));
         (u "message",
          VStr (u "Erreur lors de la recherche d'horaires: " ++ exn_text e))].

(** What [execute] does once the urban branch has returned nothing. *)
Definition after_urban (line_number transport_type : value) : outcome value :=
  if Py.is_str (u "interurban") transport_type || Py.is_str (u "all") transport_type
  then
    r <- interurban line_number;;
    match r with
    | Some result => Returned result
    | None => Returned (not_found line_number)
    end
  else Returned (not_found line_number).

(** [execute(arguments)]; [now_category] is the clock reading of
    [get_current_time_category] and [now_departures] the later one of
    [calculate_next_departures]. *)
Definition execute (fuel : nat) (now_category now_departures : time)
    (arguments : value) : option (outcome value) :=
  match Py.get arguments (u "line_number") (VStr (u "all")) with
  | Raised e => Some (Raised e)
  | Returned line_number =>
      match Py.get arguments (u "type") (VStr (u "urban")) with
      | Raised e => Some (Raised e)
      | Returned transport_type =>
          let time_category := get_current_time_category now_category in
          let body : option (outcome value) :=
            if Py.is_str (u "urban") transport_type
               || Py.is_str (u "all") transport_type
            then
              if Py.is_str (u "all") line_number then Some (Returned urban_all_result)
              else
                match lookup_line line_number with
                | Raised e => Some (Raised e)
                | Returned (Some info) =>
                    let frequency :=
                      if PyStr.eqb time_category (u "peak")
                      then frequency_peak info else frequency_offpeak info in
                    match calculate_next_departures
                            fuel now_departures (first_departure info)
                            (last_departure info) frequency 3 with
                    | None => None
                    | Some r =>
                        Some (next_buses <- r;;
                              Returned (urban_line_result info frequency next_buses))
                    end
                | Returned None => Some (after_urban line_number transport_type)
                end
            else Some (after_urban line_number transport_type) in
          match body with
          | None => None
          | Some r => Some (try_except r (fun e => Returned (failure e)))
          end
      end
  end.

End BusSchedule.

End tool_bus_schedule.

(** [datetime.strptime(s, "%H:%M")] on ASCII text: one or two digits of an
    hour up to 23, a colon, one or two digits of a minute up to 59. *)
Module AsciiClock.

Definition digit (c : char) : option Z :=
  if Latin1.is_digit c then Some (Z.of_N (c - 48)) else None.

(** The alternatives [2[0-3]], [[0-1]\d] and [\d] of [%H], in order. *)
Definition hour_field (s : pystr) : option (Z * pystr) :=
  match s with
  | c1 :: c2 :: r =>
      match digit c1, digit c2 with
      | Some d1, Some d2 =>
          if ((d1 =? 2) && (d2 <=? 3) || (d1 <=? 1))%Z then Some (10 * d1 + d2, r)%Z
          else Some (d1, c2 :: r)
      | Some d1, None => Some (d1, c2 :: r)
      | None, _ => None
      end
  | [c1] => match digit c1 with Some d1 => Some (d1, []) | None => None end
  | [] => None
  end.

(** The alternatives [[0-5]\d] and [\d] of [%M], in order. *)
Definition minute_field (s : pystr) : option (Z * pystr) :=
  match s with
  | c1 :: c2 :: r =>
      match digit c1, digit c2 with
      | Some d1, Some d2 =>
          if (d1 <=? 5)%Z then Some (10 * d1 + d2, r)%Z else Some (d1, c2 :: r)
      | Some d1, None => Some (d1, c2 :: r)
      | None, _ => None
      end
  | [c1] => match digit c1 with Some d1 => Some (d1, []) | None => None end
  | [] => None
  end.

Definition no_match (s : pystr) : exn :=
  Exn (u "ValueError")
      (u "time data " ++ Latin1.repr_value (VStr s)
         ++ u " does not match format '%H:%M'").

Definition parse_HM (s : pystr) : outcome (Z * Z) :=
  match hour_field s with
  | Some (h, c :: r) =>
      if (c =? 58)%N then
        match minute_field r with
        | Some (m, []) => Returned (h, m)
        | Some (m, rest) =>
            Raised (Exn (u "ValueError") (u "unconverted data remains: " ++ rest))
        | None => Raised (no_match s)
        end
      else Raised (no_match s)
  | _ => Raised (no_match s)
  end.

End AsciiClock.

Module BusExamples.

(** The third urban line of the table. *)
Definition line_3 : tool_bus_schedule.line :=
  {| tool_bus_schedule.name := u "Ligne 3";
     tool_bus_schedule.route := u "Aéroport ↔ Université de Ouagadougou";
     tool_bus_schedule.stops :=
       [u "Aéroport International"; u "Avenue de l'Indépendance";
        u "Place des Cinéastes"; u "Université Joseph Ki-Zerbo"];
     tool_bus_schedule.first_departure := u "06:00";
     tool_bus_schedule.last_departure := u "20:00";
     tool_bus_schedule.frequency_peak := 30;
     tool_bus_schedule.frequency_offpeak := 60;
     tool_bus_schedule.fare := 250;
     tool_bus_schedule.operating_days := u "Lundi-Samedi" |}.

(** No interurban line is looked up. *)
Definition no_interurban (line_number : value) : outcome (option value) :=
  Returned None.

End BusExamples.

(** What [calculate_next_departures] returns when it returns. *)
Module BusSpec.

(** [n] departures, one every [f] minutes, from [h]:[m] on. *)
Fixpoint departures_from (h m f : Z) (n : nat) : list pystr :=
  match n with
  | O => []
  | S n' =>
      tool_bus_schedule.strftime_HM (tool_bus_schedule.Time h m 0 0)
        :: departures_from h (m + f) f n'
  end.

End BusSpec.

(* ===================================================================== *)
(** ** tools/tool_flight_booking.py and tools/tool_hotel_booking.py *)
(* ===================================================================== *)

(** What the two booking modules share: the loop over the required
    fields of a mapping. *)
Module Booking.

(** [for field in fields: if not d.get(field): return ...]: the first
    field whose entry is missing or falsy. *)
Fixpoint first_missing (fields : list pystr) (d : value) : outcome (option pystr) :=
  match fields with
  | [] => Returned None
  | field :: rest =>
      v <- Py.get d field VNone;;
      if negb (Py.truthy v) then Returned (Some field)
      else first_missing rest d
  end.

(** [s[-n:]] for a positive [n]. *)
Definition slice_last (n : nat) (s : pystr) : pystr := skipn (len s - n) s.

Definition NL : pystr := [10%N].

End Booking.

Module tool_flight_booking.
Section FlightBooking.

Variable py : pylib.
Variable env : environ.

Definition missing_id_error : value :=
  VDict [(u "status", VStr (u "error"));
         (u "message",
          VStr (u "ID de vol manquant. Utilisez search_flights d'abord pour obtenir un ID de vol."))].

Definition required_fields : list pystr :=
  [u "first_name"; u "last_name"; u "date_of_birth"; u "gender"; u "email";
   u "phone"].

Definition missing_field_error (field : pystr) : value :=
  VDict [(u "status", VStr (u "error"));
         (u "message", VStr (u "Champ passager manquant: " ++ field))].

(** The end of [book_flight], once the token has been obtained. *)
Definition ready_to_book (flight_offer_id passenger : value) : outcome value :=
  match flight_offer_id with
  | VStr id =>
      let parts := Latin1.split_on 95%N id in
      let origin := nth 2 parts (u "OUA") in
      let destination := nth 3 parts (u "CDG") in
      let date := nth 4 parts [] in
      let booking_url_skyscanner :=
        u "https://www.skyscanner.net/transport/flights/" ++ origin ++ u "/"
          ++ destination ++ u "/" ++ date
          ++ u "/?adultsv2=1&cabinclass=economy&childrenv2=&inboundaltsenabled=false&outboundaltsenabled=false&preferdirects=false&ref=home&rtn=0" in
      let booking_url_google :=
        u "https://www.google.com/travel/flights?q=Flights%20from%20" ++ origin
          ++ u "%20to%20" ++ destination ++ u "%20on%20" ++ date in
      let booking_url_kayak :=
        u "https://www.kayak.com/flights/" ++ origin ++ u "-" ++ destination
          ++ u "/" ++ date ++ u "?sort=bestflight_a" in
      first_name <- Py.getitem passenger (u "first_name");;
      last_name <- Py.getitem passenger (u "last_name");;
      let passenger_name := str_ py first_name ++ u " " ++ str_ py last_name in
      date_of_birth <- Py.getitem passenger (u "date_of_birth");;
      gender <- Py.getitem passenger (u "gender");;
      email <- Py.getitem passenger (u "email");;
      phone <- Py.getitem passenger (u "phone");;
      Returned
        (VDict
           [(u "status", VStr (u "ready_to_book"));
            (u "message",
             VStr (u "✈️ Parfait " ++ passenger_name
                     ++ u " ! Votre vol est prêt à être réservé. Je vous envoie le lien pour finaliser votre réservation sur une plateforme sécurisée."));
            (u "booking_reference",
             VStr (u "WAKA-FL-" ++ str_upper py (slice_to 8 id)));
            (u "flight_offer_id", flight_offer_id);
            (u "route",
             VDict [(u "origin", VStr origin);
                    (u "destination", VStr destination);
                    (u "date", VStr date)]);
            (u "passenger",
             VDict [(u "name", VStr passenger_name);
                    (u "date_of_birth", date_of_birth);
                    (u "gender", gender);
                    (u "contact",
                     VDict [(u "email", email); (u "phone", phone)])]);
            (u "booking_links",
             VDict [(u "skyscanner", VStr booking_url_skyscanner);
                    (u "google_flights", VStr booking_url_google);
                    (u "kayak", VStr booking_url_kayak)]);
            (u "recommended_link", VStr booking_url_skyscanner);
            (u "instructions",
             VStr (u "Pour finaliser votre réservation " ++ origin ++ u " → "
                     ++ destination ++ u " :" ++ Booking.NL
                     ++ u "1. Cliquez sur le lien Skyscanner ci-dessous" ++ Booking.NL
                     ++ u "2. Comparez les prix des différentes compagnies" ++ Booking.NL
                     ++ u "3. Choisissez le vol qui vous convient" ++ Booking.NL
                     ++ u "4. Finalisez le paiement directement sur le site"
                     ++ Booking.NL ++ Booking.NL
                     ++ u "Lien de réservation: " ++ booking_url_skyscanner));
            (u "note",
             VStr (u "🔒 Paiement 100% sécurisé sur Skyscanner, l'une des plateformes de réservation les plus fiables au monde."))])
  | _ => Raised (Py.AttributeError flight_offer_id (u "split"))
  end.

Definition book_flight (flight_offer_id passenger : value) : Net.io value :=
  Net.try_except
    (if negb (nonempty (Amadeus.AMADEUS_API_KEY env))
        || negb (nonempty (Amadeus.AMADEUS_API_SECRET env))
     then Net.ret Amadeus.missing_keys_error
     else if negb (Py.truthy flight_offer_id) then Net.ret missing_id_error
     else
       missing <~ Net.lift (Booking.first_missing required_fields passenger);;
       match missing with
       | Some field => Net.ret (missing_field_error field)
       | None =>
           token <~ Amadeus.get_amadeus_token env;;
           if negb (Py.truthy token) then Net.ret Amadeus.token_error
           else Net.lift (ready_to_book flight_offer_id passenger)
       end)
    (fun e =>
       Net.ret (VDict [(u "status", VStr (u "error"));
                       (u "message",
                        VStr (u "Erreur lors de la réservation de vol: "
                                ++ exn_text e))])).

Definition execute (arguments : value) : Net.io value :=
  flight_offer_id <~ Net.lift (Py.get arguments (u "flight_offer_id") (VStr []));;
  passenger <~ Net.lift (Py.get arguments (u "passenger") (VDict []));;
  book_flight flight_offer_id passenger.

End FlightBooking.
End tool_flight_booking.

Module tool_hotel_booking.
Section HotelBooking.

Variable py : pylib.
Variable env : environ.

Definition missing_id_error : value :=
  VDict [(u "status", VStr (u "error"));
         (u "message",
          VStr (u "ID d'offre d'hôtel manquant. Utilisez search_hotels d'abord pour obtenir un ID d'offre."))].

Definition required_guest_fields : list pystr :=
  [u "first_name"; u "last_name"; u "email"; u "phone"].

Definition required_payment_fields : list pystr :=
  [u "card_type"; u "card_number"].

Definition missing_guest_error (field : pystr) : value :=
  VDict [(u "status", VStr (u "error"));
         (u "message", VStr (u "Champ client manquant: " ++ field))].

Definition missing_payment_error (field : pystr) : value :=
  VDict [(u "status", VStr (u "error"));
         (u "message", VStr (u "Champ paiement manquant: " ++ field))].

(** The end of [book_hotel], once the token has been obtained. *)
Definition ready_to_book (hotel_offer_id guest payment : value) : outcome value :=
  match hotel_offer_id with
  | VStr id =>
      let parts := Latin1.split_on 95%N id in
      let city := nth 2 parts (u "Ouagadougou") in
      let hotel_name := nth 3 parts [] in
      let booking_url_booking :=
        u "https://www.booking.com/searchresults.html?ss=" ++ city
          ++ u "&aid=2311236" in
      let booking_url_hotels :=
        u "https://fr.hotels.com/search.do?destination=" ++ city in
      let booking_url_agoda := u "https://www.agoda.com/search?city=" ++ city in
      first_name <- Py.getitem guest (u "first_name");;
      last_name <- Py.getitem guest (u "last_name");;
      let guest_name := str_ py first_name ++ u " " ++ str_ py last_name in
      email <- Py.getitem guest (u "email");;
      phone <- Py.getitem guest (u "phone");;
      card_type <- Py.getitem payment (u "card_type");;
      Returned
        (VDict
           [(u "status", VStr (u "ready_to_book"));
            (u "message",
             VStr (u "🏨 Excellent choix " ++ guest_name ++ u " ! Votre hôtel à "
                     ++ city
                     ++ u " est disponible. Je vous envoie le lien pour finaliser votre réservation sur une plateforme sécurisée."));
            (u "booking_reference",
             VStr (u "WAKA-HTL-" ++ str_upper py (slice_to 8 id)));
            (u "confirmation_number",
             VStr (u "REF-" ++ str_upper py (Booking.slice_last 8 id)));
            (u "hotel_offer_id", hotel_offer_id);
            (u "location",
             VDict [(u "city", VStr city);
                    (u "hotel_name",
                     VStr (if nonempty hotel_name then hotel_name
                           else u "Voir options disponibles"))]);
            (u "guest",
             VDict [(u "name", VStr guest_name);
                    (u "contact",
                     VDict [(u "email", email); (u "phone", phone)])]);
            (u "booking_links",
             VDict [(u "booking_com", VStr booking_url_booking);
                    (u "hotels_com", VStr booking_url_hotels);
                    (u "agoda", VStr booking_url_agoda)]);
            (u "recommended_link", VStr booking_url_booking);
            (u "payment_info",
             VDict [(u "card_type", card_type);
                    (u "status", VStr (u "À effectuer sur la plateforme partenaire"));
                    (u "note",
                     VStr (u "Paiement sécurisé directement sur Booking.com, Hotels.com ou Agoda"))]);
            (u "instructions",
             VStr (u "Pour finaliser votre réservation d'hôtel à " ++ city
                     ++ u " :" ++ Booking.NL
                     ++ u "1. Cliquez sur le lien Booking.com ci-dessous" ++ Booking.NL
                     ++ u "2. Parcourez les hôtels disponibles et leurs avis" ++ Booking.NL
                     ++ u "3. Sélectionnez l'hôtel et les dates qui vous conviennent"
                     ++ Booking.NL
                     ++ u "4. Finalisez le paiement directement sur le site"
                     ++ Booking.NL ++ Booking.NL
                     ++ u "Lien de réservation: " ++ booking_url_booking));
            (u "note",
             VStr (u "🔒 Paiement 100% sécurisé sur Booking.com. Annulation gratuite sur la plupart des hôtels !"))])
  | _ => Raised (Py.AttributeError hotel_offer_id (u "split"))
  end.

Definition book_hotel (hotel_offer_id guest payment : value) : Net.io value :=
  Net.try_except
    (if negb (nonempty (Amadeus.AMADEUS_API_KEY env))
        || negb (nonempty (Amadeus.AMADEUS_API_SECRET env))
     then Net.ret Amadeus.missing_keys_error
     else if negb (Py.truthy hotel_offer_id) then Net.ret missing_id_error
     else
       missing <~ Net.lift (Booking.first_missing required_guest_fields guest);;
       match missing with
       | Some field => Net.ret (missing_guest_error field)
       | None =>
           missing <~ Net.lift (Booking.first_missing required_payment_fields
                                  payment);;
           match missing with
           | Some field => Net.ret (missing_payment_error field)
           | None =>
               token <~ Amadeus.get_amadeus_token env;;
               if negb (Py.truthy token) then Net.ret Amadeus.token_error
               else Net.lift (ready_to_book hotel_offer_id guest payment)
           end
       end)
    (fun e =>
       Net.ret (VDict [(u "status", VStr (u "error"));
                       (u "message",
                        VStr (u "Erreur lors de la réservation d'hôtel: "
                                ++ exn_text e))])).

Definition execute (arguments : value) : Net.io value :=
  hotel_offer_id <~ Net.lift (Py.get arguments (u "hotel_offer_id") (VStr []));;
  guest <~ Net.lift (Py.get arguments (u "guest") (VDict []));;
  payment <~ Net.lift (Py.get arguments (u "payment") (VDict []));;
  book_hotel hotel_offer_id guest payment.

End HotelBooking.
End tool_hotel_booking.

Module BookingSpec.

(** The first of the fields, in order, that a mapping lacks or holds with
    a falsy value ([None], an empty text, zero). *)
Fixpoint first_falsy (fields : list pystr) (d : dict) : option pystr :=
  match fields with
  | [] => None
  | field :: rest =>
      if Py.truthy (Py.dict_get d field VNone) then first_falsy rest d
      else Some field
  end.

(** A passenger and a guest with every field filled in, and a payment
    without card number. *)
Definition passenger : dict :=
  [(u "first_name", VStr (u "Awa")); (u "last_name", VStr (u "Traoré"));
   (u "email", VStr (u "awa@example.org")); (u "phone", VStr (u "+22670000000"));
   (u "date_of_birth", VStr (u "1990-01-01")); (u "gender", VStr (u "FEMALE"));
   (u "document_number", VNone)].

Definition passenger_without_phone : dict :=
  [(u "first_name", VStr (u "Awa")); (u "last_name", VStr (u "Traoré"));
   (u "email", VStr []); (u "phone", VNone);
   (u "date_of_birth", VStr (u "1990-01-01")); (u "gender", VStr (u "FEMALE"))].

Definition guest : dict :=
  [(u "first_name", VStr (u "Awa")); (u "last_name", VStr (u "Traoré"));
   (u "email", VStr (u "awa@example.org")); (u "phone", VStr (u "+22670000000"))].

Definition payment_without_number : dict :=
  [(u "card_type", VStr (u "VISA")); (u "card_number", VNone)].

End BookingSpec.

(* ===================================================================== *)
(** ** tools/tool_pharmacy_locator.py *)
(* ===================================================================== *)

Module tool_pharmacy_locator.

(** [s.replace(old, new)]: the occurrences of [old] are replaced from left
    to right, without overlap; [skip] counts the characters of the
    occurrence just replaced that are still to be passed over. *)
Fixpoint replace_skip (old new s : pystr) (skip : nat) : pystr :=
  match s with
  | [] => []
  | c :: s' =>
      match skip with
      | S k => replace_skip old new s' k
      | O =>
          if starts_with old s then new ++ replace_skip old new s' (len old - 1)
          else c :: replace_skip old new s' 0
      end
  end.

Definition replace (old new s : pystr) : pystr :=
  match old with
  | [] => new ++ flat_map (fun c => c :: new) s
  | _ :: _ => replace_skip old new s 0
  end.

Definition pharmacy (name address phone : pystr) : value :=
  VDict [(u "name", VStr name);
         (u "address", VStr address);
         (u "phone", VStr phone);
         (u "hours", VStr (u "24h/24"))].

Definition EMERGENCY_NUMBERS : dict :=
  [(u "Police", VStr (u "17"));
   (u "Gendarmerie", VStr (u "16"));
   (u "Pompiers", VStr (u "18"));
   (u "SAMU", VStr (u "112"));
   (u "Croix-Rouge", VStr (u "225 50 66 66"))].

Definition PHARMACIES_DE_GARDE : list (pystr * list value) :=
  [ (u "Ouagadougou",
     [pharmacy (u "Pharmacie de la Paix") (u "Avenue Kwame N'Krumah") (u "+226 25 30 67 89");
      pharmacy (u "Pharmacie Centrale") (u "Avenue de la Nation") (u "+226 25 31 22 33");
      pharmacy (u "Pharmacie du Progrès") (u "Zone du Bois") (u "+226 25 36 45 78");
      pharmacy (u "Pharmacie Solidarité") (u "Ouaga 2000") (u "+226 25 37 89 12")]);
    (u "Bobo-Dioulasso",
     [pharmacy (u "Pharmacie du Marché") (u "Grand Marché") (u "+226 20 97 23 45");
      pharmacy (u "Pharmacie Saint-Camille") (u "Route de Banfora") (u "+226 20 98 56 78")]);
    (u "Koudougou",
     [pharmacy (u "Pharmacie Espoir") (u "Centre-ville") (u "+226 25 44 12 34")]);
    (u "Ouahigouya",
     [pharmacy (u "Pharmacie du Nord") (u "Avenue principale") (u "+226 24 55 67 89")]);
    (u "Banfora",
     [pharmacy (u "Pharmacie des Cascades") (u "Route des Cascades") (u "+226 20 91 23 45")]);
    (u "Fada N'Gourma",
     [pharmacy (u "Pharmacie de l'Est") (u "Centre-ville") (u "+226 24 77 89 12")]) ].

Fixpoint find_city (city : pystr) (table : list (pystr * list value))
  : option (list value) :=
  match table with
  | [] => None
  | (k, l) :: table' => if PyStr.eqb city k then Some l else find_city city table'
  end.

(** [PHARMACIES_DE_GARDE["Ouagadougou"]] *)
Definition OUAGADOUGOU : list value :=
  match find_city (u "Ouagadougou") PHARMACIES_DE_GARDE with
  | Some l => l
  | None => []
  end.

(** The normalisation of the city name in [get_local_pharmacies]. *)
Definition normalize (city_name : pystr) : pystr :=
  replace (u "Fada") (u "Fada N'Gourma")
    (replace (u "Bobo") (u "Bobo-Dioulasso")
       (replace (u "Ouaga") (u "Ouagadougou") city_name)).

Definition get_local_pharmacies (city_name : value) : outcome (list value) :=
  match city_name with
  | VStr s =>
      let city_normalized := normalize s in
      match find_city city_normalized PHARMACIES_DE_GARDE with
      | Some l => Returned l
      | None => Returned OUAGADOUGOU
      end
  | _ => Raised (Py.AttributeError city_name (u "replace"))
  end.

Definition NL : pystr := [10%N].

(** One element of the list joined into [pharmacies_text]. *)
Definition pharmacy_text (py : pylib) (p : value) : outcome pystr :=
  name <- Py.getitem p (u "name");;
  address <- Py.getitem p (u "address");;
  phone <- Py.getitem p (u "phone");;
  hours <- Py.getitem p (u "hours");;
  Returned (u "📍 " ++ str_ py name ++ NL
              ++ u "   Adresse: " ++ str_ py address ++ NL
              ++ u "   Téléphone: " ++ str_ py phone ++ NL
              ++ u "   Horaires: " ++ str_ py hours).

Fixpoint texts (py : pylib) (l : list value) : outcome (list pystr) :=
  match l with
  | [] => Returned []
  | p :: l' =>
      t <- pharmacy_text py p;;
      ts <- texts py l';;
      Returned (t :: ts)
  end.

Definition urgence_text (py : pylib) : pystr :=
  join (NL ++ NL)
    (map (fun kv => u "🚨 " ++ fst kv ++ u ": " ++ str_ py (snd kv))
         EMERGENCY_NUMBERS).

Section PharmacyLocator.

Variable py : pylib.
Variable env : environ.

(** The request to the maps service and the mapping of its answer, in
    [search_pharmacies_azure_maps] once the key is known to be set (the
    coordinates it sends are floating-point numbers); its own [try] turns
    every failure into the empty list. *)
Variable azure_maps_search : value -> list value.

Definition AZURE_MAPS_SUBSCRIPTION_KEY : pystr :=
  getenv env (u "AZURE_MAPS_SUBSCRIPTION_KEY") [].

Definition search_pharmacies_azure_maps (city_name : value) : list value :=
  if negb (nonempty AZURE_MAPS_SUBSCRIPTION_KEY) then []
  else azure_maps_search city_name.

Definition execute (arguments : value) : outcome value :=
  city <- Py.get arguments (u "city") (VStr (u "Ouagadougou"));;
  emergency <- Py.get arguments (u "emergency") (VBool false);;
  try_except
    (let pharmacies := search_pharmacies_azure_maps city in
     pharmacies <- match pharmacies with
                   | [] => get_local_pharmacies city
                   | _ :: _ => Returned pharmacies
                   end;;
     match pharmacies with
     | [] =>
         Returned
           (VDict [(u "status", VStr (u "error"));
                   (u "message",
                    VStr (u "Aucune pharmacie de garde trouvée à " ++ str_ py city
                            ++ u "."))])
     | _ :: _ =>
         match city with
         | VStr s =>
             let city_display :=
               replace (u "Bobo") (u "Bobo-Dioulasso")
                 (replace (u "Ouaga") (u "Ouagadougou") s) in
             ts <- texts py (firstn 5 pharmacies);;
             let pharmacies_text := join (NL ++ NL) ts in
             let message :=
               u "🏥 Pharmacies de garde à " ++ city_display ++ u ":" ++ NL ++ NL
                 ++ pharmacies_text in
             let message :=
               if Py.truthy emergency
               then message ++ NL ++ NL ++ u "🆘 NUMÉROS D'URGENCE:" ++ NL ++ NL
                      ++ urgence_text py
               else message in
             Returned
               (VDict [(u "status", VStr (u "success"));
                       (u "city", VStr city_display);
                       (u "pharmacies", VList (firstn 5 pharmacies));
                       (u "emergency_numbers",
                        if Py.truthy emergency then VDict EMERGENCY_NUMBERS
                        else VNone);
                       (u "message", VStr message)])
         | _ => Raised (Py.AttributeError city (u "replace"))
         end
     end)
    (fun e =>
       Returned
         (VDict [(u "status", VStr (u "error"));
                 (u "message",
                  VStr (u "Erreur lors de la recherche de pharmacies: "
                          ++ exn_text e))])).

End PharmacyLocator.

End tool_pharmacy_locator.

(* ===================================================================== *)
(** ** server_v2.py *)
(* ===================================================================== *)

Module server_v2.

(** A parameter of a [def]: its name and its default value, if any. *)
Record parameter : Type := Param { pname : pystr; pdefault : option value }.

Definition required (name : pystr) : parameter := Param name None.
Definition optional (name : pystr) (default : value) : parameter :=
  Param name (Some default).

(** The local variables of a call whose keywords are [kwargs]: each
    parameter is bound to its keyword, or to its default. *)
Fixpoint bind_parameters (signature : list parameter) (kwargs : dict)
  : option dict :=
  match signature with
  | [] => Some []
  | p :: rest =>
      match match Py.dict_lookup (pname p) kwargs with
            | Some v => Some v
            | None => pdefault p
            end with
      | Some v =>
          match bind_parameters rest kwargs with
          | Some locals => Some ((pname p, v) :: locals)
          | None => None
          end
      | None => None
      end
  end.

Definition is_parameter (signature : list parameter) (k : pystr) : bool :=
  existsb (fun p => PyStr.eqb k (pname p)) signature.

(** A registered tool, as [self.tools[name]] holds it. *)
Record tool : Type := Tool {
  name : pystr;
  description : value;
  inputSchema : value;
  handler : value -> outcome value
}.

Section Server.

Variable py : pylib.

(** [str(e)] of the [TypeError] raised when [fname], called with the
    keywords [**arguments], cannot bind them: the arguments are not a mapping, a keyword
    is not a parameter, or a parameter without default is not given. *)
Variable call_error : pystr -> value -> pystr.

(** [json.dumps(result, ensure_ascii=False, default=str)] *)
Variable json_dumps : value -> outcome pystr.

(** The functions of the tool modules the handlers call, applied to
    their local variables, and [tool_bus_schedule.execute]. *)
Variable search_flights_tool : dict -> outcome value.
Variable book_flight_tool : dict -> outcome value.
Variable search_hotels_tool : dict -> outcome value.
Variable book_hotel_tool : dict -> outcome value.
Variable bus_schedule_execute : value -> outcome value.

(** The call of [fname] with the keywords [**arguments], up to the body
    of the function: its local variables, or the [TypeError]. *)
Definition call (fname : pystr) (signature : list parameter) (arguments : value)
  : outcome dict :=
  match arguments with
  | VDict kwargs =>
      if forallb (fun kv => is_parameter signature (fst kv)) kwargs then
        match bind_parameters signature kwargs with
        | Some locals => Returned locals
        | None => Raised (Py.TypeError (call_error fname arguments))
        end
      else Raised (Py.TypeError (call_error fname arguments))
  | _ => Raised (Py.TypeError (call_error fname arguments))
  end.

(** A local variable. *)
Definition var (locals : dict) (name : pystr) : value :=
  Py.dict_get locals name VNone.

(** The signatures of the functions of the tool modules. *)
Definition tool_search_flights_signature : list parameter :=
  [required (u "origin"); required (u "destination");
   required (u "departure_date"); optional (u "return_date") (VStr []);
   optional (u "adults") (VInt 1);
   optional (u "travel_class") (VStr (u "ECONOMY"));
   optional (u "max_results") (VInt 5)].

Definition tool_book_flight_signature : list parameter :=
  [required (u "flight_offer_id"); required (u "passenger")].

Definition tool_search_hotels_signature : list parameter :=
  [required (u "city_code"); required (u "check_in_date");
   required (u "check_out_date"); optional (u "adults") (VInt 1);
   optional (u "rooms") (VInt 1); optional (u "max_results") (VInt 10)].

Definition tool_book_hotel_signature : list parameter :=
  [required (u "hotel_offer_id"); required (u "guest"); required (u "payment")].

(** The signatures of the handlers registered by the file. *)
Definition search_flights_signature : list parameter :=
  [required (u "origin"); required (u "destination");
   required (u "departure_date"); optional (u "return_date") VNone;
   optional (u "adults") (VInt 1);
   optional (u "travel_class") (VStr (u "ECONOMY"));
   optional (u "max_results") (VInt 5)].

Definition book_flight_signature : list parameter :=
  [required (u "flight_offer_id");
   required (u "passenger_first_name");
   required (u "passenger_last_name");
   required (u "passenger_email");
   required (u "passenger_phone");
   required (u "passenger_date_of_birth");
   optional (u "passenger_gender") (VStr (u "MALE"));
   optional (u "passenger_document_number") VNone].

Definition search_hotels_signature : list parameter :=
  [required (u "city_code"); required (u "check_in_date");
   required (u "check_out_date"); optional (u "adults") (VInt 1);
   optional (u "rooms") (VInt 1); optional (u "hotel_name") VNone;
   optional (u "max_results") (VInt 5)].

Definition book_hotel_signature : list parameter :=
  [required (u "hotel_offer_id"); required (u "guest_first_name");
   required (u "guest_last_name"); required (u "guest_email");
   required (u "guest_phone"); optional (u "card_type") (VStr (u "VISA"));
   optional (u "card_number") VNone].

Definition get_bus_schedule_signature : list parameter :=
  [optional (u "line_number") VNone; optional (u "from_city") VNone;
   optional (u "to_city") VNone].

(** The handlers. *)
Definition search_flights (arguments : value) : outcome value :=
  locals <- call (u "search_flights") search_flights_signature arguments;;
  inner <- call (u "search_flights") tool_search_flights_signature
             (VDict [(u "origin", var locals (u "origin"));
                     (u "destination", var locals (u "destination"));
                     (u "departure_date", var locals (u "departure_date"));
                     (u "return_date", var locals (u "return_date"));
                     (u "adults", var locals (u "adults"));
                     (u "travel_class", var locals (u "travel_class"));
                     (u "max_results", var locals (u "max_results"))]);;
  search_flights_tool inner.

Definition book_flight (arguments : value) : outcome value :=
  locals <- call (u "book_flight") book_flight_signature arguments;;
  inner <- call (u "book_flight") tool_book_flight_signature
             (VDict [(u "flight_offer_id", var locals (u "flight_offer_id"));
                     (u "passenger",
                      VDict [(u "first_name", var locals (u "passenger_first_name"));
                             (u "last_name", var locals (u "passenger_last_name"));
                             (u "email", var locals (u "passenger_email"));
                             (u "phone", var locals (u "passenger_phone"));
                             (u "date_of_birth",
                              var locals (u "passenger_date_of_birth"));
                             (u "gender", var locals (u "passenger_gender"));
                             (u "document_number",
                              var locals (u "passenger_document_number"))])]);;
  book_flight_tool inner.

Definition search_hotels (arguments : value) : outcome value :=
  locals <- call (u "search_hotels") search_hotels_signature arguments;;
  inner <- call (u "search_hotels") tool_search_hotels_signature
             (VDict [(u "city_code", var locals (u "city_code"));
                     (u "check_in_date", var locals (u "check_in_date"));
                     (u "check_out_date", var locals (u "check_out_date"));
                     (u "adults", var locals (u "adults"));
                     (u "rooms", var locals (u "rooms"));
                     (u "hotel_name", var locals (u "hotel_name"));
                     (u "max_results", var locals (u "max_results"))]);;
  search_hotels_tool inner.

Definition book_hotel (arguments : value) : outcome value :=
  locals <- call (u "book_hotel") book_hotel_signature arguments;;
  inner <- call (u "book_hotel") tool_book_hotel_signature
             (VDict [(u "hotel_offer_id", var locals (u "hotel_offer_id"));
                     (u "guest",
                      VDict [(u "first_name", var locals (u "guest_first_name"));
                             (u "last_name", var locals (u "guest_last_name"));
                             (u "email", var locals (u "guest_email"));
                             (u "phone", var locals (u "guest_phone"))]);
                     (u "payment",
                      VDict [(u "card_type", var locals (u "card_type"));
                             (u "card_number", var locals (u "card_number"))])]);;
  book_hotel_tool inner.

Definition get_bus_schedule (arguments : value) : outcome value :=
  locals <- call (u "get_bus_schedule") get_bus_schedule_signature arguments;;
  bus_schedule_execute
    (VDict [(u "line_number", var locals (u "line_number"));
            (u "from_city", var locals (u "from_city"));
            (u "to_city", var locals (u "to_city"))]).

(** The decorator [tool]: the entry stored in [self.tools]. *)
Definition register (name : pystr) (description : value) (parameters : dict)
    (func : value -> outcome value) : tool :=
  {| name := name;
     description := description;
     inputSchema :=
       VDict [(u "type", VStr (u "object"));
              (u "properties", Py.dict_get parameters (u "properties") (VDict []));
              (u "required", Py.dict_get parameters (u "required") (VList []))];
     handler := func |}.

(** The server object: its name, its version and [self.tools]. *)
Variable server_name : pystr.
Variable version : pystr.
Variable tools : list (pystr * tool).

Fixpoint find_tool (tool_name : pystr) (registered : list (pystr * tool))
  : option tool :=
  match registered with
  | [] => None
  | (k, t) :: rest =>
      if PyStr.eqb tool_name k then Some t else find_tool tool_name rest
  end.

(** [tool_name in self.tools], with the entry found. *)
Definition lookup_tool (tool_name : value) : outcome (option tool) :=
  match tool_name with
  | VStr s => Returned (find_tool s tools)
  | VList _ | VDict _ =>
      Raised (Py.TypeError (u "unhashable type: '" ++ Py.type_name tool_name
                              ++ u "'"))
  | _ => Returned None
  end.

Definition jsonrpc_error (request_id : value) (code : Z) (message : pystr)
  : value :=
  VDict [(u "jsonrpc", VStr (u "2.0"));
         (u "id", request_id);
         (u "error", VDict [(u "code", VInt code); (u "message", VStr message)])].

Definition jsonrpc_result (request_id : value) (result : value) : value :=
  VDict [(u "jsonrpc", VStr (u "2.0"));
         (u "id", request_id);
         (u "result", result)].

Definition tool_entry (t : tool) : value :=
  VDict [(u "name", VStr (name t));
         (u "description", description t);
         (u "inputSchema", inputSchema t)].

(** [_handle_mcp_request], where [data] is [request.get_json()]: the JSON
    body of the response and its HTTP status. *)
Definition _handle_mcp_request (data : value) : outcome (value * Z) :=
  if negb (Py.truthy data) then
    Returned (jsonrpc_error VNone (-32700) (u "Parse error"), 400%Z)
  else
    request_id <- Py.get data (u "id") VNone;;
    method <- Py.get data (u "method") (VStr []);;
    params <- Py.get data (u "params") (VDict []);;
    if Py.is_str (u "initialize") method then
      Returned
        (jsonrpc_result request_id
           (VDict [(u "protocolVersion", VStr (u "2024-11-05"));
                   (u "serverInfo",
                    VDict [(u "name", VStr server_name);
                           (u "version", VStr version)]);
                   (u "capabilities",
                    VDict [(u "tools",
                            VDict [(u "listChanged", VBool false)])])]),
         200%Z)
    else if Py.is_str (u "tools/list") method then
      let tools_list := map (fun kt => tool_entry (snd kt)) tools in
      Returned
        (jsonrpc_result request_id (VDict [(u "tools", VList tools_list)]), 200%Z)
    else if Py.is_str (u "tools/call") method then
      tool_name <- Py.get params (u "name") VNone;;
      arguments <- Py.get params (u "arguments") (VDict []);;
      found <- lookup_tool tool_name;;
      match found with
      | None =>
          Returned
            (jsonrpc_error request_id (-32601)
               (u "Tool not found: " ++ str_ py tool_name), 200%Z)
      | Some t =>
          try_except
            (result <- handler t arguments;;
             text <- json_dumps result;;
             Returned
               (jsonrpc_result request_id
                  (VDict [(u "content",
                           VList [VDict [(u "type", VStr (u "text"));
                                         (u "text", VStr text)]])]),
                200%Z))
            (fun e =>
               Returned (jsonrpc_error request_id (-32603) (exn_text e), 200%Z))
      end
    else
      Returned
        (jsonrpc_error request_id (-32601)
           (u "Method not found: " ++ str_ py method), 200%Z).

(** The route [/mcp], that is [_handle_mcp_request] from its first line
    on: [get_json] is what [request.get_json()] does on the request, the
    parsed body or the HTTP error with which the library aborts the
    handler (a body that is not JSON, a content type that is not JSON). *)
Definition mcp_endpoint (get_json : outcome value) : outcome (value * Z) :=
  data <- get_json;;
  _handle_mcp_request data.

End Server.

End server_v2.

Module ServerSpec.

(** The shape of a JSON-RPC response: version, request id and one member,
    which is the result or the error with its code; the code -32700 comes
    with the HTTP status 400 and a null id, the codes -32601 and -32603
    with the status 200. *)
Definition envelope (body : value) (request_id : value) (status : Z) : Prop :=
  exists member payload,
    body = VDict [(u "jsonrpc", VStr (u "2.0"));
                  (u "id", request_id);
                  (member, payload)]
    /\ (member = u "result" /\ status = 200%Z
        \/ member = u "error"
           /\ exists code message,
                payload = VDict [(u "code", VInt code);
                                 (u "message", VStr message)]
                /\ (code = (-32700)%Z /\ status = 400%Z /\ request_id = VNone
                    \/ (code = (-32601)%Z \/ code = (-32603)%Z)
                       /\ status = 200%Z)).

(** The hotel booking of the tool module as the handler calls it, on a
    given network. *)
Definition book_hotel_tool (py : pylib) (env : environ) (w : Net.world)
    (locals : dict) : outcome value :=
  fst (Net.run (tool_hotel_booking.book_hotel py env
                  (server_v2.var locals (u "hotel_offer_id"))
                  (server_v2.var locals (u "guest"))
                  (server_v2.var locals (u "payment"))) w).

End ServerSpec.

Module ServerExamples.

Definition call_error (fname : pystr) (arguments : value) : pystr :=
  fname ++ u "() cannot bind its arguments".

Definition json_dumps (result : value) : outcome pystr :=
  Returned (Latin1.repr_value result).

Definition no_tool (locals : dict) : outcome value :=
  Raised Examples.not_modelled.

(** A server on which the hotel search is registered. *)
Definition registry : list (pystr * server_v2.tool) :=
  [(u "search_hotels",
    server_v2.register (u "search_hotels")
      (VStr (u "Recherche des hôtels disponibles avec prix via Amadeus API."))
      [(u "required",
        VList [VStr (u "city_code"); VStr (u "check_in_date");
               VStr (u "check_out_date")])]
      (server_v2.search_hotels call_error no_tool))].

Definition hotel_request : dict :=
  [(u "jsonrpc", VStr (u "2.0"));
   (u "id", VInt 7);
   (u "method", VStr (u "tools/call"));
   (u "params",
    VDict [(u "name", VStr (u "search_hotels"));
           (u "arguments",
            VDict [(u "city_code", VStr (u "PAR"));
                   (u "check_in_date", VStr (u "2025-12-15"));
                   (u "check_out_date", VStr (u "2025-12-18"))])])].

(** The arguments the schema of book_hotel requires. *)
Definition hotel_booking_arguments : dict :=
  [(u "hotel_offer_id", VStr (u "H1"));
   (u "guest_first_name", VStr (u "Awa"));
   (u "guest_last_name", VStr (u "Traoré"));
   (u "guest_email", VStr (u "awa@example.org"));
   (u "guest_phone", VStr (u "+22670000000"))].

End ServerExamples.

(* ===================================================================== *)
(** ** tools/tool_health_advice.py: advice from the conditions found *)
(* ===================================================================== *)

Module health_conditions.

Definition bloating_remedies : list pystr :=
  [u "Tisane de gingembre ou menthe";
   u "Éviter les aliments gazeux";
   u "Marche légère après les repas"].

Definition pain_remedies : list pystr :=
  [u "Repos dans une position confortable";
   u "Compresse chaude ou froide selon le type de douleur"].

Definition fever_remedies : list pystr :=
  [u "Paracétamol selon dosage approprié";
   u "Hydratation abondante";
   u "Repos complet"].

Definition default_remedies : list pystr :=
  [u "Repos et hydratation";
   u "Alimentation légère et équilibrée";
   u "Éviter le stress et les efforts intenses"].

(** The list [advice["remedies"]] at the end of the function. *)
Definition remedies_for (symptoms_lower : pystr) : list pystr :=
  let remedies :=
    (if contains (u "ballonnement") symptoms_lower
        || contains (u "gaz") symptoms_lower
     then bloating_remedies else [])
      ++ (if contains (u "douleur") symptoms_lower then pain_remedies else [])
      ++ (if contains (u "fièvre") symptoms_lower then fever_remedies else []) in
  match remedies with
  | [] => default_remedies
  | _ :: _ => remedies
  end.

Definition generate_advice_from_conditions (py : pylib)
    (symptoms conditions : value) : outcome value :=
  match symptoms with
  | VStr s =>
      let symptoms_lower := str_lower py s in
      Returned
        (VDict
           [(u "general_recommendations",
             tool_health_advice.strings
               [u "Repos et hydratation";
                u "Surveiller l'évolution des symptômes";
                u "Tenir un journal des symptômes"]);
            (u "remedies", tool_health_advice.strings (remedies_for symptoms_lower));
            (u "when_to_see_doctor",
             VStr (u "Si les symptômes persistent plus de 48-72 heures ou s'aggravent"));
            (u "emergency_signs",
             tool_health_advice.strings
               [u "Douleur intense soudaine";
                u "Difficulté à respirer";
                u "Fièvre très élevée (>40°C)";
                u "Perte de conscience"])])
  | _ => Raised (Py.AttributeError symptoms (u "lower"))
  end.

End health_conditions.

Module MapsExamples.

(** The maps key is configured. *)
Definition maps_env : environ :=
  Latin1.env_of [(u "AZURE_MAPS_SUBSCRIPTION_KEY", u "key")].

End MapsExamples.

(* ===================================================================== *)
(** ** tools/tool_email.py: validation of the address in [send_email] *)
(* ===================================================================== *)

(** Regular expressions over code points, matched by derivatives. *)
Module Regex.

Inductive regex : Type :=
| Void
| Eps
| Class (p : char -> bool)
| Cat (a b : regex)
| Alt (a b : regex)
| Star (a : regex).

Fixpoint nullable (r : regex) : bool :=
  match r with
  | Void => false
  | Eps => true
  | Class _ => false
  | Cat a b => nullable a && nullable b
  | Alt a b => nullable a || nullable b
  | Star _ => true
  end.

Fixpoint deriv (c : char) (r : regex) : regex :=
  match r with
  | Void => Void
  | Eps => Void
  | Class p => if p c then Eps else Void
  | Cat a b =>
      if nullable a then Alt (Cat (deriv c a) b) (deriv c b)
      else Cat (deriv c a) b
  | Alt a b => Alt (deriv c a) (deriv c b)
  | Star a => Cat (deriv c a) (Star a)
  end.

(** The whole of [s] is in the language of [r]. *)
Fixpoint matches (r : regex) (s : pystr) : bool :=
  match s with
  | [] => nullable r
  | c :: s' => matches (deriv c r) s'
  end.

(** [r+] and [r{2,}] *)
Definition plus (r : regex) : regex := Cat r (Star r).
Definition at_least_two (r : regex) : regex := Cat r (Cat r (Star r)).

(** The language of a regular expression. *)
Inductive lang : regex -> pystr -> Prop :=
| lang_eps : lang Eps []
| lang_class : forall p c, p c = true -> lang (Class p) [c]
| lang_cat : forall a b s t, lang a s -> lang b t -> lang (Cat a b) (s ++ t)
| lang_alt_l : forall a b s, lang a s -> lang (Alt a b) s
| lang_alt_r : forall a b s, lang b s -> lang (Alt a b) s
| lang_star_nil : forall a, lang (Star a) []
| lang_star_app : forall a s t, lang a s -> lang (Star a) t -> lang (Star a) (s ++ t).

End Regex.

Module email_validation.

Definition is_letter (c : char) : bool :=
  ((65 <=? c) && (c <=? 90) || (97 <=? c) && (c <=? 122))%N.

Definition is_digit (c : char) : bool := ((48 <=? c) && (c <=? 57))%N.

(** [[a-zA-Z0-9._%+-]] *)
Definition local_char (c : char) : bool :=
  is_letter c || is_digit c
  || (c =? 46)%N || (c =? 95)%N || (c =? 37)%N || (c =? 43)%N || (c =? 45)%N.

(** [[a-zA-Z0-9.-]] *)
Definition domain_char (c : char) : bool :=
  is_letter c || is_digit c || (c =? 46)%N || (c =? 45)%N.

Definition AT : char := 64%N.
Definition DOT : char := 46%N.
Definition LF : char := 10%N.

(** [^[a-zA-Z0-9._%+-]+@[a-zA-Z0-9.-]+\.[a-zA-Z]{2,}$]; [match] anchors
    it at the start, and [$] matches at the end of the text and before a
    line feed that ends it. *)
Definition EMAIL_REGEX : Regex.regex :=
  Regex.Cat (Regex.plus (Regex.Class local_char))
    (Regex.Cat (Regex.Class (N.eqb AT))
       (Regex.Cat (Regex.plus (Regex.Class domain_char))
          (Regex.Cat (Regex.Class (N.eqb DOT))
             (Regex.Cat (Regex.at_least_two (Regex.Class is_letter))
                (Regex.Alt Regex.Eps (Regex.Class (N.eqb LF))))))).

Fixpoint lstrip_chars (chars : list char) (s : pystr) : pystr :=
  match s with
  | [] => []
  | c :: s' => if existsb (N.eqb c) chars then lstrip_chars chars s' else s
  end.

(** [s.strip(chars)] *)
Definition strip_chars (chars : list char) (s : pystr) : pystr :=
  rev (lstrip_chars chars (rev (lstrip_chars chars s))).

(** The double and the single quote. *)
Definition QUOTES : list char := [34%N; 39%N].

Definition missing_error : value :=
  VDict [(u "status", VStr (u "error"));
         (u "message", VStr (u "Adresse email manquante"));
         (u "error_type", VStr (u "ValidationError"));
         (u "details", VStr (u "Veuillez fournir une adresse email valide"))].

Definition format_error (email : pystr) : value :=
  VDict [(u "status", VStr (u "error"));
         (u "message",
          VStr (u "Format d'adresse email invalide: '" ++ email ++ u "'"));
         (u "error_type", VStr (u "ValidationError"));
         (u "details",
          VStr (u "L'adresse email doit être au format: exemple@domaine.com"))].

Definition not_configured : value :=
  VDict [(u "status", VStr (u "error"));
         (u "message", VStr (u "Azure Communication Email non configuré"));
         (u "details",
          VStr (u "AZURE_COMMUNICATION_EMAIL_CONNECTION_STRING manquant dans .env"))].

Definition no_sender : value :=
  VDict [(u "status", VStr (u "error"));
         (u "message", VStr (u "Expéditeur email non configuré"));
         (u "details",
          VStr (u "AZURE_COMMUNICATION_EMAIL_SENDER manquant dans .env"))].

Section SendEmail.

Variable py : pylib.
Variable env : environ.

(** The rest of the [try] block of [send_email], from the log line that
    follows the configuration checks to the answer of the mail service,
    with the [except] clauses that turn its failures into results. *)
Variable deliver : pystr -> value -> value -> value -> value.

(** The [except] clauses on a failure of the cleaning of the address,
    given the exception and the address as it was passed. *)
Variable on_error : exn -> value -> value.

Definition AZURE_COMMUNICATION_EMAIL_CONNECTION_STRING : pystr :=
  getenv env (u "AZURE_COMMUNICATION_EMAIL_CONNECTION_STRING") [].

Definition AZURE_COMMUNICATION_EMAIL_SENDER : pystr :=
  getenv env (u "AZURE_COMMUNICATION_EMAIL_SENDER") [].

(** [email.strip().lower() if email else ""] *)
Definition clean (email : value) : outcome pystr :=
  if Py.truthy email then
    match email with
    | VStr s => Returned (str_lower py (strip s))
    | _ => Raised (Py.AttributeError email (u "strip"))
    end
  else Returned [].

Definition send_email (email subject message url : value) : value :=
  match clean email with
  | Raised e => on_error e email
  | Returned cleaned =>
      let email := strip_chars QUOTES cleaned in
      if negb (nonempty email) then missing_error
      else if negb (Regex.matches EMAIL_REGEX email) then format_error email
      else if negb (nonempty AZURE_COMMUNICATION_EMAIL_CONNECTION_STRING)
      then not_configured
      else if negb (nonempty AZURE_COMMUNICATION_EMAIL_SENDER) then no_sender
      else deliver email subject message url
  end.

End SendEmail.

(** The address [send_email] validates, for an address given as text. *)
Definition cleaned (py : pylib) (s : pystr) : pystr :=
  strip_chars QUOTES (str_lower py (strip s)).

(** The texts the validation accepts: a local part, an at sign, a domain,
    a dot and a final label of at least two letters, possibly followed by
    one line feed. *)
Definition well_formed (s : pystr) : Prop :=
  exists local domain label ending,
    s = local ++ AT :: domain ++ DOT :: label ++ ending
    /\ local <> [] /\ Forall (fun c => local_char c = true) local
    /\ domain <> [] /\ Forall (fun c => domain_char c = true) domain
    /\ 2 <= List.length label /\ Forall (fun c => is_letter c = true) label
    /\ (ending = [] \/ ending = [LF]).

End email_validation.

(* ===================================================================== *)
(** ** tools/tool_end_conversation.py *)
(* ===================================================================== *)

Module tool_end_conversation.

(** [execute(arguments)]; the second log line slices the farewell
    message. *)
Definition execute (py : pylib) (arguments : value) : outcome value :=
  reason <- Py.get arguments (u "reason") (VStr (u "natural_end"));;
  farewell_message <- Py.get arguments (u "farewell_message")
                        (VStr (u "Au revoir!"));;
  user_sentiment <- Py.get arguments (u "user_sentiment") (VStr (u "neutral"));;
  conversation_summary <- Py.get arguments (u "conversation_summary") (VStr []);;
  _ <- tool_email.slice_check farewell_message;;
  Returned
    (VDict
       [(u "success", VBool true);
        (u "status", VStr (u "success"));
        (u "action", VStr (u "end_conversation"));
        (u "signal_end_conversation", VBool true);
        (u "reason", reason);
        (u "farewell_message", farewell_message);
        (u "model_assessment",
         VDict [(u "user_sentiment", user_sentiment);
                (u "summary_hint", conversation_summary)]);
        (u "message",
         VStr (u "Conversation terminée. Raison: " ++ str_ py reason));
        (u "instructions",
         VStr (u "Dis au revoir à l'utilisateur avec le message fourni dans farewell_message."))]).

End tool_end_conversation.

(* ===================================================================== *)
(** ** tools/tool_government_services.py *)
(* ===================================================================== *)

Module tool_government_services.

Definition ADMINISTRATIVE_SERVICES : dict :=
  [ (u "Passeport",
   VDict
     [(u "service",
      VStr (u "Direction Générale de la Police Nationale - Service des Passeports"));
      (u "location",
      VStr (u "Ouagadougou, Bobo-Dioulasso, autres villes"));
      (u "documents_required",
      VList
          [VStr (u "Acte de naissance (original + 2 copies)");
           VStr (u "Certificat de nationalité burkinabè");
           VStr (u "2 photos d'identité récentes");
           VStr (u "Justificatif de domicile");
           VStr (u "Ancien passeport (si renouvellement)")]);
      (u "duration",
      VStr (u "15 à 30 jours"));
      (u "cost",
      VStr (u "Ordinaire: 25,000 FCFA | Urgent (7 jours): 50,000 FCFA"));
      (u "validity",
      VStr (u "5 ans"));
      (u "procedure",
      VList
          [VStr (u "1. Constituer le dossier complet");
           VStr (u "2. Déposer au commissariat de police de votre secteur");
           VStr (u "3. Retrait de récépissé");
           VStr (u "4. Retrait du passeport après délai annoncé")]);
      (u "contact",
      VStr (u "Tél: +226 25 30 62 71"))]);
    (u "Carte d'identité nationale (CNIB)",
   VDict
     [(u "service",
      VStr (u "Office National d'Identification (ONI)"));
      (u "location",
      VStr (u "Bureaux ONI dans toutes les provinces"));
      (u "documents_required",
      VList
          [VStr (u "Acte de naissance (original + 2 copies)");
           VStr (u "Certificat de nationalité");
           VStr (u "2 photos d'identité récentes");
           VStr (u "Justificatif de domicile")]);
      (u "duration",
      VStr (u "30 à 45 jours"));
      (u "cost",
      VStr (u "Première demande: 2,500 FCFA | Renouvellement: 2,500 FCFA | Duplicata: 5,000 FCFA"));
      (u "validity",
      VStr (u "10 ans"));
      (u "procedure",
      VList
          [VStr (u "1. Retirer formulaire au bureau ONI");
           VStr (u "2. Remplir et joindre pièces requises");
           VStr (u "3. Dépôt du dossier et prise de photo biométrique");
           VStr (u "4. Retrait après SMS de disponibilité")]);
      (u "contact",
      VStr (u "Hotline: 80 00 11 45 | Site: www.oni.bf"))]);
    (u "Permis de conduire",
   VDict
     [(u "service",
      VStr (u "Direction Générale des Transports Terrestres et Maritimes"));
      (u "location",
      VStr (u "Centres d'examen dans les villes principales"));
      (u "documents_required",
      VList
          [VStr (u "Acte de naissance ou CNIB");
           VStr (u "Certificat médical d'aptitude");
           VStr (u "4 photos d'identité");
           VStr (u "Attestation de formation auto-école");
           VStr (u "Justificatif de domicile")]);
      (u "duration",
      VStr (u "Après réussite examen (3 à 6 mois de formation)"));
      (u "cost",
      VStr (u "Formation: 150,000 à 250,000 FCFA | Frais examen: 15,000 FCFA | Confection permis: 10,000 FCFA"));
      (u "validity",
      VStr (u "5 ans (puis renouvellement)"));
      (u "categories",
      VStr (u "A (moto), B (voiture), C (poids lourd), D (transport en commun)"));
      (u "procedure",
      VList
          [VStr (u "1. S'inscrire dans auto-école agréée");
           VStr (u "2. Formation théorique et pratique");
           VStr (u "3. Examen code + conduite");
           VStr (u "4. Retrait du permis après réussite")]);
      (u "contact",
      VStr (u "Direction des Transports: +226 25 31 25 89"))]);
    (u "Acte de naissance",
   VDict
     [(u "service",
      VStr (u "Mairie / Centre d'État Civil"));
      (u "location",
      VStr (u "Mairie de votre commune"));
      (u "documents_required",
      VList
          [VStr (u "Déclaration de naissance (dans les 30 jours)");
           VStr (u "Certificat d'accouchement (hôpital/maternité)");
           VStr (u "CNIB des parents");
           VStr (u "Acte de mariage des parents (si mariés)")]);
      (u "duration",
      VStr (u "Immédiat à 7 jours"));
      (u "cost",
      VStr (u "Gratuit (première copie) | 500 FCFA (copies supplémentaires)"));
      (u "validity",
      VStr (u "Permanent"));
      (u "procedure",
      VList
          [VStr (u "1. Se présenter à la mairie avec documents");
           VStr (u "2. Remplir formulaire de déclaration");
           VStr (u "3. Enregistrement dans registre d'état civil");
           VStr (u "4. Délivrance de l'acte")]);
      (u "note",
      VStr (u "Déclaration obligatoire dans les 30 jours suivant naissance"))]);
    (u "Certificat de nationalité",
   VDict
     [(u "service",
      VStr (u "Tribunal d'Instance / Mairie"));
      (u "location",
      VStr (u "Tribunal de votre province"));
      (u "documents_required",
      VList
          [VStr (u "Acte de naissance du demandeur");
           VStr (u "Acte de naissance des parents");
           VStr (u "CNIB des parents");
           VStr (u "Certificat de résidence");
           VStr (u "Timbre fiscal (1,000 FCFA)")]);
      (u "duration",
      VStr (u "1 à 3 mois"));
      (u "cost",
      VStr (u "5,000 à 10,000 FCFA (selon tribunal)"));
      (u "validity",
      VStr (u "Permanent"));
      (u "procedure",
      VList
          [VStr (u "1. Constituer dossier complet");
           VStr (u "2. Dépôt au greffe du tribunal");
           VStr (u "3. Enquête sur nationalité");
           VStr (u "4. Délivrance certificat après validation")])]);
    (u "Casier judiciaire",
   VDict
     [(u "service",
      VStr (u "Tribunal de Grande Instance"));
      (u "location",
      VStr (u "Ouagadougou, Bobo-Dioulasso, chefs-lieux de province"));
      (u "documents_required",
      VList
          [VStr (u "CNIB ou passeport");
           VStr (u "Demande manuscrite");
           VStr (u "Timbre fiscal (500 FCFA)");
           VStr (u "1 photo d'identité")]);
      (u "duration",
      VStr (u "3 à 7 jours"));
      (u "cost",
      VStr (u "2,000 FCFA"));
      (u "validity",
      VStr (u "3 mois"));
      (u "procedure",
      VList
          [VStr (u "1. Retirer formulaire au greffe");
           VStr (u "2. Remplir et joindre pièces");
           VStr (u "3. Paiement des frais");
           VStr (u "4. Retrait après délai annoncé")]);
      (u "types",
      VStr (u "Bulletin n°3 (demandes administratives, emploi)"))]);
    (u "Immatriculation véhicule",
   VDict
     [(u "service",
      VStr (u "Direction Générale des Transports Terrestres - Service des Mines"));
      (u "location",
      VStr (u "Bureaux DGTTM dans les provinces"));
      (u "documents_required",
      VList
          [VStr (u "Carte grise originale");
           VStr (u "Facture d'achat du véhicule");
           VStr (u "CNIB du propriétaire");
           VStr (u "Quittance assurance");
           VStr (u "Certificat de visite technique");
           VStr (u "Quittance taxe différentielle")]);
      (u "duration",
      VStr (u "7 à 15 jours"));
      (u "cost",
      VStr (u "Variable selon cylindrée (20,000 à 100,000 FCFA)"));
      (u "validity",
      VStr (u "Permanent (renouvellement carte grise si changement propriétaire)"));
      (u "procedure",
      VList
          [VStr (u "1. Faire visite technique du véhicule");
           VStr (u "2. Souscrire assurance");
           VStr (u "3. Constituer dossier et déposer à la DGTTM");
           VStr (u "4. Paiement taxes");
           VStr (u "5. Retrait carte grise et plaque")])]) ].

Definition NL : pystr := [10%N].

(** The normalisation of the lower-cased query in [search_service]. *)
Definition normalise (query_lower : pystr) : pystr :=
  if contains (u "cnib") query_lower
     || contains (u "carte") query_lower && contains (u "identité") query_lower
  then u "carte d'identité nationale (cnib)"
  else if contains (u "permis") query_lower then u "permis de conduire"
  else if contains (u "passeport") query_lower then u "passeport"
  else if contains (u "acte") query_lower && contains (u "naissance") query_lower
  then u "acte de naissance"
  else if contains (u "nationalité") query_lower
  then u "certificat de nationalité"
  else if contains (u "casier") query_lower then u "casier judiciaire"
  else if contains (u "immatriculation") query_lower
          || contains (u "carte grise") query_lower
  then u "immatriculation véhicule"
  else query_lower.

(** [prefix] followed by [str(x)], for each element [x] of a list. *)
Definition prefixed (py : pylib) (prefix : pystr) (l : value)
  : outcome (list pystr) :=
  match l with
  | VList xs => Returned (map (fun x => prefix ++ str_ py x) xs)
  | VStr s => Returned (map (fun c => prefix ++ [c]) s)
  | VDict d => Returned (map (fun kv => prefix ++ fst kv) d)
  | _ => Raised (Py.TypeError (u "'" ++ Py.type_name l
                                 ++ u "' object is not iterable"))
  end.

Section GovernmentServices.

Variable py : pylib.

Definition search_service (query : value) : outcome dict :=
  match query with
  | VStr s =>
      let query_lower := normalise (str_lower py s) in
      Returned
        (filter (fun kv => PyStr.eqb query_lower (u "all")
                           || contains query_lower (str_lower py (fst kv)))
                ADMINISTRATIVE_SERVICES)
  | _ => Raised (Py.AttributeError query (u "lower"))
  end.

(** The answer for a single service. *)
Definition single_service (name : pystr) (info : value) : outcome value :=
  documents <- Py.getitem info (u "documents_required");;
  docs <- prefixed py (u "   • ") documents;;
  let docs_text := join NL docs in
  procedure <- Py.getitem info (u "procedure");;
  steps <- prefixed py (u "   ") procedure;;
  let proc_text := join NL steps in
  service <- Py.getitem info (u "service");;
  location <- Py.getitem info (u "location");;
  duration <- Py.getitem info (u "duration");;
  cost <- Py.getitem info (u "cost");;
  validity <- Py.getitem info (u "validity");;
  contact <- Py.get info (u "contact") (VStr (u "Voir service local"));;
  let message :=
    u "🏛️ " ++ str_upper py name ++ NL ++ NL ++ u "🏢 Service: "
    ++ str_ py service ++ NL ++ u "📍 Où: " ++ str_ py location ++ NL ++ NL
    ++ u "📋 DOCUMENTS REQUIS:" ++ NL ++ docs_text ++ NL ++ NL
    ++ u "📝 PROCÉDURE:" ++ NL ++ proc_text ++ NL ++ NL ++ u "⏱️ Délai: "
    ++ str_ py duration ++ NL ++ u "💰 Coût: " ++ str_ py cost ++ NL
    ++ u "⏳ Validité: " ++ str_ py validity ++ NL ++ NL ++ u "📞 Contact: "
    ++ str_ py contact in
  has_note <- Py.contains_op (u "note") info;;
  message <- (if has_note : bool
              then note <- Py.getitem info (u "note");;
                   Returned (message ++ NL ++ NL ++ u "⚠️ NOTE: " ++ str_ py note)
              else Returned message);;
  has_categories <- Py.contains_op (u "categories") info;;
  message <- (if has_categories : bool
              then categories <- Py.getitem info (u "categories");;
                   Returned (message ++ NL ++ NL ++ u "📌 Catégories: "
                               ++ str_ py categories)
              else Returned message);;
  Returned
    (VDict [(u "status", VStr (u "success"));
            (u "type", VStr (u "single_service"));
            (u "service_name", VStr name);
            (u "data", info);
            (u "message", VStr message)]).

(** One element of the list joined into [services_text]. *)
Definition service_summary (kv : pystr * value) : outcome pystr :=
  let name := fst kv in
  service <- Py.getitem (snd kv) (u "service");;
  cost <- Py.getitem (snd kv) (u "cost");;
  duration <- Py.getitem (snd kv) (u "duration");;
  Returned (u "🏛️ " ++ name ++ NL ++ u "   Service: " ++ str_ py service ++ NL
            ++ u "   Coût: " ++ str_ py cost ++ NL ++ u "   Délai: "
            ++ str_ py duration).

Fixpoint summaries (services : dict) : outcome (list pystr) :=
  match services with
  | [] => Returned []
  | kv :: rest =>
      t <- service_summary kv;;
      ts <- summaries rest;;
      Returned (t :: ts)
  end.

Definition execute (arguments : value) : outcome value :=
  service_query <- Py.get arguments (u "service") (VStr (u "all"));;
  try_except
    (services <- search_service service_query;;
     match services with
     | [] =>
         Returned
           (VDict [(u "status", VStr (u "error"));
                   (u "message",
                    VStr (u "Service '" ++ str_ py service_query
                          ++ u "' non trouvé. Utilisez 'all' pour voir tous les services disponibles."))])
     | [(name, info)] => single_service name info
     | _ :: _ :: _ =>
         ts <- summaries services;;
         let services_text := join (NL ++ NL) ts in
         let message :=
           u "🏛️ SERVICES ADMINISTRATIFS DISPONIBLES ("
           ++ of_Z (Z.of_nat (List.length services)) ++ u "):" ++ NL ++ NL
           ++ services_text ++ NL ++ NL
           ++ u "💡 Demandez un service spécifique pour plus de détails." in
         Returned
           (VDict [(u "status", VStr (u "success"));
                   (u "type", VStr (u "service_list"));
                   (u "count", VInt (Z.of_nat (List.length services)));
                   (u "data", VDict services);
                   (u "message", VStr message)])
     end)
    (fun e =>
       Returned
         (VDict [(u "status", VStr (u "error"));
                 (u "message", VStr (u "Erreur lors de la recherche: " ++ exn_text e))])).

End GovernmentServices.

(** The service each keyword of the normalisation stands for, in the
    order in which the keywords are tested. *)
Definition keyword_service (query_lower : pystr) : option pystr :=
  if contains (u "cnib") query_lower
     || contains (u "carte") query_lower && contains (u "identité") query_lower
  then Some (u "Carte d'identité nationale (CNIB)")
  else if contains (u "permis") query_lower then Some (u "Permis de conduire")
  else if contains (u "passeport") query_lower then Some (u "Passeport")
  else if contains (u "acte") query_lower && contains (u "naissance") query_lower
  then Some (u "Acte de naissance")
  else if contains (u "nationalité") query_lower
  then Some (u "Certificat de nationalité")
  else if contains (u "casier") query_lower then Some (u "Casier judiciaire")
  else if contains (u "immatriculation") query_lower
          || contains (u "carte grise") query_lower
  then Some (u "Immatriculation véhicule")
  else None.

End tool_government_services.

(* ===================================================================== *)
(** * Properties *)
(* ===================================================================== *)

Unset Implicit Arguments.

Example u_fievre : u "fièvre" = [102; 105; 232; 118; 114; 101]%N.
Proof. reflexivity. Qed.

Example split_sample :
  split (u "  deux   mots ") = [u "deux"; u "mots"].
Proof. reflexivity. Qed.

Example of_Z_sample : of_Z (-42) = u "-42" /\ of_Z 0 = u "0" /\ of_Z 200 = u "200".
Proof. repeat split; reflexivity. Qed.

Example truncate_sample :
  tools._truncate_description (VStr (u "aaa bbb  ccc")) 7 = Returned (VStr (u "aaa...")).
Proof. reflexivity. Qed.

Example strptime_samples :
  Latin1.parse_date (u "2025-12-15") = Some (2025, 12, 15)%Z
  /\ Latin1.parse_date (u "2025-02-30") = None
  /\ Latin1.parse_date (u "15/12/2025") = None
  /\ Latin1.parse_date (u "2025-1-5") = Some (2025, 1, 5)%Z.
Proof. repeat split; reflexivity. Qed.

Example upper_sample : Latin1.upper (u " ou ") = u " OU ".
Proof. reflexivity. Qed.

(* --------------------------------------------------------------------- *)
(** ** Strings *)
(* --------------------------------------------------------------------- *)

Lemma eqb_eq : forall a b, PyStr.eqb a b = true <-> a = b.
Proof.
  induction a as [|x a IH]; destruct b as [|y b]; simpl; split; intro H;
    try reflexivity; try discriminate.
  - apply andb_true_iff in H. destruct H as [Hx Hab].
    apply N.eqb_eq in Hx. apply IH in Hab. congruence.
  - injection H as -> ->. rewrite N.eqb_refl. simpl. apply IH. reflexivity.
Qed.

Lemma eqb_refl : forall a, PyStr.eqb a a = true.
Proof. intro a. apply eqb_eq. reflexivity. Qed.

Lemma eqb_neq : forall a b, PyStr.eqb a b = false <-> a <> b.
Proof.
  intros a b. split.
  - intros H E. apply eqb_eq in E. congruence.
  - intro H. destruct (PyStr.eqb a b) eqn:E; [|reflexivity].
    apply eqb_eq in E. contradiction.
Qed.


Lemma starts_with_nil : forall s, starts_with [] s = true.
Proof. destruct s; reflexivity. Qed.


Lemma contains_app_r : forall k a b, contains k b = true -> contains k (a ++ b) = true.
Proof.
  induction a as [|x a IH]; intros b H; simpl.
  - exact H.
  - rewrite (IH b H). apply orb_true_r.
Qed.



Lemma not_in_by_eqb :
  forall k l, existsb (PyStr.eqb k) l = false -> ~ In k l.
Proof.
  intros k l H Hin.
  assert (existsb (PyStr.eqb k) l = true) as E.
  { apply existsb_exists. exists k. split; [exact Hin | apply eqb_refl]. }
  congruence.
Qed.

(* --------------------------------------------------------------------- *)
(** ** Dictionaries and envelopes *)
(* --------------------------------------------------------------------- *)

Lemma get_dict :
  forall d k default, Py.get (VDict d) k default = Returned (Py.dict_get d k default).
Proof.
  intros d k default. unfold Py.get, Py.dict_get.
  destruct (Py.dict_lookup k d); reflexivity.
Qed.

(* --------------------------------------------------------------------- *)
(** ** The dispatch table *)
(* --------------------------------------------------------------------- *)

Lemma lookup_none :
  forall name m, ~ In name (map fst m) -> tools.lookup name m = None.
Proof.
  induction m as [|[k md] m IH]; simpl; intro H.
  - reflexivity.
  - destruct (PyStr.eqb name k) eqn:E.
    + apply eqb_eq in E. exfalso. apply H. left. congruence.
    + apply IH. intro Hin. apply H. right. exact Hin.
Qed.

Lemma known_names_listed :
  forallb (fun k => contains k (join (u ", ") (map fst tools.tool_map)))
          (map fst tools.tool_map) = true.
Proof. vm_compute. reflexivity. Qed.


Section DispatchProperties.

Variable import_ : tools.tool_module -> outcome tools.py_module.

Let execute_tool := tools.execute_tool import_.

(** A failed import is not caught: it leaves [execute_tool] as it is. *)
Lemma import_error_propagates :
  forall e tool_name arguments,
    tools.import_all import_ = Raised e ->
    execute_tool tool_name arguments = Raised e.
Proof.
  intros e tool_name arguments H. unfold execute_tool, tools.execute_tool.
  rewrite H. reflexivity.
Qed.

(** C2 (amended). Once the imports at the top of [execute_tool] have
    succeeded, on a name that is not a key of the dispatch table
    [execute_tool] returns (it does not raise) an error result whose
    message contains every known tool name. *)
Theorem execute_tool_unknown_name :
  forall modules tool_name arguments,
    tools.import_all import_ = Returned modules ->
    ~ In tool_name (map fst tools.tool_map) ->
    exists message,
      execute_tool tool_name arguments = Returned (tools.error_result message)
      /\ is_error (tools.error_result message) = true
      /\ forall name,
           In name (map fst tools.tool_map) -> contains name message = true.
Proof.
  intros modules tool_name arguments Himports Hunknown.
  exists (tools.not_found_message tool_name). split; [|split].
  - unfold execute_tool, tools.execute_tool. rewrite Himports. cbn [bind].
    rewrite (lookup_none _ _ Hunknown). reflexivity.
  - reflexivity.
  - intros name Hin. unfold tools.not_found_message.
    apply (contains_app_r name (u "Outil '")).
    apply (contains_app_r name tool_name).
    apply (contains_app_r name (u "' non trouvé. Outils disponibles: ")).
    pose proof known_names_listed as L.
    rewrite forallb_forall in L. apply L. exact Hin.
Qed.

(** C10. For the two document tools, the handler is the one of the module
    that the imports of [execute_tool] have bound.  On every argument
    value for generate_document and on every argument mapping for
    analyze_document, the value the handler returns comes back as
    [{"status": "success", "result": value}], whatever it reports, and the
    error result, whose message carries the text of the exception, comes
    back exactly when the handler raises. *)
Theorem document_tools_wrap_handler_result :
  forall modules (arguments : value) (d : dict),
    tools.import_all import_ = Returned modules ->
    execute_tool (u "generate_document") arguments =
      match tools.handle_document_generation_tool_call
              (modules tools.document_generator) arguments with
      | Returned result =>
          Returned (VDict [(u "status", VStr (u "success")); (u "result", result)])
      | Raised e =>
          Returned
            (VDict [(u "status", VStr (u "error"));
                    (u "message",
                     VStr (u "Erreur lors de l'exécution de l'outil 'generate_document': "
                             ++ exn_text e))])
      end
    /\ execute_tool (u "analyze_document") (VDict d) =
      match tools.handle_document_analyzer_tool_call
              (modules tools.document_analyzer)
              (Py.dict_get d (u "file_content") (VStr []))
              (Py.dict_get d (u "filename") (VStr []))
              (Py.dict_get d (u "analysis_type") (VStr (u "extract_text")))
              (Py.dict_get d (u "specific_question") VNone) with
      | Returned result =>
          Returned (VDict [(u "status", VStr (u "success")); (u "result", result)])
      | Raised e =>
          Returned
            (VDict [(u "status", VStr (u "error"));
                    (u "message",
                     VStr (u "Erreur lors de l'exécution de l'outil 'analyze_document': "
                             ++ exn_text e))])
      end.
Proof.
  intros modules arguments d Himports. split.
  - unfold execute_tool, tools.execute_tool. rewrite Himports. cbn [bind].
    change (tools.lookup (u "generate_document") tools.tool_map)
      with (Some tools.document_generator).
    change (PyStr.eqb (u "generate_document") (u "generate_document")) with true.
    cbv iota zeta.
    destruct (tools.handle_document_generation_tool_call _ arguments);
      reflexivity.
  - unfold execute_tool, tools.execute_tool. rewrite Himports. cbn [bind].
    change (tools.lookup (u "analyze_document") tools.tool_map)
      with (Some tools.document_analyzer).
    change (PyStr.eqb (u "analyze_document") (u "generate_document")) with false.
    change (PyStr.eqb (u "analyze_document") (u "analyze_document")) with true.
    cbv iota zeta. rewrite !get_dict. unfold bind at 1 2 3 4.
    destruct (tools.handle_document_analyzer_tool_call _ _ _ _ _); reflexivity.
Qed.


End DispatchProperties.

Lemma execute_tool_unknown_name_witness :
  exists message,
    tools.execute_tool Examples.import_ (u "teleport") VNone
    = Returned (tools.error_result message)
    /\ is_error (tools.error_result message) = true
    /\ forall name,
         In name (map fst tools.tool_map) -> contains name message = true.
Proof.
  apply (execute_tool_unknown_name Examples.import_ _ (u "teleport") VNone eq_refl).
  apply not_in_by_eqb. vm_compute. reflexivity.
Defined.

(** C2 (as stated) fails: with only the modules under [src/] installed,
    the import of [tool_knowledge_base] raises at the top of
    [execute_tool], before the name is looked up, and the exception leaves
    the function. *)
Lemma execute_tool_unknown_name_import_error :
  ~ In (u "teleport") (map fst tools.tool_map)
  /\ tools.execute_tool Examples.src_import (u "teleport") (VDict [])
     = Raised (Examples.cannot_import (u "tool_knowledge_base"))
  /\ exn_class (Examples.cannot_import (u "tool_knowledge_base"))
     = u "ImportError".
Proof.
  split; [apply not_in_by_eqb; vm_compute; reflexivity|].
  split; reflexivity.
Qed.

Lemma document_tools_wrap_handler_result_witness :
  tools.execute_tool Examples.import_ (u "generate_document")
    (VDict [(u "format", VStr (u "odt"))])
  = Returned (VDict [(u "status", VStr (u "success"));
                     (u "result", Examples.failure_report)])
  /\ is_success
       (VDict [(u "status", VStr (u "success"));
               (u "result", Examples.failure_report)]) = true.
Proof.
  split; [|reflexivity].
  exact (proj1 (document_tools_wrap_handler_result Examples.import_ _
                  (VDict [(u "format", VStr (u "odt"))]) [] eq_refl)).
Defined.



Example execute_tool_malformed_arguments :
  tools.execute_tool Examples.import_
    (u "search_flights") VNone
  = Returned
      (tools.error_result
         (u "Erreur lors de l'exécution de l'outil 'search_flights': 'NoneType' object has no attribute 'get'")).
Proof. reflexivity. Qed.

Example analyze_document_needs_a_mapping :
  tools.execute_tool Examples.import_
    (u "analyze_document") VNone
  = Returned
      (tools.error_result
         (u "Erreur lors de l'exécution de l'outil 'analyze_document': 'NoneType' object has no attribute 'get'")).
Proof. reflexivity. Qed.

Example execute_tool_tool_error_passes_through :
  tools.execute_tool Examples.import_
    (u "search_flights") (VDict [])
  = Returned Amadeus.missing_keys_error.
Proof. reflexivity. Qed.

(* --------------------------------------------------------------------- *)
(** ** Format correction of the definitions *)
(* --------------------------------------------------------------------- *)

Lemma format_tool_fixed :
  forall tool t, tools.format_tool tool = Returned t -> tools.format_tool t = Returned t.
Proof.
  intros tool t H. unfold tools.format_tool in H.
  destruct tool as [ | b | z | s | l | d]; simpl in H; try discriminate.
  - (* a string *)
    destruct (contains (u "function") s) eqn:Ef; simpl in H.
    + injection H as <-. unfold tools.format_tool. simpl. rewrite Ef. reflexivity.
    + destruct (contains (u "name") s) eqn:En; simpl in H.
      * destruct (contains (u "description") s) eqn:Ed; simpl in H;
          [discriminate|].
        injection H as <-. unfold tools.format_tool. simpl.
        rewrite Ef, En. simpl. rewrite Ed. reflexivity.
      * injection H as <-. unfold tools.format_tool. simpl.
        rewrite Ef, En. reflexivity.
  - (* a list *)
    destruct (existsb (Py.is_str (u "function")) l) eqn:Ef; simpl in H.
    + injection H as <-. unfold tools.format_tool. simpl. rewrite Ef. reflexivity.
    + destruct (existsb (Py.is_str (u "name")) l) eqn:En; simpl in H.
      * destruct (existsb (Py.is_str (u "description")) l) eqn:Ed; simpl in H;
          [discriminate|].
        injection H as <-. unfold tools.format_tool. simpl.
        rewrite Ef, En. simpl. rewrite Ed. reflexivity.
      * injection H as <-. unfold tools.format_tool. simpl.
        rewrite Ef, En. reflexivity.
  - (* a dictionary *)
    destruct (Py.dict_mem (u "function") d) eqn:Ef; simpl in H.
    + injection H as <-. unfold tools.format_tool. simpl. rewrite Ef. reflexivity.
    + destruct (Py.dict_mem (u "name") d) eqn:En; simpl in H.
      * destruct (Py.dict_mem (u "description") d) eqn:Ed; simpl in H.
        -- destruct (Py.dict_lookup (u "name") d) as [name|]; simpl in H;
             [|discriminate].
           destruct (Py.dict_lookup (u "description") d) as [description|];
             simpl in H; [|discriminate].
           destruct (Py.dict_lookup (u "parameters") d) as [parameters|];
             simpl in H; injection H as <-; reflexivity.
        -- injection H as <-. unfold tools.format_tool. simpl.
           rewrite Ef, En. simpl. rewrite Ed. reflexivity.
      * injection H as <-. unfold tools.format_tool. simpl.
        rewrite Ef, En. reflexivity.
Qed.

Lemma for_each_format_fixed :
  forall raw l,
    tools.for_each tools.format_tool raw = Returned l ->
    tools.for_each tools.format_tool l = Returned l.
Proof.
  induction raw as [|x raw IH]; simpl; intros l H.
  - injection H as <-. reflexivity.
  - destruct (tools.format_tool x) as [y|] eqn:Ex; simpl in H; [|discriminate].
    destruct (tools.for_each tools.format_tool raw) as [ys|] eqn:Er; simpl in H;
      [|discriminate].
    injection H as <-. simpl.
    rewrite (format_tool_fixed _ _ Ex). simpl.
    rewrite (IH ys eq_refl). reflexivity.
Qed.

(** C5. The format correction is idempotent, on one definition of any
    shape and on the whole list built by [get_tools_definition]: applying
    it to its own result changes nothing, and where it raises it raises
    the same exception. *)
Theorem format_tool_idempotent :
  forall (tool : value) (raw_tools : list value),
    (t <- tools.format_tool tool;; tools.format_tool t) = tools.format_tool tool
    /\ (l <- tools.get_tools_definition raw_tools false;;
        tools.get_tools_definition l false)
       = tools.get_tools_definition raw_tools false.
Proof.
  intros tool raw_tools. split.
  - destruct (tools.format_tool tool) as [t|e] eqn:E; simpl; [|reflexivity].
    apply (format_tool_fixed _ _ E).
  - unfold tools.get_tools_definition.
    destruct (tools.for_each tools.format_tool raw_tools) as [l|e] eqn:E; simpl;
      [|reflexivity].
    rewrite (for_each_format_fixed _ _ E). reflexivity.
Qed.

Example format_tool_flat :
  tools.format_tool
    (VDict [(u "type", VStr (u "function")); (u "name", VStr (u "calculate"));
            (u "description", VStr (u "Calcule"))])
  = Returned
      (VDict [(u "type", VStr (u "function"));
              (u "function",
               VDict [(u "name", VStr (u "calculate"));
                      (u "description", VStr (u "Calcule"));
                      (u "parameters", VDict [])])]).
Proof. reflexivity. Qed.

(* --------------------------------------------------------------------- *)
(** ** The Amadeus search tools *)
(* --------------------------------------------------------------------- *)

Lemma getenv_unset :
  forall env name default, env name = None -> getenv env name default = default.
Proof. intros env name default H. unfold getenv. rewrite H. reflexivity. Qed.

Section AmadeusProperties.

Variable py : pylib.
Variable env : environ.
Variable flight_results :
  pystr -> pystr -> value -> value -> value -> value -> Net.response -> outcome value.
Variable hotel_results :
  value -> pystr -> value -> value -> value -> value -> value -> Net.io value.

Let search_flights := tool_flight_search.search_flights py env flight_results.
Let search_hotels := tool_hotel_search.search_hotels py env hotel_results.

Lemma flight_execute_dict :
  forall d w tr,
    tool_flight_search.execute py env flight_results (VDict d) w tr
    = search_flights
        (Py.dict_get d (u "origin") (VStr []))
        (Py.dict_get d (u "destination") (VStr []))
        (Py.dict_get d (u "departure_date") (VStr []))
        (Py.dict_get d (u "return_date") (VStr []))
        (Py.dict_get d (u "adults") (VInt 1))
        (Py.dict_get d (u "travel_class") (VStr (u "ECONOMY")))
        (Py.dict_get d (u "max_results") (VInt 5)) w tr.
Proof.
  intros d w tr. unfold tool_flight_search.execute.
  rewrite !get_dict. reflexivity.
Qed.

Lemma hotel_execute_dict :
  forall d w tr,
    tool_hotel_search.execute py env hotel_results (VDict d) w tr
    = search_hotels
        (Py.dict_get d (u "city_code") (VStr []))
        (Py.dict_get d (u "check_in_date") (VStr []))
        (Py.dict_get d (u "check_out_date") (VStr []))
        (Py.dict_get d (u "adults") (VInt 1))
        (Py.dict_get d (u "rooms") (VInt 1))
        (Py.dict_get d (u "max_results") (VInt 10)) w tr.
Proof.
  intros d w tr. unfold tool_hotel_search.execute.
  rewrite !get_dict. reflexivity.
Qed.

Lemma search_flights_missing_keys :
  forall o dst dd rd a tc mr w tr,
    nonempty (Amadeus.AMADEUS_API_KEY env) = false
    \/ nonempty (Amadeus.AMADEUS_API_SECRET env) = false ->
    search_flights o dst dd rd a tc mr w tr
    = (Returned Amadeus.missing_keys_error, tr).
Proof.
  intros o dst dd rd a tc mr w tr H.
  unfold search_flights, tool_flight_search.search_flights, Net.try_except.
  destruct H as [H|H]; rewrite H; simpl; [|rewrite orb_true_r]; reflexivity.
Qed.

Lemma search_hotels_missing_keys :
  forall c ci co a r mr w tr,
    nonempty (Amadeus.AMADEUS_API_KEY env) = false
    \/ nonempty (Amadeus.AMADEUS_API_SECRET env) = false ->
    search_hotels c ci co a r mr w tr
    = (Returned Amadeus.missing_keys_error, tr).
Proof.
  intros c ci co a r mr w tr H.
  unfold search_hotels, tool_hotel_search.search_hotels, Net.try_except.
  destruct H as [H|H]; rewrite H; simpl; [|rewrite orb_true_r]; reflexivity.
Qed.

(** C7. When [AMADEUS_API_KEY] or [AMADEUS_API_SECRET] is absent from
    the environment, the flight search and the hotel search return, on
    every argument mapping, the error that asks for the two keys, and
    send no request. *)
Theorem amadeus_tools_need_credentials :
  forall (d : dict) (w : Net.world),
    env (u "AMADEUS_API_KEY") = None \/ env (u "AMADEUS_API_SECRET") = None ->
    Net.run (tool_flight_search.execute py env flight_results (VDict d)) w
      = (Returned Amadeus.missing_keys_error, [])
    /\ Net.run (tool_hotel_search.execute py env hotel_results (VDict d)) w
      = (Returned Amadeus.missing_keys_error, [])
    /\ is_error Amadeus.missing_keys_error = true
    /\ exists m,
         message_of Amadeus.missing_keys_error = Some m
         /\ contains (u "AMADEUS_API_KEY") m = true.
Proof.
  intros d w Habsent.
  assert (nonempty (Amadeus.AMADEUS_API_KEY env) = false
          \/ nonempty (Amadeus.AMADEUS_API_SECRET env) = false) as Hempty.
  { unfold Amadeus.AMADEUS_API_KEY, Amadeus.AMADEUS_API_SECRET.
    destruct Habsent as [H|H]; [left|right];
      rewrite (getenv_unset _ _ _ H); reflexivity. }
  unfold Net.run. split; [|split; [|split]].
  - rewrite flight_execute_dict. now apply search_flights_missing_keys.
  - rewrite hotel_execute_dict. now apply search_hotels_missing_keys.
  - reflexivity.
  - eexists. split; reflexivity.
Qed.

Hypothesis key_set : nonempty (Amadeus.AMADEUS_API_KEY env) = true.
Hypothesis secret_set : nonempty (Amadeus.AMADEUS_API_SECRET env) = true.

Lemma search_flights_bad_length :
  forall o dst dd rd a tc mr w tr,
    len (strip (str_upper py o)) <> 3 \/ len (strip (str_upper py dst)) <> 3 ->
    search_flights (VStr o) (VStr dst) dd rd a tc mr w tr
    = (Returned tool_flight_search.iata_error, tr).
Proof.
  intros o dst dd rd a tc mr w tr H.
  unfold search_flights, tool_flight_search.search_flights, Net.try_except.
  rewrite key_set, secret_set. simpl.
  unfold Net.bind, Net.lift. simpl.
  destruct H as [H|H]; apply Nat.eqb_neq in H; rewrite H; simpl;
    [|rewrite orb_true_r]; reflexivity.
Qed.

Lemma search_hotels_bad_length :
  forall c ci co a r mr w tr,
    len (strip (str_upper py c)) <> 3 ->
    search_hotels (VStr c) ci co a r mr w tr
    = (Returned tool_hotel_search.iata_error, tr).
Proof.
  intros c ci co a r mr w tr H.
  unfold search_hotels, tool_hotel_search.search_hotels, Net.try_except.
  rewrite key_set, secret_set. simpl.
  unfold Net.bind, Net.lift. simpl.
  apply Nat.eqb_neq in H. rewrite H. reflexivity.
Qed.

(** C6 (amended). With the credentials configured, a flight search whose
    origin or destination, uppercased and trimmed, does not have exactly
    three characters, and a hotel search whose city code does not, return
    the error stating that IATA codes are three letters long, and send no
    request.  Only the length is tested. *)
Theorem iata_code_length_checked_before_network :
  forall (d : dict) (w : Net.world),
    (forall o dst,
        Py.dict_get d (u "origin") (VStr []) = VStr o ->
        Py.dict_get d (u "destination") (VStr []) = VStr dst ->
        len (strip (str_upper py o)) <> 3 \/ len (strip (str_upper py dst)) <> 3 ->
        Net.run (tool_flight_search.execute py env flight_results (VDict d)) w
        = (Returned tool_flight_search.iata_error, []))
    /\ (forall c,
           Py.dict_get d (u "city_code") (VStr []) = VStr c ->
           len (strip (str_upper py c)) <> 3 ->
           Net.run (tool_hotel_search.execute py env hotel_results (VDict d)) w
           = (Returned tool_hotel_search.iata_error, []))
    /\ is_error tool_flight_search.iata_error = true
    /\ is_error tool_hotel_search.iata_error = true
    /\ (exists m, message_of tool_flight_search.iata_error = Some m
                  /\ contains (u "IATA") m = true
                  /\ contains (u "3 lettres") m = true)
    /\ (exists m, message_of tool_hotel_search.iata_error = Some m
                  /\ contains (u "IATA") m = true
                  /\ contains (u "3 lettres") m = true).
Proof.
  intros d w. unfold Net.run. repeat split.
  - intros o dst Ho Hd H. rewrite flight_execute_dict, Ho, Hd.
    now apply search_flights_bad_length.
  - intros c Hc H. rewrite hotel_execute_dict, Hc.
    now apply search_hotels_bad_length.
  - eexists. repeat split.
  - eexists. repeat split.
Qed.

End AmadeusProperties.

Lemma amadeus_tools_need_credentials_witness :
  Examples.no_env (u "AMADEUS_API_KEY") = None
  /\ Net.run (tool_flight_search.execute Latin1.lib Examples.no_env
                Examples.no_flight_results
                (Examples.flight_arguments (u "OUA") (u "CDG") (u "2025-12-15")))
             Latin1.offline
     = (Returned Amadeus.missing_keys_error, []).
Proof.
  split; [reflexivity|].
  apply (proj1
           (amadeus_tools_need_credentials Latin1.lib Examples.no_env
              Examples.no_flight_results Examples.no_hotel_results
              [(u "origin", VStr (u "OUA")); (u "destination", VStr (u "CDG"));
               (u "departure_date", VStr (u "2025-12-15"))]
              Latin1.offline (or_introl eq_refl))).
Defined.

Lemma iata_code_length_checked_before_network_witness :
  Net.run (tool_flight_search.execute Latin1.lib Examples.amadeus_env
             Examples.no_flight_results
             (Examples.flight_arguments (u "ou") (u "CDG") (u "2025-12-15")))
          Latin1.offline
  = (Returned tool_flight_search.iata_error, []).
Proof.
  apply (proj1
           (iata_code_length_checked_before_network Latin1.lib Examples.amadeus_env
              Examples.no_flight_results Examples.no_hotel_results
              eq_refl eq_refl
              [(u "origin", VStr (u "ou")); (u "destination", VStr (u "CDG"));
               (u "departure_date", VStr (u "2025-12-15"))]
              Latin1.offline)
           (u "ou") (u "CDG")).
  - reflexivity.
  - reflexivity.
  - left. vm_compute. intro H. discriminate H.
Defined.

(** C6 (as stated) fails: the origin "123" is not made of three letters,
    yet the flight search goes on to request a token; on a network that
    refuses the connection the result is the token error, after one
    request.  The same happens to the hotel search with city code "123". *)
Lemma non_alphabetic_code_reaches_network :
  forallb Examples.is_letter (u "123") = false
  /\ Net.run (tool_flight_search.execute Latin1.lib Examples.amadeus_env
                Examples.no_flight_results
                (Examples.flight_arguments (u "123") (u "CDG") (u "2025-12-15")))
             Latin1.offline
     = (Returned Amadeus.token_error, [Amadeus.token_request Examples.amadeus_env])
  /\ Net.run (tool_hotel_search.execute Latin1.lib Examples.amadeus_env
                Examples.no_hotel_results
                (Examples.hotel_arguments (u "123") (u "2025-12-15") (u "2025-12-20")))
             Latin1.offline
     = (Returned Amadeus.token_error, [Amadeus.token_request Examples.amadeus_env])
  /\ Amadeus.token_error <> tool_flight_search.iata_error
  /\ Amadeus.token_error <> tool_hotel_search.iata_error.
Proof.
  split; [reflexivity|].
  split; [vm_compute; reflexivity|].
  split; [vm_compute; reflexivity|].
  split; intro H; vm_compute in H; discriminate H.
Qed.

(* --------------------------------------------------------------------- *)
(** ** Argument aliases of the email tool *)
(* --------------------------------------------------------------------- *)

Ltac resolve_cases d :=
  unfold tool_email.or_else, tool_email.arg;
  rewrite ?get_dict; unfold Py.dict_get;
  repeat (cbn [bind Py.truthy Spec.first_truthy];
          match goal with
          | |- context [match Py.dict_lookup ?k d with _ => _ end] =>
              destruct (Py.dict_lookup k d)
          | H : Py.truthy ?v = _ |- context [if Py.truthy ?v then _ else _] =>
              rewrite H
          | |- context [if Py.truthy ?v then _ else _] =>
              destruct (Py.truthy v) eqn:?
          end);
  cbn [bind Py.truthy Spec.first_truthy]; try reflexivity.

Lemma resolve_three :
  forall d a b c,
    tool_email.or_else
      (tool_email.or_else
         (tool_email.or_else (tool_email.arg (VDict d) a) (tool_email.arg (VDict d) b))
         (tool_email.arg (VDict d) c))
      (Returned (VStr []))
    = Returned (Spec.first_truthy [a; b; c] d (VStr [])).
Proof. intros d a b c. resolve_cases d. Qed.

Lemma resolve_two :
  forall d a b,
    tool_email.or_else
      (tool_email.or_else (tool_email.arg (VDict d) a) (tool_email.arg (VDict d) b))
      (Returned (VStr []))
    = Returned (Spec.first_truthy [a; b] d (VStr [])).
Proof. intros d a b. resolve_cases d. Qed.

Lemma first_truthy_absent :
  forall aliases d default,
    (forall a, In a aliases -> Py.dict_lookup a d = None) ->
    Spec.first_truthy aliases d default = default.
Proof.
  induction aliases as [|a rest IH]; intros d default H; simpl.
  - reflexivity.
  - rewrite (H a (or_introl eq_refl)). apply IH.
    intros b Hb. apply H. right. exact Hb.
Qed.

(** C9 (amended). On every argument mapping the entry wrapper of the email
    tool resolves the recipient to the value of the first of [email],
    [to_email], [recipient] that is present with a truthy value, likewise
    the message among [message], [body], [content] and the link among
    [url], [link]; when no alias qualifies, and in particular when none is
    present, the value is the empty string; the resolution returns on
    every mapping.  The resolved values are those handed to [send_email]. *)
Theorem email_aliases_first_truthy :
  forall (send_email : value -> value -> value -> value -> outcome value) (d : dict),
    tool_email.resolve_email (VDict d)
      = Returned (Spec.first_truthy Spec.email_aliases d (VStr []))
    /\ tool_email.resolve_message (VDict d)
      = Returned (Spec.first_truthy Spec.message_aliases d (VStr []))
    /\ tool_email.resolve_url (VDict d)
      = Returned (Spec.first_truthy Spec.url_aliases d (VStr []))
    /\ (forall aliases,
          (forall a, In a aliases -> Py.dict_lookup a d = None) ->
          Spec.first_truthy aliases d (VStr []) = VStr [])
    /\ tool_email.execute send_email (VDict d)
      = (_ <- tool_email.slice_check (Py.dict_get d (u "subject") (VStr []));;
         _ <- tool_email.len_check (Spec.first_truthy Spec.message_aliases d (VStr []));;
         send_email (Spec.first_truthy Spec.email_aliases d (VStr []))
           (Py.dict_get d (u "subject") (VStr []))
           (Spec.first_truthy Spec.message_aliases d (VStr []))
           (Spec.first_truthy Spec.url_aliases d (VStr []))).
Proof.
  intros send_email d.
  assert (tool_email.resolve_email (VDict d)
          = Returned (Spec.first_truthy Spec.email_aliases d (VStr []))) as He.
  { apply resolve_three. }
  assert (tool_email.resolve_message (VDict d)
          = Returned (Spec.first_truthy Spec.message_aliases d (VStr []))) as Hm.
  { apply resolve_three. }
  assert (tool_email.resolve_url (VDict d)
          = Returned (Spec.first_truthy Spec.url_aliases d (VStr []))) as Hu.
  { apply resolve_two. }
  repeat split; try assumption.
  - intros aliases H. now apply first_truthy_absent.
  - unfold tool_email.execute. rewrite He, Hm, Hu, get_dict. reflexivity.
Qed.

(** C9 (as stated) fails: with [email] present but empty and [to_email]
    set, the first present alias is [email], whose value is the empty
    string, while the wrapper resolves the recipient to the value of
    [to_email]. *)
Lemma empty_alias_is_skipped :
  let d := [(u "email", VStr []); (u "to_email", VStr (u "a@b.fr"))] in
  Spec.first_present Spec.email_aliases d (VStr []) = VStr []
  /\ tool_email.resolve_email (VDict d) = Returned (VStr (u "a@b.fr"))
  /\ tool_email.resolve_email (VDict d)
     <> Returned (Spec.first_present Spec.email_aliases d (VStr [])).
Proof.
  repeat split. intro H. vm_compute in H. discriminate H.
Qed.

(* --------------------------------------------------------------------- *)
(** ** The health-advice tool *)
(* --------------------------------------------------------------------- *)

Lemma starts_with_In :
  forall p s c, starts_with p s = true -> In c p -> In c s.
Proof.
  induction p as [|a p IH]; intros s c H Hin.
  - destruct Hin.
  - destruct s as [|b s]; simpl in H; [discriminate|].
    apply andb_true_iff in H. destruct H as [Hab Hp].
    apply N.eqb_eq in Hab. subst b.
    destruct Hin as [->|Hin]; [left; reflexivity|].
    right. eapply IH; eassumption.
Qed.

Lemma contains_In :
  forall k s c, contains k s = true -> In c k -> In c s.
Proof.
  induction s as [|b s IH]; intros c H Hin.
  - simpl in H. rewrite orb_false_r in H. eapply starts_with_In; eassumption.
  - simpl in H. apply orb_true_iff in H. destruct H as [H|H].
    + eapply starts_with_In; [exact H | exact Hin].
    + right. apply IH; assumption.
Qed.

Lemma starts_with_map :
  forall (f : char -> char) p s,
    starts_with p s = true -> starts_with (map f p) (map f s) = true.
Proof.
  induction p as [|a p IH]; intros s H.
  - apply starts_with_nil.
  - destruct s as [|b s]; simpl in H; [discriminate|].
    apply andb_true_iff in H. destruct H as [Hab Hp].
    apply N.eqb_eq in Hab. subst b. simpl.
    rewrite N.eqb_refl. simpl. apply IH. exact Hp.
Qed.

Lemma contains_map :
  forall (f : char -> char) k s,
    contains k s = true -> contains (map f k) (map f s) = true.
Proof.
  induction s as [|b s IH]; intro H.
  - simpl in H. rewrite orb_false_r in H. simpl. rewrite orb_false_r.
    apply (starts_with_map f k [] H).
  - simpl in H. apply orb_true_iff in H. simpl. apply orb_true_iff.
    destruct H as [H|H].
    + left. apply (starts_with_map f k (b :: s) H).
    + right. apply IH. exact H.
Qed.

Lemma lstrip_In :
  forall s c, In c s -> is_space c = false -> In c (lstrip s).
Proof.
  induction s as [|a s IH]; intros c Hin Hc.
  - destruct Hin.
  - simpl. destruct (is_space a) eqn:Ea.
    + destruct Hin as [->|Hin]; [congruence|]. apply IH; assumption.
    + exact Hin.
Qed.

Lemma strip_In :
  forall s c, In c s -> is_space c = false -> In c (strip s).
Proof.
  intros s c Hin Hc. unfold strip, rstrip.
  apply -> in_rev. apply lstrip_In; [|exact Hc].
  apply -> in_rev. apply lstrip_In; assumption.
Qed.

Lemma fever_text_not_blank :
  forall s,
    contains (u "fièvre") s = true ->
    Py.truthy (VStr s) = true /\ (len (strip s) =? 0)%nat = false.
Proof.
  intros s H.
  assert (In 102%N s) as Hf.
  { apply (contains_In (u "fièvre") s 102%N H). left. reflexivity. }
  split.
  - destruct s; [destruct Hf | reflexivity].
  - pose proof (strip_In s 102%N Hf eq_refl) as Hs.
    destruct (strip s); [destruct Hs | reflexivity].
Qed.

Lemma generic_advice_is_success :
  forall py s,
    exists r,
      tool_health_advice.get_generic_health_advice py (VStr s) = Returned r
      /\ is_success r = true.
Proof.
  intros py s. unfold tool_health_advice.get_generic_health_advice.
  destruct (find _ tool_health_advice.advice_database) as [[k adv]|];
    eexists; split; reflexivity.
Qed.

Lemma generic_advice_fever :
  forall py s,
    contains (u "fièvre") (str_lower py s) = true ->
    contains (u "ballonnement") (str_lower py s) = false ->
    contains (u "maux de tête") (str_lower py s) = false ->
    exists r,
      tool_health_advice.get_generic_health_advice py (VStr s) = Returned r
      /\ is_success r = true
      /\ Spec.possible_causes_of r = Some Spec.fever_causes.
Proof.
  intros py s Hf Hb Hm.
  unfold tool_health_advice.get_generic_health_advice,
    tool_health_advice.advice_database.
  cbn [find fst]. rewrite Hb, Hm, Hf.
  eexists. split; [reflexivity|]. split; reflexivity.
Qed.

Section HealthAdviceProperties.

Variable py : pylib.
Variable env : environ.
Variable diagnosis_results :
  value -> value -> value -> Net.response -> outcome value.

Let get_health_advice :=
  tool_health_advice.get_health_advice py env diagnosis_results.
Let generic := tool_health_advice.get_generic_health_advice py.

(** [str.lower] leaves an occurrence of the lower-case keyword in place. *)
Hypothesis lower_keeps_keyword :
  forall t, contains (u "fièvre") t = true ->
            contains (u "fièvre") (str_lower py t) = true.

Lemma health_advice_falls_back :
  forall s age sex w,
    contains (u "fièvre") s = true ->
    (nonempty (tool_health_advice.INFERMEDICA_APP_ID env) = false
     \/ nonempty (tool_health_advice.INFERMEDICA_APP_KEY env) = false
     \/ (exists e,
           w [] (tool_health_advice.parse_request env (VStr s) age sex) = Raised e)
     \/ (exists response,
           w [] (tool_health_advice.parse_request env (VStr s) age sex)
             = Returned response
           /\ Net.status_code response <> 200%Z)) ->
    exists tr,
      Net.run (get_health_advice (VStr s) age sex) w = (generic (VStr s), tr).
Proof.
  intros s age sex w Hs Hdown.
  destruct (fever_text_not_blank s Hs) as [Htruthy Hlen].
  destruct (generic_advice_is_success py s) as [r [Hr _]].
  unfold get_health_advice, tool_health_advice.get_health_advice, Net.run,
    Net.try_except.
  destruct (negb (nonempty (tool_health_advice.INFERMEDICA_APP_ID env))
            || negb (nonempty (tool_health_advice.INFERMEDICA_APP_KEY env)))
    eqn:Econf.
  - exists []. unfold Net.lift, generic. rewrite Hr. reflexivity.
  - apply orb_false_iff in Econf. destruct Econf as [Eid Ekey].
    apply negb_false_iff in Eid. apply negb_false_iff in Ekey.
    destruct Hdown as [H|[H|[[e He]|[response [Hresp Hstatus]]]]];
      try congruence.
    + exists [tool_health_advice.parse_request env (VStr s) age sex].
      unfold Net.bind, Net.lift, Net.send, tool_health_advice.no_symptoms.
      rewrite Htruthy. cbn [negb]. rewrite Hlen. cbn [app].
      rewrite He. unfold generic. rewrite Hr. reflexivity.
    + exists [tool_health_advice.parse_request env (VStr s) age sex].
      unfold Net.bind, Net.lift, Net.send, tool_health_advice.no_symptoms.
      rewrite Htruthy. cbn [negb]. rewrite Hlen. cbn [app].
      rewrite Hresp. apply Z.eqb_neq in Hstatus. rewrite Hstatus. cbn [negb].
      unfold generic. rewrite Hr. reflexivity.
Qed.

(** C8 (amended). When the health provider is not configured, cannot be
    reached, or answers the first request with a status other than 200,
    and the symptom text contains "fièvre", the tool answers from the
    local dataset with a success result, never an error; its
    [possible_causes] are those of the fever entry, "Infection virale"
    included, provided the lower-cased text contains none of the keywords
    listed before "fièvre" ("ballonnement", "maux de tête"), since the
    first keyword found decides the entry. *)
Theorem fever_advice_from_local_dataset :
  forall (s : pystr) (age sex : value) (w : Net.world),
    contains (u "fièvre") s = true ->
    (nonempty (tool_health_advice.INFERMEDICA_APP_ID env) = false
     \/ nonempty (tool_health_advice.INFERMEDICA_APP_KEY env) = false
     \/ (exists e,
           w [] (tool_health_advice.parse_request env (VStr s) age sex) = Raised e)
     \/ (exists response,
           w [] (tool_health_advice.parse_request env (VStr s) age sex)
             = Returned response
           /\ Net.status_code response <> 200%Z)) ->
    exists r tr,
      Net.run (get_health_advice (VStr s) age sex) w = (Returned r, tr)
      /\ is_success r = true
      /\ (contains (u "ballonnement") (str_lower py s) = false ->
          contains (u "maux de tête") (str_lower py s) = false ->
          Spec.possible_causes_of r = Some Spec.fever_causes
          /\ exists causes,
               Spec.fever_causes = VList causes
               /\ In (VStr (u "Infection virale")) causes).
Proof.
  intros s age sex w Hs Hdown.
  destruct (health_advice_falls_back s age sex w Hs Hdown) as [tr Hrun].
  destruct (generic_advice_is_success py s) as [r [Hr Hok]].
  exists r, tr. unfold generic in Hrun. rewrite Hr in Hrun.
  split; [exact Hrun|]. split; [exact Hok|].
  intros Hb Hm.
  destruct (generic_advice_fever py s (lower_keeps_keyword s Hs) Hb Hm)
    as [r' [Hr' [_ Hcauses]]].
  rewrite Hr in Hr'. injection Hr' as <-.
  split; [exact Hcauses|].
  eexists. split; [reflexivity|]. left. reflexivity.
Qed.

End HealthAdviceProperties.

Lemma latin1_lower_keeps_keyword :
  forall t, contains (u "fièvre") t = true ->
            contains (u "fièvre") (str_lower Latin1.lib t) = true.
Proof.
  intros t H.
  change (u "fièvre") with (map Latin1.lower_char (u "fièvre")) at 1.
  apply (contains_map Latin1.lower_char (u "fièvre") t H).
Qed.

Lemma fever_advice_from_local_dataset_witness :
  exists r tr,
    Net.run (tool_health_advice.get_health_advice Latin1.lib Examples.infermedica_env
               Examples.no_diagnosis_results
               (VStr (u "J'ai de la fièvre depuis hier")) (VInt 30) (VStr (u "male")))
            Latin1.offline = (Returned r, tr)
    /\ is_success r = true
    /\ Spec.possible_causes_of r = Some Spec.fever_causes.
Proof.
  destruct (fever_advice_from_local_dataset Latin1.lib Examples.infermedica_env
              Examples.no_diagnosis_results latin1_lower_keeps_keyword
              (u "J'ai de la fièvre depuis hier") (VInt 30) (VStr (u "male"))
              Latin1.offline eq_refl
              (or_intror (or_intror (or_introl
                 (ex_intro _ (Exn (u "ConnectionError") (u "Connection refused"))
                    eq_refl)))))
    as [r [tr [Hrun [Hok Hcauses]]]].
  exists r, tr. split; [exact Hrun|]. split; [exact Hok|].
  apply Hcauses; reflexivity.
Defined.

(** C8 (as stated) fails: "maux de tête et fièvre" contains "fièvre", but
    the entry of "maux de tête", listed first, is the one returned, with or
    without a configured provider; its causes do not include "Infection
    virale". *)
Lemma fever_after_headache_gets_headache_causes :
  let symptoms := VStr (u "maux de tête et fièvre") in
  let arguments := VDict [(u "symptoms", symptoms)] in
  let headache :=
    tool_health_advice.strings
      [u "Tension"; u "Déshydratation"; u "Fatigue"; u "Stress"; u "Migraine"] in
  contains (u "fièvre") (u "maux de tête et fièvre") = true
  /\ (exists r,
        Net.run (tool_health_advice.execute Latin1.lib Examples.no_env
                   Examples.no_diagnosis_results arguments) Latin1.offline
        = (Returned r, [])
        /\ is_success r = true
        /\ Spec.possible_causes_of r = Some headache)
  /\ (exists r tr,
        Net.run (tool_health_advice.execute Latin1.lib Examples.infermedica_env
                   Examples.no_diagnosis_results arguments) Latin1.offline
        = (Returned r, tr)
        /\ Spec.possible_causes_of r = Some headache)
  /\ existsb (Py.is_str (u "Infection virale"))
       (map VStr [u "Tension"; u "Déshydratation"; u "Fatigue"; u "Stress"; u "Migraine"])
     = false.
Proof.
  cbv zeta. split; [reflexivity|]. split; [|split].
  - eexists. split; [vm_compute; reflexivity|]. split; reflexivity.
  - eexists. eexists. split; [vm_compute; reflexivity|]. reflexivity.
  - reflexivity.
Qed.

(* --------------------------------------------------------------------- *)
(** ** Splitting into words and collapsing whitespace *)
(* --------------------------------------------------------------------- *)

Lemma split_cons_space :
  forall c s, is_space c = true -> split (c :: s) = split s.
Proof. intros c s H. simpl. rewrite H. reflexivity. Qed.

Lemma split_unfold :
  forall c s,
    split (c :: s)
    = if is_space c then split s
      else
        match s with
        | [] => [[c]]
        | c' :: _ =>
            if is_space c' then [c] :: split s
            else
              match split s with
              | w :: ws => (c :: w) :: ws
              | [] => [[c]]
              end
        end.
Proof. reflexivity. Qed.

Lemma split_words : forall s, Forall Spec.is_word (split s).
Proof.
  induction s as [|a s IH].
  - constructor.
  - rewrite split_unfold. destruct (is_space a) eqn:Ea; [exact IH|].
    assert (Spec.is_word [a]) as Hone.
    { split; [discriminate|]. constructor; [exact Ea | constructor]. }
    destruct s as [|b s'].
    + constructor; [exact Hone | constructor].
    + destruct (is_space b) eqn:Eb.
      * constructor; [exact Hone | exact IH].
      * destruct (split (b :: s')) as [|w ws] eqn:Es.
        -- constructor; [exact Hone | constructor].
        -- inversion IH as [|w' ws' [Hne Hw] Hws]; subst.
           constructor; [|exact Hws]. split; [discriminate|].
           constructor; assumption.
Qed.

Lemma split_word : forall w, Spec.is_word w -> split w = [w].
Proof.
  induction w as [|a w IH]; intros [Hne Hw].
  - contradiction.
  - inversion Hw as [|a' w' Ha Hw']; subst.
    rewrite split_unfold, Ha. destruct w as [|b w'].
    + reflexivity.
    + inversion Hw' as [|b' w'' Hb _]; subst. rewrite Hb.
      rewrite IH; [reflexivity|]. split; [discriminate | exact Hw'].
Qed.

Lemma split_word_then_space :
  forall w r, Spec.is_word w -> split (w ++ SPACE :: r) = w :: split r.
Proof.
  induction w as [|a w IH]; intros r [Hne Hw].
  - contradiction.
  - inversion Hw as [|a' w' Ha Hw']; subst.
    change ((a :: w) ++ SPACE :: r) with (a :: (w ++ SPACE :: r)).
    rewrite split_unfold, Ha.
    destruct w as [|b w'].
    + cbn [app]. change (is_space SPACE) with true. cbv iota.
      rewrite split_cons_space by reflexivity. reflexivity.
    + inversion Hw' as [|b' w'' Hb _]; subst.
      assert (split ((b :: w') ++ SPACE :: r) = (b :: w') :: split r) as E.
      { apply IH. split; [discriminate | exact Hw']. }
      rewrite E. cbn [app]. rewrite Hb. reflexivity.
Qed.

Lemma split_join :
  forall ws, Forall Spec.is_word ws -> split (join [SPACE] ws) = ws.
Proof.
  induction ws as [|w ws IH]; intro H.
  - reflexivity.
  - inversion H as [|w' ws' Hw Hws]; subst.
    destruct ws as [|w2 ws2].
    + simpl. apply split_word. exact Hw.
    + change (join [SPACE] (w :: w2 :: ws2))
        with (w ++ SPACE :: join [SPACE] (w2 :: ws2)).
      rewrite split_word_then_space by exact Hw.
      rewrite IH by exact Hws. reflexivity.
Qed.

(** Collapsing keeps the words of a text, in order, and nothing else. *)
Lemma split_collapse : forall s, split (tools.collapse s) = split s.
Proof. intro s. unfold tools.collapse. apply split_join, split_words. Qed.

Lemma collapse_idempotent :
  forall s, tools.collapse (tools.collapse s) = tools.collapse s.
Proof.
  intro s. unfold tools.collapse at 1. rewrite split_collapse. reflexivity.
Qed.

Lemma split_visible :
  forall s c, In c s -> is_space c = false -> split s <> [].
Proof.
  induction s as [|a s IH]; intros c Hin Hc.
  - destruct Hin.
  - simpl. destruct (is_space a) eqn:Ea.
    + destruct Hin as [->|Hin]; [congruence|]. eapply IH; eassumption.
    + destruct s as [|b s']; [discriminate|].
      destruct (is_space b); [discriminate|].
      destruct (split (b :: s')); discriminate.
Qed.

Lemma join_nonempty :
  forall sep w ws, w <> [] -> join sep (w :: ws) <> [].
Proof.
  intros sep w ws Hw. simpl. destruct ws as [|w2 ws2].
  - exact Hw.
  - intro E. apply app_eq_nil in E. destruct E as [E _]. contradiction.
Qed.

Lemma collapse_visible :
  forall s c, In c s -> is_space c = false -> tools.collapse s <> [].
Proof.
  intros s c Hin Hc. unfold tools.collapse.
  pose proof (split_visible s c Hin Hc) as Hne.
  pose proof (split_words s) as Hw.
  destruct (split s) as [|w ws]; [contradiction|].
  inversion Hw as [|w' ws' [Hwne _] _]; subst.
  apply join_nonempty. exact Hwne.
Qed.

(* --------------------------------------------------------------------- *)
(** ** Truncation of a description *)
(* --------------------------------------------------------------------- *)

Lemma before_last_none :
  forall sep s, before_last sep s = None -> ~ In sep s.
Proof.
  induction s as [|c s IH]; intros H Hin.
  - destruct Hin.
  - simpl in H. destruct (before_last sep s) as [p|]; [discriminate|].
    destruct (c =? sep)%N eqn:E; [discriminate|].
    apply N.eqb_neq in E. destruct Hin as [Hc|Hin]; [congruence|].
    now apply IH.
Qed.

Lemma before_last_some :
  forall sep s p,
    before_last sep s = Some p -> exists q, s = p ++ sep :: q /\ ~ In sep q.
Proof.
  induction s as [|c s IH]; intros p H.
  - discriminate.
  - simpl in H. destruct (before_last sep s) as [p'|] eqn:E.
    + injection H as <-. destruct (IH p' eq_refl) as [q [Hs Hq]].
      exists q. split; [|exact Hq]. simpl. congruence.
    + destruct (c =? sep)%N eqn:Ec; [|discriminate].
      injection H as <-. apply N.eqb_eq in Ec. subst c.
      exists s. split; [reflexivity|]. now apply before_last_none.
Qed.

Lemma rsplit1_head_cut :
  forall limit text,
    Spec.cut_at limit text (rsplit1_head (slice_to limit text)).
Proof.
  intros limit text. unfold rsplit1_head, slice_to.
  destruct (before_last SPACE (firstn limit text)) as [p|] eqn:E.
  - destruct (before_last_some _ _ _ E) as [q [Hs Hq]].
    eapply Spec.cut_before_last_space; eassumption.
  - apply Spec.cut_at_limit. now apply before_last_none.
Qed.


Lemma truncate_text :
  forall s limit,
    exists t,
      tools._truncate_description (VStr s) limit = Returned (VStr t)
      /\ Spec.truncated limit s t.
Proof.
  intros s limit. unfold tools._truncate_description.
  destruct s as [|c s].
  - exists []. split; [reflexivity|].
    change (@nil char) with (tools.collapse []) at 2.
    apply Spec.within_limit. simpl. lia.
  - cbn [Py.truthy negb].
    destruct (len (tools.collapse (c :: s)) <=? limit)%nat eqn:E.
    + exists (tools.collapse (c :: s)). split; [reflexivity|].
      apply Spec.within_limit. now apply Nat.leb_le.
    + eexists. split; [reflexivity|].
      apply Spec.over_limit.
      * apply Nat.leb_gt. exact E.
      * apply rsplit1_head_cut.
Qed.

Lemma truncate_describable :
  forall v limit,
    Spec.describable v = true ->
    exists v',
      tools._truncate_description v limit = Returned v'
      /\ Spec.compacted limit v v'.
Proof.
  intros v limit H.
  destruct v as [ | b | z | s | l | d]; simpl in H.
  - exists VNone. split; reflexivity.
  - apply negb_true_iff in H. subst b. exists (VBool false). split; reflexivity.
  - exists (VInt z). unfold tools._truncate_description. simpl. rewrite H.
    split; reflexivity.
  - destruct (truncate_text s limit) as [t [Ht Hs]].
    exists (VStr t). split; [exact Ht|]. exists t. split; [reflexivity | exact Hs].
  - destruct l; [|discriminate]. exists (VList []). split; reflexivity.
  - destruct d; [|discriminate]. exists (VDict []). split; reflexivity.
Qed.


Lemma truncated_visible :
  forall limit s t c,
    Spec.truncated limit s t -> In c s -> is_space c = false -> t <> [].
Proof.
  intros limit s t c H Hin Hc. destruct H as [_|p _ _].
  - eapply collapse_visible; eassumption.
  - intro E. apply app_eq_nil in E. destruct E as [_ E]. discriminate E.
Qed.

(* --------------------------------------------------------------------- *)
(** ** Compaction of a tool definition *)
(* --------------------------------------------------------------------- *)

Lemma dict_set_fresh :
  forall k v d, ~ In k (map fst d) -> Py.dict_set k v d = d ++ [(k, v)].
Proof.
  induction d as [|[k' v'] d IH]; intro H.
  - reflexivity.
  - simpl. destruct (PyStr.eqb k k') eqn:E.
    + apply eqb_eq in E. exfalso. apply H. left. symmetry. exact E.
    + rewrite IH; [reflexivity|]. intro Hin. apply H. right. exact Hin.
Qed.

Lemma in_then_getitem :
  forall d k default,
    (has <- Py.contains_op k (VDict d);;
     if has : bool then Py.getitem (VDict d) k else Returned default)
    = Returned (Py.dict_get d k default).
Proof.
  intros d k default. unfold Py.contains_op, Py.getitem, Py.dict_mem, Py.dict_get.
  destruct (Py.dict_lookup k d); reflexivity.
Qed.

Lemma entry_with_default :
  forall ty d' dv,
    Py.dict_set (u "default") dv [(u "type", ty); (u "description", d')]
    = [(u "type", ty); (u "description", d'); (u "default", dv)].
Proof. reflexivity. Qed.

Lemma compact_properties_step :
  forall key property rest acc,
    tools.compact_properties ((key, VDict property) :: rest) acc
    = (d' <- tools._truncate_description
               (Py.dict_get property (u "description") (VStr [])) 80;;
       tools.compact_properties rest
         (Py.dict_set key (VDict (Spec.compact_property property d')) acc)).
Proof.
  intros key property rest acc. cbn [tools.compact_properties].
  rewrite !get_dict. cbn [bind].
  destruct (tools._truncate_description
              (Py.dict_get property (u "description") (VStr [])) 80) as [d'|e];
    [|reflexivity].
  cbn [bind]. unfold Py.contains_op, Py.getitem, Py.dict_mem, Spec.compact_property.
  destruct (Py.dict_lookup (u "default") property) as [dv|]; cbn [bind].
  - rewrite entry_with_default. reflexivity.
  - reflexivity.
Qed.

Lemma compact_properties_spec :
  forall props acc,
    NoDup (map fst props) ->
    (forall k, In k (map fst props) -> ~ In k (map fst acc)) ->
    Forall (fun p => Spec.describable
                       (Py.dict_get (snd p) (u "description") (VStr [])) = true)
           props ->
    exists props',
      tools.compact_properties (Spec.properties_dict props) acc
        = Returned (acc ++ props')
      /\ Forall2 (Spec.compacted_property 80) props props'.
Proof.
  induction props as [|[key property] rest IH]; intros acc Hnodup Hfresh Hdesc.
  - exists []. split; [|constructor]. simpl. rewrite app_nil_r. reflexivity.
  - inversion Hnodup as [|k l Hnotin Hnodup']; subst.
    inversion Hdesc as [|p l Hp Hdesc']; subst. cbn [snd] in Hp.
    destruct (truncate_describable _ 80 Hp) as [d' [Htr Hcomp]].
    cbn [Spec.properties_dict map fst snd].
    rewrite compact_properties_step, Htr. cbn [bind].
    rewrite dict_set_fresh by (apply Hfresh; left; reflexivity).
    destruct (IH (acc ++ [(key, VDict (Spec.compact_property property d'))])
                Hnodup') as [props' [Hrun Hall]].
    + intros k Hk Hin. rewrite map_app in Hin. apply in_app_or in Hin.
      destruct Hin as [Hin|Hin].
      * apply (Hfresh k); [right; exact Hk | exact Hin].
      * cbn in Hin. destruct Hin as [<-|[]]. cbn in Hnotin. contradiction.
    + exact Hdesc'.
    + exists ((key, VDict (Spec.compact_property property d')) :: props').
      split.
      * unfold Spec.properties_dict in Hrun. rewrite Hrun, <- app_assoc.
        reflexivity.
      * constructor; [|exact Hall]. split; [reflexivity|].
        exists d'. split; [exact Hcomp | reflexivity].
Qed.

Lemma properties_dict_nil :
  forall props, VDict [] = VDict (Spec.properties_dict props) -> props = [].
Proof.
  intros props H. destruct props as [|p props]; [reflexivity|].
  discriminate H.
Qed.

Lemma compact_tool_definition_spec :
  forall (tool func params : dict) (props : list (pystr * dict)),
    Py.dict_lookup (u "function") tool = Some (VDict func) ->
    Py.dict_get func (u "parameters") (VDict []) = VDict params ->
    Py.dict_get params (u "properties") (VDict []) = VDict (Spec.properties_dict props) ->
    NoDup (map fst props) ->
    Spec.describable (Py.dict_get func (u "description") (VStr [])) = true ->
    Forall (fun p => Spec.describable
                       (Py.dict_get (snd p) (u "description") (VStr [])) = true)
           props ->
    exists description' props',
      tools._compact_tool_definition (VDict tool)
      = Returned
          (VDict
             [(u "type", VStr (u "function"));
              (u "function",
               VDict
                 [(u "name", Py.dict_get func (u "name") (VStr []));
                  (u "description", description');
                  (u "parameters",
                   VDict
                     [(u "type", VStr (u "object"));
                      (u "properties", VDict props');
                      (u "required",
                       Py.dict_get params (u "required") (VList []))])])])
      /\ Spec.compacted 150 (Py.dict_get func (u "description") (VStr [])) description'
      /\ Forall2 (Spec.compacted_property 80) props props'.
Proof.
  intros tool func params props Hfunc Hparams Hprops Hnodup Hdesc Hpdesc.
  destruct (truncate_describable _ 150 Hdesc) as [description' [Htr Hcomp]].
  destruct (compact_properties_spec props [] Hnodup (fun _ _ H => H) Hpdesc)
    as [props' [Hrun Hall]].
  cbn [app] in Hrun.
  exists description'.
  assert (forall k : dict -> outcome value,
             (has_props <- Py.contains_op (u "properties") (VDict params);;
              properties <- (if has_props : bool
                             then p <- Py.getitem (VDict params) (u "properties");;
                                  its <- Py.items p;;
                                  tools.compact_properties its []
                             else Returned []);;
              k properties) = k props') as Hloop.
  { intro k. unfold Py.contains_op, Py.getitem, Py.dict_mem.
    unfold Py.dict_get in Hprops.
    destruct (Py.dict_lookup (u "properties") params) as [v|]; cbn [bind].
    - subst v. cbn [Py.items bind]. rewrite Hrun. reflexivity.
    - apply properties_dict_nil in Hprops. subst props.
      cbn in Hrun. injection Hrun as <-. reflexivity. }
  exists props'. split; [|split; [exact Hcomp | exact Hall]].
  - unfold tools._compact_tool_definition.
    unfold Py.contains_op at 1. unfold Py.dict_mem. rewrite Hfunc. cbn [bind].
    unfold Py.getitem at 1. rewrite Hfunc. cbn [bind].
    rewrite !get_dict. cbn [bind]. rewrite Htr. cbn [bind].
    rewrite Hparams. rewrite Hloop.
    pose proof (in_then_getitem params (u "required") (VList [])) as Hreq.
    unfold bind in Hreq. unfold bind.
    destruct (Py.contains_op (u "required") (VDict params)) as [has|e];
      [|discriminate Hreq].
    destruct has.
    + rewrite Hreq. reflexivity.
    + injection Hreq as <-. reflexivity.
Qed.



Lemma health_keys_distinct : NoDup (map fst Examples.health_properties).
Proof.
  repeat (apply NoDup_cons; [apply not_in_by_eqb; reflexivity|]).
  apply NoDup_nil.
Qed.

Lemma health_descriptions_are_text :
  Forall (fun p => Spec.describable
                     (Py.dict_get (snd p) (u "description") (VStr [])) = true)
         Examples.health_properties.
Proof. repeat constructor. Qed.

Example health_definition_formatted :
  tools.format_tool tool_health_advice.get_tool_definition
  = Returned (VDict Examples.health_nested).
Proof. reflexivity. Qed.



(* --------------------------------------------------------------------- *)
(** ** Length of the compacted descriptions *)
(* --------------------------------------------------------------------- *)

Lemma truncated_within :
  forall limit s t,
    Spec.truncated limit s t ->
    len (tools.collapse s) <= limit ->
    t = tools.collapse s /\ len t <= limit.
Proof.
  intros limit s t H Hle. destruct H as [_|p Hgt _].
  - split; [reflexivity | exact Hle].
  - lia.
Qed.

Lemma compacted_lookup :
  forall props props',
    Forall2 (Spec.compacted_property 80) props props' ->
    NoDup (map fst props) ->
    forall name property,
      In (name, property) props ->
      exists d',
        Py.dict_lookup name props' = Some (VDict (Spec.compact_property property d'))
        /\ Spec.compacted 80 (Py.dict_get property (u "description") (VStr [])) d'.
Proof.
  induction 1 as [|[k pv] [k' v'] props props' [Hk [d' [Hc Hv]]] Hall IH];
    intros Hnodup name property Hin.
  - destruct Hin.
  - cbn [fst snd] in Hk, Hc, Hv. subst k' v'.
    inversion Hnodup as [|k0 l Hnotin Hnodup']; subst.
    cbn [Py.dict_lookup].
    destruct Hin as [E|Hin].
    + injection E as <- <-. rewrite eqb_refl. exists d'. split; [reflexivity | exact Hc].
    + assert (PyStr.eqb name k = false) as Hne.
      { apply eqb_neq. intros ->. apply Hnotin.
        apply (in_map fst) in Hin. exact Hin. }
      rewrite Hne. apply IH; assumption.
Qed.

Lemma compact_property_description :
  forall property d',
    Py.dict_lookup (u "description") (Spec.compact_property property d') = Some d'.
Proof. reflexivity. Qed.

(** C4 (amended). In the compact variant of a nested definition, the tool
    description (limit 150) and each property description (limit 80) are,
    whenever the description with its whitespace collapsed fits the limit,
    that collapsed text, of length at most the limit; and a compacted
    description is not empty when the description has at least one
    character that is not whitespace. *)
Theorem compact_descriptions_within_limit :
  forall (tool func params : dict) (props : list (pystr * dict)),
    Py.dict_lookup (u "function") tool = Some (VDict func) ->
    Py.dict_get func (u "parameters") (VDict []) = VDict params ->
    Py.dict_get params (u "properties") (VDict []) = VDict (Spec.properties_dict props) ->
    NoDup (map fst props) ->
    Spec.describable (Py.dict_get func (u "description") (VStr [])) = true ->
    Forall (fun p => Spec.describable
                       (Py.dict_get (snd p) (u "description") (VStr [])) = true)
           props ->
    exists compact,
      tools._compact_tool_definition (VDict tool) = Returned compact
      /\ (forall s,
            Py.dict_get func (u "description") (VStr []) = VStr s ->
            exists t,
              Spec.description_of compact = Some t
              /\ (len (tools.collapse s) <= 150 ->
                  t = tools.collapse s /\ len t <= 150)
              /\ ((exists c, In c s /\ is_space c = false) -> t <> []))
      /\ (forall name property s,
            In (name, property) props ->
            Py.dict_get property (u "description") (VStr []) = VStr s ->
            exists property' t,
              Spec.property_of compact name = Some property'
              /\ Py.dict_lookup (u "description") property' = Some (VStr t)
              /\ (len (tools.collapse s) <= 80 ->
                  t = tools.collapse s /\ len t <= 80)
              /\ ((exists c, In c s /\ is_space c = false) -> t <> [])).
Proof.
  intros tool func params props Hfunc Hparams Hprops Hnodup Hdesc Hpdesc.
  destruct (compact_tool_definition_spec tool func params props
              Hfunc Hparams Hprops Hnodup Hdesc Hpdesc)
    as [description' [props' [Hrun [Hcomp Hall]]]].
  eexists. split; [exact Hrun|]. split.
  - intros s Hs. rewrite Hs in Hcomp. destruct Hcomp as [t [-> Ht]].
    exists t. split; [reflexivity|]. split.
    + now apply truncated_within.
    + intros [c [Hin Hc]]. eapply truncated_visible; eassumption.
  - intros name property s Hin Hs.
    destruct (compacted_lookup props props' Hall Hnodup name property Hin)
      as [d' [Hlook Hd']].
    rewrite Hs in Hd'. destruct Hd' as [t [-> Ht]].
    exists (Spec.compact_property property (VStr t)), t.
    split; [|split; [|split]].
    + cbn. rewrite Hlook. reflexivity.
    + apply compact_property_description.
    + now apply truncated_within.
    + intros [c [Hc1 Hc2]]. eapply truncated_visible; eassumption.
Qed.

Lemma compact_descriptions_within_limit_witness :
  exists compact,
    tools._compact_tool_definition (VDict Examples.health_nested) = Returned compact
    /\ exists property' t,
         Spec.property_of compact (u "age") = Some property'
         /\ Py.dict_lookup (u "description") property' = Some (VStr t)
         /\ t = u "Âge de la personne (optionnel, pour des conseils plus précis)"
         /\ len t <= 80.
Proof.
  destruct (compact_descriptions_within_limit Examples.health_nested
              Examples.health_function Examples.health_parameters
              Examples.health_properties eq_refl eq_refl eq_refl
              health_keys_distinct eq_refl health_descriptions_are_text)
    as [compact [Hrun [_ Hprops]]].
  exists compact. split; [exact Hrun|].
  destruct (Hprops (u "age")
              [(u "type", VStr (u "integer"));
               (u "description",
                VStr (u "Âge de la personne (optionnel, pour des conseils plus précis)"));
               (u "default", VInt 30)]
              (u "Âge de la personne (optionnel, pour des conseils plus précis)")
              (or_intror (or_introl eq_refl)) eq_refl)
    as [property' [t [Hp [Hd [Hfit _]]]]].
  exists property', t. split; [exact Hp|]. split; [exact Hd|].
  apply Hfit. apply Nat.leb_le. vm_compute. reflexivity.
Defined.

(** C4 (as stated) fails: a description of 151 letters comes out 153
    characters long (150 letters and the ellipsis), a property description
    of 81 letters 83 characters long, and a description made of one space
    comes out empty. *)
Lemma compact_description_exceeds_limit :
  (exists compact t t',
      tools._compact_tool_definition
        (Examples.nested_tool (repeat 97%N 151) (repeat 98%N 81)) = Returned compact
      /\ Spec.description_of compact = Some t
      /\ len t = 153
      /\ (exists p, Spec.property_of compact (u "p") = Some p
                    /\ Py.dict_lookup (u "description") p = Some (VStr t'))
      /\ len t' = 83)
  /\ (exists compact,
        tools._compact_tool_definition (Examples.nested_tool (u " ") (u "x"))
          = Returned compact
        /\ Spec.description_of compact = Some []).
Proof.
  split.
  - eexists. eexists. eexists.
    split; [vm_compute; reflexivity|].
    split; [vm_compute; reflexivity|].
    split; [reflexivity|].
    split; [eexists; split; vm_compute; reflexivity | reflexivity].
  - eexists. split; vm_compute; reflexivity.
Qed.

(* ===================================================================== *)
(** * Further properties of the embedded code *)
(* ===================================================================== *)

(* --------------------------------------------------------------------- *)
(** ** Truncation *)
(* --------------------------------------------------------------------- *)



(* --------------------------------------------------------------------- *)
(** ** Token, counts and dates of the Amadeus tools *)
(* --------------------------------------------------------------------- *)

Lemma token_outcome :
  forall (env : environ) (w : Net.world) (tr : list Net.request),
    exists token,
      Amadeus.get_amadeus_token env w tr
      = (Returned token, tr ++ [Amadeus.token_request env])
      /\ token
         = match w tr (Amadeus.token_request env) with
           | Raised _ => VNone
           | Returned response =>
               if (Net.status_code response =? 200)%Z then
                 match Net.json response with
                 | Returned (VDict d) => Py.dict_get d (u "access_token") VNone
                 | _ => VNone
                 end
               else VNone
           end.
Proof.
  intros env w tr.
  unfold Amadeus.get_amadeus_token, Net.try_except, Net.bind, Net.send,
    Net.ret, Net.lift.
  destruct (w tr (Amadeus.token_request env)) as [response|e].
  - destruct (Net.status_code response =? 200)%Z; cbn [negb].
    + destruct (Net.json response) as [body|e].
      * destruct body; cbn [Py.get];
          try (eexists; split; reflexivity).
        unfold Py.dict_get. destruct (Py.dict_lookup (u "access_token") d);
          eexists; split; reflexivity.
      * eexists. split; reflexivity.
    + eexists. split; reflexivity.
  - eexists. split; reflexivity.
Qed.

(** X2. Asking for a token sends exactly one request and never raises;
    the token is [None] when the request fails, when the status is not
    200 and when the body cannot be read as a mapping, and otherwise the
    [access_token] entry of the body ([None] when it has none). *)
Theorem amadeus_token_single_request :
  forall (env : environ) (w : Net.world) (tr : list Net.request),
    exists token,
      Amadeus.get_amadeus_token env w tr
      = (Returned token, tr ++ [Amadeus.token_request env])
      /\ token
         = match w tr (Amadeus.token_request env) with
           | Raised _ => VNone
           | Returned response =>
               if (Net.status_code response =? 200)%Z then
                 match Net.json response with
                 | Returned (VDict d) => Py.dict_get d (u "access_token") VNone
                 | _ => VNone
                 end
               else VNone
           end.
Proof. exact token_outcome. Qed.

Lemma clamp_range :
  forall lo hi v r,
    (1 <= lo <= hi)%Z ->
    Amadeus.clamp lo hi v = Returned r ->
    exists z, r = VInt z /\ (lo <= z <= hi)%Z
              /\ (forall a, v = VInt a -> (lo <= a <= hi)%Z -> z = a).
Proof.
  intros lo hi v r Hb H. unfold Amadeus.clamp in H.
  destruct (Amadeus.as_int v) as [a|] eqn:Ea; [|discriminate].
  injection H as <-.
  destruct (hi <? a)%Z eqn:E1.
  - apply Z.ltb_lt in E1.
    assert (forall a0, v = VInt a0 -> (lo <= a0 <= hi)%Z -> False) as Hout.
    { intros a0 -> Hr. simpl in Ea. injection Ea as <-. lia. }
    destruct (lo <? hi)%Z eqn:E2.
    + exists hi. split; [reflexivity|]. split; [lia|].
      intros a0 Hv Hr. destruct (Hout a0 Hv Hr).
    + apply Z.ltb_ge in E2. exists lo. split; [reflexivity|]. split; [lia|].
      intros a0 Hv Hr. destruct (Hout a0 Hv Hr).
  - apply Z.ltb_ge in E1. destruct (lo <? a)%Z eqn:E2.
    + apply Z.ltb_lt in E2.
      destruct v; simpl in Ea; try discriminate.
      * destruct b; injection Ea as <-; lia.
      * injection Ea as <-. exists z. split; [reflexivity|]. split; [lia|].
        intros a0 E _. congruence.
    + apply Z.ltb_ge in E2. exists lo. split; [reflexivity|]. split; [lia|].
      intros a0 -> Hr. simpl in Ea. injection Ea as <-. lia.
Qed.


Section AmadeusFurther.

Variable py : pylib.
Variable env : environ.
Variable flight_results :
  pystr -> pystr -> value -> value -> value -> value -> Net.response -> outcome value.
Variable hotel_results :
  value -> pystr -> value -> value -> value -> value -> value -> Net.io value.

(** X3. A flight search never raises, whatever its arguments and whatever
    the network does.  It sends no request, or the token request alone, or
    the token request followed by one offers request; in that request the
    number of adults lies between 1 and 9 and the number of results
    between 1 and 10. *)
Theorem search_flights_requests :
  forall (origin destination departure_date return_date adults travel_class
            max_results : value) (w : Net.world),
    exists r tr,
      Net.run (tool_flight_search.search_flights py env flight_results
                 origin destination departure_date return_date adults
                 travel_class max_results) w = (Returned r, tr)
      /\ (tr = []
          \/ tr = [Amadeus.token_request env]
          \/ exists token o d a m,
               tr = [Amadeus.token_request env;
                     tool_flight_search.offers_request py env token o d
                       departure_date return_date (VInt a) travel_class (VInt m)]
               /\ (1 <= a <= 9)%Z /\ (1 <= m <= 10)%Z).
Proof.
  intros origin destination departure_date return_date adults travel_class
    max_results w.
  unfold Net.run, tool_flight_search.search_flights, Net.try_except.
  destruct (negb (nonempty (Amadeus.AMADEUS_API_KEY env))
            || negb (nonempty (Amadeus.AMADEUS_API_SECRET env))).
  { eexists. eexists. split; [reflexivity | left; reflexivity]. }
  unfold Net.bind at 1. unfold Net.lift at 1.
  destruct (Amadeus.upper_strip py origin) as [o|e];
    [|eexists; eexists; split; [reflexivity | left; reflexivity]].
  unfold Net.bind at 1. unfold Net.lift at 1.
  destruct (Amadeus.upper_strip py destination) as [d|e];
    [|eexists; eexists; split; [reflexivity | left; reflexivity]].
  destruct (negb (len o =? 3)%nat || negb (len d =? 3)%nat).
  { eexists. eexists. split; [reflexivity | left; reflexivity]. }
  unfold Net.bind at 1. unfold Net.lift at 1.
  destruct (Amadeus.clamp 1 9 adults) as [a'|e] eqn:Ea;
    [|eexists; eexists; split; [reflexivity | left; reflexivity]].
  unfold Net.bind at 1. unfold Net.lift at 1.
  destruct (Amadeus.clamp 1 10 max_results) as [m'|e] eqn:Em;
    [|eexists; eexists; split; [reflexivity | left; reflexivity]].
  unfold Net.bind at 1. unfold Net.lift at 1.
  destruct (tool_flight_search.dates_valid py departure_date return_date)
    as [ok|e];
    [|eexists; eexists; split; [reflexivity | left; reflexivity]].
  destruct ok; cbn [negb];
    [|eexists; eexists; split; [reflexivity | left; reflexivity]].
  unfold Net.bind at 1.
  destruct (token_outcome env w []) as [token [Htok _]].
  rewrite Htok. cbn [app].
  destruct (negb (Py.truthy token)).
  { eexists. eexists. split; [reflexivity | right; left; reflexivity]. }
  destruct (clamp_range 1 9 adults a' ltac:(lia) Ea) as [a [-> [Ha _]]].
  destruct (clamp_range 1 10 max_results m' ltac:(lia) Em) as [m [-> [Hm _]]].
  unfold Net.bind, Net.send, Net.lift. cbn [app].
  destruct (w _ _) as [response|e].
  - destruct (flight_results o d departure_date return_date (VInt a)
                travel_class response);
      eexists; eexists; (split; [reflexivity|]);
      right; right; exists token, o, d, a, m; repeat split; lia.
  - eexists. eexists. split; [reflexivity|].
    right. right. exists token, o, d, a, m. repeat split; lia.
Qed.

Hypothesis key_set : nonempty (Amadeus.AMADEUS_API_KEY env) = true.
Hypothesis secret_set : nonempty (Amadeus.AMADEUS_API_SECRET env) = true.



End AmadeusFurther.



(** With a count given as text, the comparison [min(adults, 9)] raises
    before the dates are looked at: the badly formatted date gets the
    error of the [TypeError], still without any request. *)
Example flight_search_text_count :
  Net.run (tool_flight_search.search_flights Latin1.lib Examples.amadeus_env
             Examples.no_flight_results
             (VStr (u "OUA")) (VStr (u "CDG")) (VStr (u "15/12/2025")) (VStr [])
             (VStr (u "2")) (VStr (u "ECONOMY")) (VInt 5)) Latin1.offline
  = (Returned
       (tools.error_result
          (u "Erreur lors de la recherche de vols: '<' not supported between instances of 'int' and 'str'")),
     []).
Proof. reflexivity. Qed.

(* --------------------------------------------------------------------- *)
(** ** Symptoms that are not text *)
(* --------------------------------------------------------------------- *)

(** X6. When the symptoms are not a string, the health-advice tool sends
    no request and, instead of answering, raises the [AttributeError] of
    the local fallback, out of its own [try]; the one exception is a
    configured provider with empty symptoms ([None], 0, an empty list),
    which gets the error asking to describe the symptoms. *)
Theorem health_advice_needs_text :
  forall (py : pylib) (env : environ)
         (diagnosis_results :
            value -> value -> value -> Net.response -> outcome value)
         (symptoms age sex : value) (w : Net.world),
    (forall s, symptoms <> VStr s) ->
    Net.run (tool_health_advice.get_health_advice py env diagnosis_results
               symptoms age sex) w
    = if nonempty (tool_health_advice.INFERMEDICA_APP_ID env)
         && nonempty (tool_health_advice.INFERMEDICA_APP_KEY env)
         && negb (Py.truthy symptoms)
      then (Returned tool_health_advice.no_symptoms_error, [])
      else (Raised (Py.AttributeError symptoms (u "lower")), []).
Proof.
  intros py env dr symptoms age sex w Hnot.
  assert (tool_health_advice.get_generic_health_advice py symptoms
          = Raised (Py.AttributeError symptoms (u "lower"))) as Hgen.
  { destruct symptoms; try reflexivity. destruct (Hnot s eq_refl). }
  unfold Net.run, tool_health_advice.get_health_advice, Net.try_except.
  destruct (nonempty (tool_health_advice.INFERMEDICA_APP_ID env));
    destruct (nonempty (tool_health_advice.INFERMEDICA_APP_KEY env));
    cbn [negb orb andb];
    try (unfold Net.lift; rewrite Hgen; reflexivity).
  unfold Net.bind, Net.lift, tool_health_advice.no_symptoms.
  destruct (Py.truthy symptoms) eqn:Et; cbn [negb].
  - destruct symptoms; try (rewrite Hgen; reflexivity).
    destruct (Hnot s eq_refl).
  - reflexivity.
Qed.

Lemma health_advice_needs_text_witness :
  Net.run (tool_health_advice.get_health_advice Latin1.lib Examples.no_env
             Examples.no_diagnosis_results (VInt 38) (VInt 30) (VStr (u "male")))
          Latin1.offline
  = (Raised (Py.AttributeError (VInt 38) (u "lower")), []).
Proof.
  apply (health_advice_needs_text Latin1.lib Examples.no_env
           Examples.no_diagnosis_results (VInt 38) (VInt 30) (VStr (u "male"))
           Latin1.offline).
  intros s H. discriminate H.
Defined.

(* --------------------------------------------------------------------- *)
(** ** The log line of the email wrapper *)
(* --------------------------------------------------------------------- *)

Lemma email_aliases_first_truthy_parts :
  forall d : dict,
    tool_email.resolve_email (VDict d)
      = Returned (Spec.first_truthy Spec.email_aliases d (VStr []))
    /\ tool_email.resolve_message (VDict d)
      = Returned (Spec.first_truthy Spec.message_aliases d (VStr []))
    /\ tool_email.resolve_url (VDict d)
      = Returned (Spec.first_truthy Spec.url_aliases d (VStr [])).
Proof.
  intro d. split; [|split].
  - apply resolve_three.
  - apply resolve_three.
  - apply resolve_two.
Qed.

(** X7. The entry wrapper of the email tool raises a [TypeError], and
    never reaches [send_email], when the subject is [None], a number or a
    boolean, and also when the subject is text or a list and the message
    resolves to a number or to [True]: the log line slices the one and
    measures the other.  A subject that is a mapping is left out. *)
Theorem email_execute_needs_text :
  forall (send_email : value -> value -> value -> value -> outcome value)
         (d : dict),
    match Py.dict_get d (u "subject") (VStr []) with
    | VStr _ | VList _ =>
        match Spec.first_truthy Spec.message_aliases d (VStr []) with
        | VInt _ | VBool _ => True
        | _ => False
        end
    | VDict _ => False
    | _ => True
    end ->
    exists e,
      tool_email.execute send_email (VDict d) = Raised e
      /\ exn_class e = u "TypeError".
Proof.
  intros send_email d H.
  destruct (email_aliases_first_truthy_parts d) as [He [Hm Hu]].
  unfold tool_email.execute. rewrite He, Hm, Hu, get_dict. cbn [bind].
  destruct (Py.dict_get d (u "subject") (VStr [])); cbn [tool_email.slice_check bind];
    try (eexists; split; reflexivity);
    destruct (Spec.first_truthy Spec.message_aliases d (VStr []));
    cbn [tool_email.len_check bind];
    try (eexists; split; reflexivity); destruct H.
Qed.

Lemma email_execute_needs_text_witness :
  exists e,
    tool_email.execute (fun _ _ _ _ => Raised Examples.not_modelled)
      (VDict [(u "email", VStr (u "a@b.fr")); (u "subject", VInt 2025)])
    = Raised e
    /\ exn_class e = u "TypeError".
Proof.
  apply (email_execute_needs_text (fun _ _ _ _ => Raised Examples.not_modelled)
           [(u "email", VStr (u "a@b.fr")); (u "subject", VInt 2025)]).
  exact I.
Defined.

(* --------------------------------------------------------------------- *)
(** ** The places tool *)
(* --------------------------------------------------------------------- *)

(** X8. Without a maps key the places tool never reports a success: on
    every mapping whose [max_results] converts to an integer it returns,
    for a non-empty query, the result of status "no_results", and for an
    empty query the error asking for a kind of place.  A [max_results]
    that does not convert makes the tool raise, the conversion being made
    before its [try]. *)
Theorem places_without_key :
  forall (py : pylib) (env : environ)
         (azure_maps_search : value -> value -> Z -> list value) (d : dict),
    nonempty (tool_places.AZURE_MAPS_KEY env) = false ->
    match tool_places.int_ py (Py.dict_get d (u "max_results") (VInt 5)) with
    | Raised e =>
        tool_places.execute py env azure_maps_search (VDict d) = Raised e
    | Returned _ =>
        exists r,
          tool_places.execute py env azure_maps_search (VDict d) = Returned r
          /\ is_success r = false
          /\ (if Py.truthy (Py.dict_get d (u "query") (VStr []))
              then status_of r = Some (VStr (u "no_results"))
              else is_error r = true)
    end.
Proof.
  intros py env search d Hkey.
  unfold tool_places.execute. rewrite !get_dict. cbn [bind].
  destruct (tool_places.int_ py (Py.dict_get d (u "max_results") (VInt 5)))
    as [n|e]; cbn [bind]; [|reflexivity].
  destruct (Py.truthy (Py.dict_get d (u "query") (VStr []))); cbn [negb].
  - unfold tool_places.search_places_azure_maps. rewrite Hkey. cbn [negb].
    eexists. split; [reflexivity|]. split; reflexivity.
  - eexists. split; [reflexivity|]. split; reflexivity.
Qed.

Lemma places_without_key_witness :
  exists r,
    tool_places.execute Latin1.lib Examples.no_env (fun _ _ _ => [])
      (VDict [(u "query", VStr (u "pharmacie")); (u "max_results", VStr (u "3"))])
    = Returned r
    /\ status_of r = Some (VStr (u "no_results")).
Proof.
  pose proof (places_without_key Latin1.lib Examples.no_env (fun _ _ _ => [])
                [(u "query", VStr (u "pharmacie")); (u "max_results", VStr (u "3"))]
                eq_refl) as H.
  cbv beta iota in H.
  change (tool_places.int_ Latin1.lib
            (Py.dict_get
               [(u "query", VStr (u "pharmacie")); (u "max_results", VStr (u "3"))]
               (u "max_results") (VInt 5)))
    with (@Returned Z 3%Z) in H.
  destruct H as [r [Hr [_ Hs]]].
  exists r. split; [exact Hr | exact Hs].
Defined.

(** X9. The places tool never asks the maps service for more than ten
    results: two search functions that agree on every limit up to ten
    give the same answer on every argument. *)
Theorem places_limit_capped :
  forall (py : pylib) (env : environ)
         (f g : value -> value -> Z -> list value) (arguments : value),
    (forall query location n, (n <= 10)%Z -> f query location n = g query location n) ->
    tool_places.execute py env f arguments = tool_places.execute py env g arguments.
Proof.
  intros py env f g arguments Hfg. unfold tool_places.execute.
  destruct (Py.get arguments (u "query") (VStr [])) as [query|]; [|reflexivity].
  destruct (Py.get arguments (u "location") (VStr (u "Ouagadougou")))
    as [location|]; [|reflexivity].
  destruct (Py.get arguments (u "max_results") (VInt 5)) as [m|]; [|reflexivity].
  cbn [bind].
  destruct (tool_places.int_ py m) as [n|]; [|reflexivity]. cbn [bind].
  destruct (negb (Py.truthy query)); [reflexivity|].
  unfold tool_places.search_places_azure_maps.
  destruct (negb (nonempty (tool_places.AZURE_MAPS_KEY env))); [reflexivity|].
  rewrite Hfg; [reflexivity|].
  destruct (10 <? n)%Z eqn:E; [lia | apply Z.ltb_ge in E; lia].
Qed.

Lemma places_limit_capped_witness :
  tool_places.execute Latin1.lib MapsExamples.maps_env
    (fun _ _ n => if (n <=? 10)%Z then [VInt n] else [])
    (VDict [(u "query", VStr (u "hôtel")); (u "max_results", VInt 50)])
  = tool_places.execute Latin1.lib MapsExamples.maps_env
      (fun _ _ n => [VInt n])
      (VDict [(u "query", VStr (u "hôtel")); (u "max_results", VInt 50)]).
Proof.
  apply (places_limit_capped Latin1.lib MapsExamples.maps_env
           (fun _ _ n => if (n <=? 10)%Z then [VInt n] else [])
           (fun _ _ n => [VInt n])).
  intros query location n Hn.
  apply Z.leb_le in Hn. rewrite Hn. reflexivity.
Defined.

(* --------------------------------------------------------------------- *)
(** ** The Realtime API format *)
(* --------------------------------------------------------------------- *)

Lemma space_free_prefix :
  forall (w j p r : pystr),
    ~ In SPACE w ->
    w ++ SPACE :: j = p ++ SPACE :: r ->
    p = w \/ exists p', p = w ++ SPACE :: p' /\ j = p' ++ SPACE :: r.
Proof.
  induction w as [|a w IH]; intros j p r Hw E.
  - destruct p as [|c p'].
    + left. reflexivity.
    + right. cbn [app] in E. injection E as <- Ej. exists p'. split; [reflexivity | exact Ej].
  - destruct p as [|c p'].
    + cbn [app] in E. injection E as Ea _. exfalso. apply Hw. left. exact Ea.
    + cbn [app] in E. injection E as <- E.
      destruct (IH j p' r) as [-> | [p'' [-> Hj]]].
      * intro Hin. apply Hw. right. exact Hin.
      * exact E.
      * left. reflexivity.
      * right. exists p''. split; [reflexivity | exact Hj].
Qed.

Lemma word_has_no_space : forall w, Spec.is_word w -> ~ In SPACE w.
Proof.
  intros w [_ Hw] Hin. rewrite Forall_forall in Hw.
  apply Hw in Hin. discriminate Hin.
Qed.

(** The text before a space of a collapsed text is made of its first
    words. *)
Lemma join_before_space :
  forall ws p r,
    Forall Spec.is_word ws ->
    join [SPACE] ws = p ++ SPACE :: r ->
    exists ws1, Forall Spec.is_word ws1 /\ ws1 <> [] /\ p = join [SPACE] ws1.
Proof.
  induction ws as [|w ws IH]; intros p r Hws E.
  - destruct p; discriminate E.
  - inversion Hws as [|w' ws' Hw Hrest]; subst.
    destruct ws as [|w2 ws2].
    + exfalso. apply (word_has_no_space _ Hw). cbn [join] in E. rewrite E.
      apply in_or_app. right. left. reflexivity.
    + change (join [SPACE] (w :: w2 :: ws2))
        with (w ++ SPACE :: join [SPACE] (w2 :: ws2)) in E.
      destruct (space_free_prefix _ _ _ _ (word_has_no_space _ Hw) E)
        as [-> | [p' [-> Hj]]].
      * exists [w]. split; [constructor; [exact Hw | constructor]|].
        split; [discriminate | reflexivity].
      * destruct (IH p' r Hrest Hj) as [ws1 [H1 [Hne Hp]]].
        exists (w :: ws1). split; [constructor; assumption|].
        split; [discriminate|].
        destruct ws1 as [|x xs]; [contradiction|]. rewrite Hp. reflexivity.
Qed.

Lemma word_app :
  forall w x,
    Forall (fun c => is_space c = false) w -> Spec.is_word x -> Spec.is_word (w ++ x).
Proof.
  intros w x Hw [Hne Hx]. split.
  - intro E. apply app_eq_nil in E. destruct E as [_ E]. contradiction.
  - apply Forall_app. split; assumption.
Qed.

Lemma join_then_word :
  forall ws x,
    Forall Spec.is_word ws -> ws <> [] -> Spec.is_word x ->
    exists ws2, Forall Spec.is_word ws2 /\ join [SPACE] ws ++ x = join [SPACE] ws2.
Proof.
  induction ws as [|w ws IH]; intros x Hws Hne Hx.
  - contradiction.
  - inversion Hws as [|w' ws' Hw Hrest]; subst.
    destruct ws as [|w2 ws2].
    + exists [w ++ x]. split; [|reflexivity].
      constructor; [|constructor]. apply word_app; [apply Hw | exact Hx].
    + destruct (IH x Hrest ltac:(discriminate) Hx) as [ws3 [H3 E3]].
      exists (w :: ws3). split; [constructor; assumption|].
      change (join [SPACE] (w :: w2 :: ws2))
        with (w ++ SPACE :: join [SPACE] (w2 :: ws2)).
      rewrite <- app_assoc. cbn [app]. rewrite E3.
      destruct ws3 as [|y ys]; [|reflexivity].
      exfalso. cbn [join] in E3. apply app_eq_nil in E3.
      destruct E3 as [_ E3]. destruct Hx as [Hx _]. contradiction.
Qed.

Lemma ellipsis_word : Spec.is_word tools.ELLIPSIS.
Proof.
  split; [discriminate|]. repeat constructor.
Qed.

Lemma join_chars :
  forall ws,
    Forall Spec.is_word ws ->
    Forall (fun c => is_space c = false \/ c = SPACE) (join [SPACE] ws).
Proof.
  induction ws as [|w ws IH]; intro Hws.
  - constructor.
  - inversion Hws as [|w' ws' [_ Hw] Hrest]; subst.
    assert (Forall (fun c => is_space c = false \/ c = SPACE) w) as Hw'.
    { eapply Forall_impl; [|exact Hw]. intros c Hc. left. exact Hc. }
    destruct ws as [|w2 ws2]; [exact Hw'|].
    change (join [SPACE] (w :: w2 :: ws2))
      with (w ++ SPACE :: join [SPACE] (w2 :: ws2)).
    apply Forall_app. split; [exact Hw'|].
    constructor; [right; reflexivity | apply IH; exact Hrest].
Qed.

(** A cut description followed by the ellipsis has its whitespace
    collapsed already. *)
Lemma cut_collapsed :
  forall limit s p,
    Spec.cut_at limit (tools.collapse s) p ->
    tools.collapse (p ++ tools.ELLIPSIS) = p ++ tools.ELLIPSIS.
Proof.
  intros limit s p H.
  assert (exists ws, Forall Spec.is_word ws /\ p ++ tools.ELLIPSIS = join [SPACE] ws)
    as [ws [Hws E]].
  { pose proof (split_words s) as Hs.
    destruct H as [p q E Hq|Hno].
    - assert (tools.collapse s = p ++ SPACE :: (q ++ skipn limit (tools.collapse s)))
        as Et.
      { rewrite <- (firstn_skipn limit (tools.collapse s)) at 1.
        rewrite E, <- app_assoc. reflexivity. }
      destruct (join_before_space _ _ _ Hs Et) as [ws1 [H1 [Hne ->]]].
      apply join_then_word; [exact H1 | exact Hne | exact ellipsis_word].
    - exists [firstn limit (tools.collapse s) ++ tools.ELLIPSIS].
      split; [|reflexivity]. constructor; [|constructor].
      apply word_app; [|exact ellipsis_word].
      pose proof (join_chars _ Hs) as Hc. rewrite Forall_forall in Hc.
      apply Forall_forall. intros c Hin.
      destruct (Hc c) as [Hc' | Hc'].
      + change (In c (tools.collapse s)).
        rewrite <- (firstn_skipn limit (tools.collapse s)).
        apply in_or_app. left. exact Hin.
      + exact Hc'.
      + subst c. contradiction. }
  rewrite E. unfold tools.collapse. rewrite split_join by exact Hws. reflexivity.
Qed.

(** Truncating again a truncated description that fits the limit changes
    nothing. *)
Lemma truncate_stable :
  forall limit s t,
    Spec.truncated limit s t -> len t <= limit ->
    tools._truncate_description (VStr t) limit = Returned (VStr t).
Proof.
  intros limit s t H Hlen.
  assert (tools.collapse t = t) as Ec.
  { destruct H as [_|p _ Hc].
    - apply collapse_idempotent.
    - eapply cut_collapsed. exact Hc. }
  unfold tools._truncate_description.
  destruct t as [|c t']; [reflexivity|].
  cbn [Py.truthy negb]. rewrite Ec.
  apply Nat.leb_le in Hlen. rewrite Hlen. reflexivity.
Qed.

Lemma compacted_describable :
  forall limit v v', Spec.compacted limit v v' -> Spec.describable v = true ->
                     Spec.describable v' = true.
Proof.
  intros limit v v' H Hd. destruct v; simpl in H; try (subst v'; exact Hd).
  destruct H as [t [-> _]]. reflexivity.
Qed.

(** X10. The Realtime API definition of a nested tool definition is the
    compact definition flattened: the name, the parameters (type "object",
    compacted properties, required list) and the description of the compact
    form truncated to 150 characters a second time, which leaves it as it
    is whenever it has at most 150 characters. *)
Theorem realtime_definition_flattens_compact :
  forall (tool func params : dict) (props : list (pystr * dict)),
    Py.dict_lookup (u "function") tool = Some (VDict func) ->
    Py.dict_get func (u "parameters") (VDict []) = VDict params ->
    Py.dict_get params (u "properties") (VDict []) = VDict (Spec.properties_dict props) ->
    NoDup (map fst props) ->
    Spec.describable (Py.dict_get func (u "description") (VStr [])) = true ->
    Forall (fun p => Spec.describable
                       (Py.dict_get (snd p) (u "description") (VStr [])) = true)
           props ->
    exists description1 description2 props',
      (compact <- tools._compact_tool_definition (VDict tool);;
       realtime._convert_to_realtime_format compact)
      = Returned
          (VDict
             [(u "type", VStr (u "function"));
              (u "name", Py.dict_get func (u "name") (VStr []));
              (u "description", description2);
              (u "parameters",
               VDict
                 [(u "type", VStr (u "object"));
                  (u "properties", VDict props');
                  (u "required",
                   Py.dict_get params (u "required") (VList []))])])
      /\ Spec.compacted 150 (Py.dict_get func (u "description") (VStr [])) description1
      /\ Spec.compacted 150 description1 description2
      /\ (forall t, description1 = VStr t -> len t <= 150 ->
                    description2 = description1)
      /\ Forall2 (Spec.compacted_property 80) props props'.
Proof.
  intros tool func params props Hfunc Hparams Hprops Hnodup Hdesc Hpdesc.
  destruct (compact_tool_definition_spec tool func params props
              Hfunc Hparams Hprops Hnodup Hdesc Hpdesc)
    as [d1 [props' [Hrun [Hcomp Hall]]]].
  pose proof (compacted_describable _ _ _ Hcomp Hdesc) as Hd1.
  destruct (truncate_describable d1 150 Hd1) as [d2 [Htr Hcomp2]].
  exists d1, d2, props'. split; [|split; [exact Hcomp|split; [exact Hcomp2|split]]].
  - rewrite Hrun. cbn [bind]. unfold realtime._convert_to_realtime_format.
    cbn -[tools._truncate_description].
    rewrite Htr. reflexivity.
  - intros t -> Hlen.
    destruct (Py.dict_get func (u "description") (VStr [])) as [ | b | z | s | l | d] eqn:Ev;
      simpl in Hcomp; try discriminate Hcomp.
    destruct Hcomp as [t' [Et Htrunc]]. injection Et as <-.
    rewrite (truncate_stable _ _ _ Htrunc Hlen) in Htr. injection Htr as <-. reflexivity.
  - exact Hall.
Qed.

Lemma realtime_definition_flattens_compact_witness :
  exists description2 props',
    (compact <- tools._compact_tool_definition (VDict Examples.health_nested);;
     realtime._convert_to_realtime_format compact)
    = Returned
        (VDict
           [(u "type", VStr (u "function"));
            (u "name", VStr (u "get_health_advice"));
            (u "description", description2);
            (u "parameters",
             VDict
               [(u "type", VStr (u "object"));
                (u "properties", VDict props');
                (u "required", VList [VStr (u "symptoms")])])])
    /\ Forall2 (Spec.compacted_property 80) Examples.health_properties props'.
Proof.
  destruct (realtime_definition_flattens_compact Examples.health_nested
              Examples.health_function Examples.health_parameters
              Examples.health_properties eq_refl eq_refl eq_refl
              health_keys_distinct eq_refl health_descriptions_are_text)
    as [d1 [d2 [props' [Hrun [_ [_ [_ Hall]]]]]]].
  exists d2, props'. split; [exact Hrun | exact Hall].
Defined.

(** A description cut just below the limit is cut a second time by the
    conversion: 148 letters and a five-letter word give 151 characters in
    the compact form and 153, ending in five dots, in the Realtime form. *)
Example realtime_description_cut_twice :
  let description := repeat 97%N 148 ++ u " mmmmm" in
  (compact <- tools._compact_tool_definition
                (Examples.nested_tool description (u "p"));;
   Returned (Spec.description_of compact))
  = Returned (Some (repeat 97%N 148 ++ u "..."))
  /\ (compact <- tools._compact_tool_definition
                   (Examples.nested_tool description (u "p"));;
      realtime <- realtime._convert_to_realtime_format compact;;
      Py.getitem realtime (u "description"))
     = Returned (VStr (repeat 97%N 148 ++ u ".....")).
Proof. split; vm_compute; reflexivity. Qed.

Lemma truncate_returns_describable :
  forall v limit v',
    tools._truncate_description v limit = Returned v' -> Spec.describable v' = true.
Proof.
  intros v limit v' H. unfold tools._truncate_description in H.
  destruct (negb (Py.truthy v)) eqn:Et.
  - injection H as <-. destruct v; simpl in *; try exact Et; reflexivity.
  - destruct v; try discriminate H.
    destruct (len (tools.collapse s) <=? limit)%nat; injection H as <-; reflexivity.
Qed.

Lemma convert_after_compact :
  forall tool compact,
    tools._compact_tool_definition tool = Returned compact ->
    exists r, realtime._convert_to_realtime_format compact = Returned r.
Proof.
  intros tool compact H. unfold tools._compact_tool_definition in H.
  destruct (Py.contains_op (u "function") tool) as [[|]|e] eqn:Ec;
    cbn [bind] in H; [| |discriminate H].
  - destruct (Py.getitem tool (u "function")) as [func|e]; [|discriminate H].
    cbn [bind] in H.
    destruct (Py.get func (u "name") (VStr [])) as [name|e]; [|discriminate H].
    cbn [bind] in H.
    destruct (Py.get func (u "description") (VStr [])) as [d|e]; [|discriminate H].
    cbn [bind] in H.
    destruct (tools._truncate_description d 150) as [description|e] eqn:Et;
      [|discriminate H].
    cbn [bind] in H.
    destruct (Py.get func (u "parameters") (VDict [])) as [params|e];
      [|discriminate H].
    cbn [bind] in H.
    destruct (Py.contains_op (u "properties") params) as [has_props|e];
      [|discriminate H].
    cbn [bind] in H.
    match type of H with
    | bind ?c _ = _ => destruct c as [properties|e]; [|discriminate H]
    end.
    cbn [bind] in H.
    destruct (Py.contains_op (u "required") params) as [has_req|e];
      [|discriminate H].
    cbn [bind] in H.
    match type of H with
    | bind ?c _ = _ => destruct c as [required|e]; [|discriminate H]
    end.
    cbn [bind] in H. injection H as <-.
    apply truncate_returns_describable in Et.
    destruct (truncate_describable description 150 Et) as [d2 [Htr _]].
    eexists. unfold realtime._convert_to_realtime_format.
    cbn -[tools._truncate_description]. rewrite Htr. reflexivity.
  - injection H as <-. exists tool.
    unfold realtime._convert_to_realtime_format. rewrite Ec. reflexivity.
Qed.

Lemma for_each_length :
  forall f l l', tools.for_each f l = Returned l' -> List.length l' = List.length l.
Proof.
  induction l as [|x l IH]; intros l' H.
  - injection H as <-. reflexivity.
  - cbn [tools.for_each] in H. destruct (f x) as [y|e]; [|discriminate H].
    cbn [bind] in H. destruct (tools.for_each f l) as [ys|e]; [|discriminate H].
    injection H as <-. cbn [List.length]. f_equal. apply IH. reflexivity.
Qed.

Lemma convert_each_compact :
  forall l chat,
    tools.for_each tools._compact_tool_definition l = Returned chat ->
    exists rt,
      tools.for_each realtime._convert_to_realtime_format chat = Returned rt.
Proof.
  induction l as [|x l IH]; intros chat H.
  - injection H as <-. exists []. reflexivity.
  - cbn [tools.for_each] in H.
    destruct (tools._compact_tool_definition x) as [c|e] eqn:Ec; [|discriminate H].
    cbn [bind] in H.
    destruct (tools.for_each tools._compact_tool_definition l) as [cs|e];
      [|discriminate H].
    injection H as <-.
    destruct (convert_after_compact _ _ Ec) as [r Hr].
    destruct (IH cs eq_refl) as [rs Hrs].
    exists (r :: rs). cbn [tools.for_each]. rewrite Hr, Hrs. reflexivity.
Qed.

(** X11. Whenever the compact definitions can be built from the collected
    ones, so can the Realtime API definitions: the conversion raises on
    none of them, and there is one Realtime definition per collected
    definition. *)
Theorem realtime_definitions_total :
  forall (raw_tools chat_tools : list value),
    tools.get_tools_definition raw_tools true = Returned chat_tools ->
    exists realtime_tools,
      realtime.get_tools_definition_realtime raw_tools = Returned realtime_tools
      /\ List.length realtime_tools = List.length raw_tools.
Proof.
  intros raw chat H. unfold realtime.get_tools_definition_realtime.
  rewrite H. cbn [bind].
  unfold tools.get_tools_definition in H.
  destruct (tools.for_each tools.format_tool raw) as [formatted|e] eqn:Ef;
    [|discriminate H].
  cbn [bind] in H.
  destruct (convert_each_compact _ _ H) as [rt Hrt].
  exists rt. split; [exact Hrt|].
  rewrite (for_each_length _ _ _ Hrt), (for_each_length _ _ _ H).
  apply (for_each_length _ _ _ Ef).
Qed.

Lemma realtime_definitions_total_witness :
  exists realtime_tools,
    realtime.get_tools_definition_realtime [tool_health_advice.get_tool_definition]
    = Returned realtime_tools
    /\ List.length realtime_tools = 1.
Proof.
  eapply (realtime_definitions_total [tool_health_advice.get_tool_definition]).
  vm_compute. reflexivity.
Defined.

(* --------------------------------------------------------------------- *)
(** ** Bus schedules *)
(* --------------------------------------------------------------------- *)

Lemma ascii_clock_parses :
  forall h m,
    (0 <= h < 24)%Z -> (0 <= m < 60)%Z ->
    AsciiClock.parse_HM
      (tool_bus_schedule.strftime_HM (tool_bus_schedule.Time h m 0 0))
    = Returned (h, m).
Proof.
  assert (forallb
            (fun h =>
               forallb
                 (fun m =>
                    match AsciiClock.parse_HM
                            (tool_bus_schedule.strftime_HM
                               (tool_bus_schedule.Time (Z.of_nat h) (Z.of_nat m) 0 0))
                    with
                    | Returned (h', m') => ((h' =? Z.of_nat h) && (m' =? Z.of_nat m))%Z
                    | Raised _ => false
                    end)
                 (seq 0 60))
            (seq 0 24) = true) as Hall by (vm_compute; reflexivity).
  intros h m Hh Hm.
  rewrite forallb_forall in Hall.
  assert (In (Z.to_nat h) (seq 0 24)) as Hinh by (apply in_seq; lia).
  apply Hall in Hinh. rewrite forallb_forall in Hinh.
  assert (In (Z.to_nat m) (seq 0 60)) as Hinm by (apply in_seq; lia).
  apply Hinh in Hinm. rewrite !Z2Nat.id in Hinm by lia.
  destruct (AsciiClock.parse_HM _) as [[h' m']|e]; [|discriminate Hinm].
  apply andb_true_iff in Hinm. destruct Hinm as [E1 E2].
  apply Z.eqb_eq in E1, E2. subst. reflexivity.
Qed.

Section BusProperties.

Import tool_bus_schedule.

Variable py : pylib.
Variable strptime_HM : pystr -> outcome (Z * Z).
Variable interurban : value -> outcome (option value).

(** [strptime] reads back what [strftime] prints. *)
Hypothesis parses :
  forall h m,
    (0 <= h < 24)%Z -> (0 <= m < 60)%Z ->
    strptime_HM (strftime_HM (Time h m 0 0)) = Returned (h, m).

Lemma earlier_hour :
  forall h1 m1 s1 us1 h2 m2 s2 us2,
    (h1 < h2)%Z ->
    time_leb (Time h1 m1 s1 us1) (Time h2 m2 s2 us2) = true
    /\ time_ltb (Time h2 m2 s2 us2) (Time h1 m1 s1 us1) = false.
Proof.
  intros. unfold time_ltb, time_leb. cbn [hour minute second microsecond].
  assert ((h1 <? h2)%Z = true) as -> by (apply Z.ltb_lt; lia).
  split; reflexivity.
Qed.

Lemma time_leb_spec :
  forall a b,
    time_leb a b = true
    <-> (hour a < hour b
         \/ hour a = hour b
            /\ (minute a < minute b
                \/ minute a = minute b
                   /\ (second a < second b
                       \/ second a = second b /\ microsecond a <= microsecond b)))%Z.
Proof.
  intros a b. unfold time_leb.
  repeat (rewrite orb_true_iff || rewrite andb_true_iff).
  rewrite !Z.ltb_lt, !Z.eqb_eq, Z.leb_le.
  reflexivity.
Qed.

Lemma time_leb_antisym :
  forall a b, time_leb a b = true -> time_leb b a = true -> a = b.
Proof.
  intros a b H1 H2. apply time_leb_spec in H1, H2.
  destruct a as [h1 m1 s1 u1], b as [h2 m2 s2 u2].
  cbn [hour minute second microsecond] in H1, H2.
  assert (h1 = h2 /\ m1 = m2 /\ s1 = s2 /\ u1 = u2)%Z as [-> [-> [-> ->]]] by lia.
  reflexivity.
Qed.

Lemma replace_minute_cases :
  forall current m,
    (0 <= m < 2 ^ 31)%Z ->
    replace_minute current m
    = if (m <=? 59)%Z
      then Returned (Time (hour current) m (second current) (microsecond current))
      else Raised minute_error.
Proof.
  intros current m H. unfold replace_minute.
  assert ((m <? - 2 ^ 31)%Z = false) as -> by (apply Z.ltb_ge; lia).
  assert ((2 ^ 31 <=? m)%Z = false) as -> by (apply Z.leb_gt; lia).
  assert ((0 <=? m)%Z = true) as -> by (apply Z.leb_le; lia).
  reflexivity.
Qed.

(** Before the first departure: the minute of the first departure is
    advanced [n] times within its hour. *)
Lemma loop_before_raises :
  forall h1 h2 m2 f,
    (0 <= h1 < 24)%Z -> (h1 < h2)%Z -> (0 < f < 2 ^ 31 - 60)%Z ->
    forall n m departures,
      (0 <= m <= 59)%Z -> (59 < m + Z.of_nat n * f)%Z ->
      loop_before strptime_HM n (Time h1 m 0 0) (Time h2 m2 0 0) f departures
      = Raised minute_error.
Proof.
  intros h1 h2 m2 f Hh1 Hh Hf.
  induction n as [|n IH]; intros m departures Hm Hover.
  - rewrite Z.mul_0_l in Hover. lia.
  - cbn [loop_before]. unfold strptime_time.
    rewrite parses by lia. cbn [bind fst snd minute].
    rewrite replace_minute_cases by lia.
    destruct (Z.leb_spec (m + f) 59) as [Hle|Hgt]; [|reflexivity].
    cbn [bind hour second microsecond].
    destruct (earlier_hour h1 (m + f)%Z 0%Z 0%Z h2 m2 0%Z 0%Z Hh) as [_ ->].
    apply IH; [lia|]. rewrite Nat2Z.inj_succ, Z.mul_succ_l in Hover. lia.
Qed.

(** From the first departure on: [needed] departures are still to be
    found, and too few of them fit in the hour. *)
Lemma loop_from_raises :
  forall h1 h2 m2 f now count,
    (h1 < h2)%Z -> (0 < f < 2 ^ 31 - 60)%Z ->
    forall fuel m departures,
      (0 <= m <= 59)%Z ->
      (List.length departures < count)%nat ->
      (59 < m + (Z.of_nat count - Z.of_nat (List.length departures) - 1) * f)%Z ->
      (60 - m < Z.of_nat fuel)%Z ->
      loop_from fuel (Time h1 m 0 0) now (Time h2 m2 0 0) f count departures
      = Some (Raised minute_error).
Proof.
  intros h1 h2 m2 f now count Hh Hf.
  induction fuel as [|fuel IH]; intros m departures Hm Hlen Hover Hfuel.
  - lia.
  - cbn [loop_from].
    destruct (earlier_hour h1 m 0%Z 0%Z h2 m2 0%Z 0%Z Hh) as [-> _].
    cbn [minute].
    rewrite replace_minute_cases by lia. cbn [hour second microsecond].
    destruct (time_leb now (Time h1 m 0 0)) eqn:Edue; cbn [andb].
    + rewrite length_app. cbn [List.length].
      destruct (Nat.leb_spec count (List.length departures + 1)) as [Hc|Hc].
      * exfalso. assert (Z.of_nat count - Z.of_nat (List.length departures) - 1 = 0)%Z
          as E by lia. rewrite E in Hover. lia.
      * destruct (Z.leb_spec (m + f) 59) as [Hle|Hgt]; [|reflexivity].
        apply IH; rewrite ?length_app; cbn [List.length]; first [lia | nia].
    + destruct (Z.leb_spec (m + f) 59) as [Hle|Hgt]; [|reflexivity].
      apply IH; first [lia | nia].
Qed.

Lemma calculate_raises :
  forall fuel now first_dep last_dep h1 m1 h2 m2 f count,
    strptime_HM first_dep = Returned (h1, m1) ->
    strptime_HM last_dep = Returned (h2, m2) ->
    (0 <= h1 < 24)%Z -> (h1 < h2)%Z -> (0 <= m1 <= 59)%Z ->
    (0 < f < 2 ^ 31 - 60)%Z ->
    time_leb now (Time h2 m2 0 0) = true ->
    (59 < m1 + (Z.of_nat count - 1) * f)%Z
    \/ (now <> Time h1 m1 0 0 /\ (59 < m1 + Z.of_nat count * f)%Z) ->
    61 <= fuel ->
    calculate_next_departures strptime_HM fuel now first_dep last_dep f count
    = Some (Raised minute_error).
Proof.
  intros fuel now first_dep last_dep h1 m1 h2 m2 f count
         Hfirst Hlast Hh1 Hh Hm1 Hf Hnow Hover Hfuel.
  unfold calculate_next_departures, strptime_time.
  rewrite Hfirst, Hlast. cbn [bind fst snd].
  unfold time_ltb at 1. rewrite Hnow. cbn [negb].
  assert (59 < m1 + Z.of_nat count * f)%Z as Hall by (destruct Hover; nia).
  assert (1 <= count)%nat as Hcount by (destruct count; [cbn in Hall|]; lia).
  unfold time_ltb. destruct (time_leb (Time h1 m1 0 0) now) eqn:Efirst; cbn [negb].
  - destruct fuel as [|fuel]; [lia|].
    destruct Hover as [Hover|[Hne Hover]].
    + rewrite loop_from_raises; cbn [List.length];
        first [assumption | reflexivity | lia].
    + cbn [loop_from].
      destruct (earlier_hour h1 m1 0%Z 0%Z h2 m2 0%Z 0%Z Hh) as [-> _].
      destruct (time_leb now (Time h1 m1 0 0)) eqn:Edue.
      * exfalso. apply Hne. apply time_leb_antisym; assumption.
      * cbn [andb minute]. rewrite replace_minute_cases by lia.
        cbn [hour second microsecond].
        destruct (Z.leb_spec (m1 + f) 59) as [Hle|Hgt]; [|reflexivity].
        rewrite loop_from_raises; cbn [List.length];
          first [assumption | reflexivity | lia].
  - rewrite loop_before_raises; first [assumption | reflexivity].
Qed.

Lemma due_later :
  forall now h m m',
    (m <= m')%Z ->
    time_leb now (Time h m 0 0) = true -> time_leb now (Time h m' 0 0) = true.
Proof.
  intros now h m m' Hm H. apply time_leb_spec. apply time_leb_spec in H.
  cbn [hour minute second microsecond] in *. lia.
Qed.

(** Before the first departure: [n] departures are returned when the
    minute can be advanced [n] times within the hour. *)
Lemma loop_before_returns :
  forall h1 h2 m2 f,
    (0 <= h1 < 24)%Z -> (h1 < h2)%Z -> (0 < f < 2 ^ 31 - 60)%Z ->
    forall n m departures,
      (0 <= m)%Z -> (m + Z.of_nat n * f <= 59)%Z ->
      loop_before strptime_HM n (Time h1 m 0 0) (Time h2 m2 0 0) f departures
      = Returned (departures ++ BusSpec.departures_from h1 m f n).
Proof.
  intros h1 h2 m2 f Hh1 Hh Hf.
  induction n as [|n IH]; intros m departures Hm Hfit.
  - cbn [loop_before BusSpec.departures_from]. rewrite app_nil_r. reflexivity.
  - rewrite Nat2Z.inj_succ, Z.mul_succ_l in Hfit.
    assert (0 <= Z.of_nat n * f)%Z by nia.
    cbn [loop_before]. unfold strptime_time.
    rewrite parses by lia. cbn [bind fst snd minute].
    rewrite replace_minute_cases by lia.
    destruct (Z.leb_spec (m + f) 59) as [Hle|Hgt]; [|lia].
    cbn [bind hour second microsecond].
    destruct (earlier_hour h1 (m + f)%Z 0%Z 0%Z h2 m2 0%Z 0%Z Hh) as [_ ->].
    rewrite IH by lia. cbn [BusSpec.departures_from].
    rewrite <- app_assoc. reflexivity.
Qed.

(** From a departure that is due on, the [S n] departures still to be
    found are returned when they fit in the hour. *)
Lemma loop_from_due :
  forall h1 h2 m2 f now count,
    (h1 < h2)%Z -> (0 < f < 2 ^ 31 - 60)%Z ->
    forall n fuel m departures,
      (0 <= m)%Z ->
      time_leb now (Time h1 m 0 0) = true ->
      List.length departures + S n = count ->
      (m + Z.of_nat n * f <= 59)%Z ->
      n < fuel ->
      loop_from fuel (Time h1 m 0 0) now (Time h2 m2 0 0) f count departures
      = Some (Returned (departures ++ BusSpec.departures_from h1 m f (S n))).
Proof.
  intros h1 h2 m2 f now count Hh Hf.
  induction n as [|n IH]; intros fuel m departures Hm Hdue Hlen Hfit Hfuel;
    (destruct fuel as [|fuel]; [lia|]);
    cbn [loop_from];
    destruct (earlier_hour h1 m 0%Z 0%Z h2 m2 0%Z 0%Z Hh) as [-> _];
    rewrite Hdue; cbn [andb]; rewrite length_app; cbn [List.length].
  - assert ((count <=? List.length departures + 1) = true) as ->
      by (apply Nat.leb_le; lia).
    reflexivity.
  - assert ((count <=? List.length departures + 1) = false) as ->
      by (apply Nat.leb_gt; lia).
    rewrite Nat2Z.inj_succ, Z.mul_succ_l in Hfit.
    assert (0 <= Z.of_nat n * f)%Z by nia.
    cbn [minute]. rewrite replace_minute_cases by lia.
    destruct (Z.leb_spec (m + f) 59) as [Hle|Hgt]; [|lia].
    cbn [hour second microsecond].
    rewrite IH;
      [ | lia | apply (due_later now h1 m); [lia | exact Hdue]
        | rewrite length_app; cbn [List.length]; lia | lia | lia ].
    rewrite <- app_assoc. reflexivity.
Qed.

(** From the first departure on, with nothing found yet: the loop skips
    the departures that are before the current time, then returns [count]
    departures if they fit in the hour and raises otherwise. *)
Lemma loop_from_exact :
  forall h1 h2 m2 f now count,
    (h1 < h2)%Z -> (0 < f < 2 ^ 31 - 60)%Z -> 1 <= count ->
    forall fuel m,
      (0 <= m <= 59)%Z -> (60 - m < Z.of_nat fuel)%Z ->
      (exists k : nat,
          time_leb now (Time h1 (m + Z.of_nat k * f) 0 0) = true
          /\ (forall j : nat,
                 j < k -> time_leb now (Time h1 (m + Z.of_nat j * f) 0 0) = false)
          /\ (m + (Z.of_nat k + Z.of_nat count - 1) * f <= 59)%Z
          /\ loop_from fuel (Time h1 m 0 0) now (Time h2 m2 0 0) f count []
             = Some (Returned
                       (BusSpec.departures_from h1 (m + Z.of_nat k * f) f count)))
      \/ ((forall k : nat,
              time_leb now (Time h1 (m + Z.of_nat k * f) 0 0) = true ->
              (59 < m + (Z.of_nat k + Z.of_nat count - 1) * f)%Z)
          /\ loop_from fuel (Time h1 m 0 0) now (Time h2 m2 0 0) f count []
             = Some (Raised minute_error)).
Proof.
  intros h1 h2 m2 f now count Hh Hf Hcount.
  induction fuel as [|fuel IH]; intros m Hm Hfuel; [lia|].
  destruct (time_leb now (Time h1 m 0 0)) eqn:Edue.
  - destruct (Z.leb_spec (m + (Z.of_nat count - 1) * f) 59) as [Hfit|Hover].
    + left. exists 0. rewrite Z.mul_0_l, Z.add_0_r.
      split; [exact Edue|]. split; [intros j Hj; lia|].
      split; [rewrite Z.add_0_l; exact Hfit|].
      destruct count as [|n]; [lia|].
      replace (Z.of_nat (S n) - 1)%Z with (Z.of_nat n) in Hfit by lia.
      rewrite (loop_from_due h1 h2 m2 f now (S n) Hh Hf n (S fuel) m []);
        first [reflexivity | assumption | lia | nia].
    + right. split.
      * intros k _. nia.
      * apply loop_from_raises; cbn [List.length];
          first [assumption | lia].
  - cbn [loop_from].
    destruct (earlier_hour h1 m 0%Z 0%Z h2 m2 0%Z 0%Z Hh) as [-> _].
    rewrite Edue. cbn [andb minute].
    rewrite replace_minute_cases by lia. cbn [hour second microsecond].
    assert (forall k : nat,
               time_leb now (Time h1 (m + Z.of_nat k * f) 0 0) = true ->
               exists k', k = S k') as Hpos.
    { intros [|k'] Hk; [|exists k'; reflexivity].
      rewrite Z.mul_0_l, Z.add_0_r in Hk. congruence. }
    assert (forall k : nat,
               (m + Z.of_nat (S k) * f = m + f + Z.of_nat k * f)%Z) as Hshift
      by (intro k; lia).
    destruct (Z.leb_spec (m + f) 59) as [Hle|Hgt].
    + destruct (IH (m + f)%Z ltac:(lia) ltac:(lia))
        as [[k [Hk [Hbefore [Hfit Hrun]]]]|[Hnone Hrun]].
      * left. exists (S k). rewrite Hshift.
        split; [exact Hk|]. split; [|split; [lia | exact Hrun]].
        intros [|j] Hj.
        -- rewrite Z.mul_0_l, Z.add_0_r. exact Edue.
        -- rewrite Hshift. apply Hbefore. lia.
      * right. split; [|exact Hrun].
        intros k Hk. destruct (Hpos k Hk) as [k' ->].
        rewrite Hshift in Hk. apply Hnone in Hk. lia.
    + right. split; [|reflexivity].
      intros k Hk. destruct (Hpos k Hk) as [k' ->]. nia.
Qed.

(** X12. When the first and the last departure are in different hours,
    [calculate_next_departures] never gets past the hour of the first
    departure.  Before the first departure it returns the first [count]
    departures exactly when the minute of the first departure plus
    [count] times the frequency is at most 59, which is one step further
    than the departures returned.  From the first departure to the last
    it skips the departures before the current time and returns the
    [count] next ones exactly when they all lie in the hour of the first
    departure.  In every other case it raises
    ValueError("minute must be in 0..59"). *)
Theorem next_departures_stop_at_the_hour :
  forall fuel now first_dep last_dep h1 m1 h2 m2 frequency_min count,
    strptime_HM first_dep = Returned (h1, m1) ->
    strptime_HM last_dep = Returned (h2, m2) ->
    (0 <= h1 < 24)%Z -> (h1 < h2)%Z -> (0 <= m1 <= 59)%Z ->
    (0 < frequency_min < 2 ^ 31 - 60)%Z ->
    time_leb now (Time h2 m2 0 0) = true ->
    1 <= count ->
    61 <= fuel ->
    (time_ltb now (Time h1 m1 0 0) = true ->
     calculate_next_departures strptime_HM fuel now first_dep last_dep
                               frequency_min count
     = if (m1 + Z.of_nat count * frequency_min <=? 59)%Z
       then Some (Returned (BusSpec.departures_from h1 m1 frequency_min count))
       else Some (Raised minute_error))
    /\ (time_ltb now (Time h1 m1 0 0) = false ->
        (exists k : nat,
            time_leb now (Time h1 (m1 + Z.of_nat k * frequency_min) 0 0) = true
            /\ (forall j : nat,
                   j < k ->
                   time_leb now (Time h1 (m1 + Z.of_nat j * frequency_min) 0 0)
                   = false)
            /\ (m1 + (Z.of_nat k + Z.of_nat count - 1) * frequency_min <= 59)%Z
            /\ calculate_next_departures strptime_HM fuel now first_dep last_dep
                                         frequency_min count
               = Some (Returned
                         (BusSpec.departures_from h1
                            (m1 + Z.of_nat k * frequency_min) frequency_min
                            count)))
        \/ ((forall k : nat,
                time_leb now (Time h1 (m1 + Z.of_nat k * frequency_min) 0 0)
                = true ->
                (59 < m1 + (Z.of_nat k + Z.of_nat count - 1) * frequency_min)%Z)
            /\ calculate_next_departures strptime_HM fuel now first_dep last_dep
                                         frequency_min count
               = Some (Raised minute_error))).
Proof.
  intros fuel now first_dep last_dep h1 m1 h2 m2 f count
         Hfirst Hlast Hh1 Hh Hm1 Hf Hnow Hcount Hfuel.
  assert (time_ltb (Time h2 m2 0 0) now = false) as Hlate
    by (unfold time_ltb; rewrite Hnow; reflexivity).
  unfold calculate_next_departures, strptime_time.
  rewrite Hfirst, Hlast. cbn [bind fst snd]. rewrite Hlate.
  split; intros Hbefore; rewrite Hbefore.
  - destruct (Z.leb_spec (m1 + Z.of_nat count * f) 59) as [Hfit|Hover].
    + rewrite loop_before_returns; first [assumption | reflexivity | lia].
    + rewrite loop_before_raises; first [assumption | reflexivity].
  - destruct (loop_from_exact h1 h2 m2 f now count Hh Hf Hcount fuel m1
                ltac:(lia) ltac:(lia))
      as [[k [Hk [Hskip [Hfit Hrun]]]]|[Hnone Hrun]]; rewrite Hrun.
    + left. exists k. split; [exact Hk|]. split; [exact Hskip|].
      split; [exact Hfit|].
      destruct count as [|n]; [lia | reflexivity].
    + right. split; [exact Hnone | reflexivity].
Qed.

Lemma find_line_In :
  forall k lines info, find_line k lines = Some info -> In (k, info) lines.
Proof.
  induction lines as [|[k' i'] lines IH]; intros info H.
  - discriminate H.
  - cbn [find_line] in H. destruct (PyStr.eqb k k') eqn:E.
    + apply eqb_eq in E. injection H as <-. subst k'. left. reflexivity.
    + right. apply IH. exact H.
Qed.

(** What the five lines of the table have in common: two departures
    later than the first one never fit in the hour of the first
    departure, at either frequency, except on line 5 at its peak
    frequency, where exactly two do. *)
Lemma line_facts :
  forall key info,
    In (key, info) SOTRACO_LINES ->
    find_line key SOTRACO_LINES = Some info
    /\ PyStr.eqb key (u "all") = false
    /\ exists h1 m1 h2 m2,
         strptime_HM (first_departure info) = Returned (h1, m1)
         /\ strptime_HM (last_departure info) = Returned (h2, m2)
         /\ (0 <= h1 < 24)%Z /\ (h1 < h2)%Z /\ (0 <= m1 <= 59)%Z
         /\ (0 < frequency_peak info < 1000)%Z
         /\ (0 < frequency_offpeak info < 1000)%Z
         /\ (59 < m1 + 3 * frequency_peak info)%Z
         /\ (59 < m1 + 2 * frequency_offpeak info)%Z
         /\ ((59 < m1 + 2 * frequency_peak info)%Z
             \/ (key = u "5" /\ h1 = 6 /\ m1 = 0)%Z).
Proof.
  intros key info Hin.
  repeat (destruct Hin as [Hin|Hin];
          [injection Hin as <- <-;
           split; [reflexivity|]; split; [reflexivity|] | ]);
    [ exists 5%Z, 30%Z, 22%Z, 0%Z
    | exists 5%Z, 45%Z, 21%Z, 30%Z
    | exists 6%Z, 0%Z, 20%Z, 0%Z
    | exists 5%Z, 30%Z, 21%Z, 0%Z
    | exists 6%Z, 0%Z, 21%Z, 30%Z
    | destruct Hin ];
    do 2 (match goal with
          | |- strptime_HM _ = Returned (?h, ?m) /\ _ =>
              split; [exact (parses h m ltac:(lia) ltac:(lia))|]
          end);
    cbn [frequency_peak frequency_offpeak];
    repeat (split; [lia|]);
    first [left; lia | right; repeat split; reflexivity].
Qed.

Lemma two_to_31 : (2 ^ 31 = 2147483648)%Z.
Proof. reflexivity. Qed.

Lemma bus_execute_line :
  forall key info (arguments : dict) fuel now_category now_departures,
    In (key, info) SOTRACO_LINES ->
    Py.dict_lookup (u "line_number") arguments = Some (VStr key) ->
    (let transport_type := Py.dict_get arguments (u "type") (VStr (u "urban")) in
     Py.is_str (u "urban") transport_type || Py.is_str (u "all") transport_type
     = true) ->
    execute py strptime_HM interurban fuel now_category now_departures
            (VDict arguments)
    = let frequency :=
        if PyStr.eqb (get_current_time_category now_category) (u "peak")
        then frequency_peak info else frequency_offpeak info in
      match calculate_next_departures strptime_HM fuel now_departures
              (first_departure info) (last_departure info) frequency 3 with
      | None => None
      | Some r =>
          Some (try_except
                  (next_buses <- r;;
                   Returned (urban_line_result info frequency next_buses))
                  (fun e => Returned (failure e)))
      end.
Proof.
  intros key info arguments fuel now1 now2 Hin Hline Htype.
  destruct (line_facts key info Hin) as [Hfind [Hall _]].
  unfold execute. rewrite !get_dict.
  cbv zeta in Htype. rewrite Htype.
  unfold Py.dict_get at 1. rewrite Hline.
  unfold Py.dict_get at 1. rewrite Hline.
  cbn [Py.is_str]. rewrite Hall.
  cbn [lookup_line]. rewrite Hfind. cbv zeta.
  destruct (calculate_next_departures _ _ _ _ _ _ _); reflexivity.
Qed.

(** X13. For each of the five urban lines, at any time up to its last
    departure, asking [execute] for the line gives the error result built
    from ValueError("minute must be in 0..59") instead of the next buses;
    the one exception is line 5 asked at 06:00:00.000000 sharp at its peak
    frequency. *)
Theorem urban_line_fails_until_last_departure :
  forall key info (arguments : dict) now_category now_departures h2 m2 fuel,
    In (key, info) SOTRACO_LINES ->
    Py.dict_lookup (u "line_number") arguments = Some (VStr key) ->
    (let transport_type := Py.dict_get arguments (u "type") (VStr (u "urban")) in
     Py.is_str (u "urban") transport_type || Py.is_str (u "all") transport_type
     = true) ->
    strptime_HM (last_departure info) = Returned (h2, m2) ->
    time_leb now_departures (Time h2 m2 0 0) = true ->
    (key = u "5" ->
     get_current_time_category now_category = u "peak" ->
     now_departures <> Time 6 0 0 0) ->
    61 <= fuel ->
    execute py strptime_HM interurban fuel now_category now_departures
            (VDict arguments)
    = Some (Returned (failure minute_error)).
Proof.
  intros key info arguments now1 now2 h2 m2 fuel Hin Hline Htype Hlast Hnow
         Hexcept Hfuel.
  rewrite (bus_execute_line key info arguments fuel now1 now2 Hin Hline Htype).
  destruct (line_facts key info Hin)
    as (_ & _ & h1 & m1 & h2' & m2' & Hf & Hl & Hh1 & Hh & Hm1 & Hp & Ho & Hp3 & Ho2 & Hp2).
  rewrite Hlast in Hl. injection Hl as <- <-.
  cbv zeta.
  destruct (PyStr.eqb (get_current_time_category now1) (u "peak")) eqn:Ecat.
  - rewrite (calculate_raises fuel now2 _ _ h1 m1 h2 m2 _ 3 Hf Hlast Hh1 Hh Hm1);
      [reflexivity | rewrite two_to_31; lia | exact Hnow | | exact Hfuel].
    destruct Hp2 as [Hp2 | (Hkey & -> & ->)].
    + left. cbn [Z.of_nat Pos.of_succ_nat Pos.succ]. lia.
    + right. split.
      * apply Hexcept; [exact Hkey | apply eqb_eq; exact Ecat].
      * cbn [Z.of_nat Pos.of_succ_nat Pos.succ]. lia.
  - rewrite (calculate_raises fuel now2 _ _ h1 m1 h2 m2 _ 3 Hf Hlast Hh1 Hh Hm1);
      [reflexivity | rewrite two_to_31; lia | exact Hnow | | exact Hfuel].
    left. cbn [Z.of_nat Pos.of_succ_nat Pos.succ]. lia.
Qed.

(** X14. After the last departure of an urban line, [execute] answers
    with the line, its frequency at the current time category and, as
    the only next departure, the first departure followed by " (demain)",
    at every time and whatever the fuel. *)
Theorem urban_line_after_last_departure :
  forall key info (arguments : dict) now_category now_departures h2 m2 fuel,
    In (key, info) SOTRACO_LINES ->
    Py.dict_lookup (u "line_number") arguments = Some (VStr key) ->
    (let transport_type := Py.dict_get arguments (u "type") (VStr (u "urban")) in
     Py.is_str (u "urban") transport_type || Py.is_str (u "all") transport_type
     = true) ->
    strptime_HM (last_departure info) = Returned (h2, m2) ->
    time_ltb (Time h2 m2 0 0) now_departures = true ->
    execute py strptime_HM interurban fuel now_category now_departures
            (VDict arguments)
    = Some (Returned
              (urban_line_result info
                 (if PyStr.eqb (get_current_time_category now_category) (u "peak")
                  then frequency_peak info else frequency_offpeak info)
                 [first_departure info ++ TOMORROW])).
Proof.
  intros key info arguments now1 now2 h2 m2 fuel Hin Hline Htype Hlast Hnow.
  rewrite (bus_execute_line key info arguments fuel now1 now2 Hin Hline Htype).
  destruct (line_facts key info Hin)
    as (_ & _ & h1 & m1 & h2' & m2' & Hf & Hl & _).
  cbv zeta. unfold calculate_next_departures, strptime_time.
  rewrite Hf, Hlast. cbn [bind fst snd]. rewrite Hnow. reflexivity.
Qed.

Lemma replace_minute_returned :
  forall current m c,
    replace_minute current m = Returned c -> minute c = m /\ (0 <= m <= 59)%Z.
Proof.
  intros current m c H. unfold replace_minute in H.
  destruct (m <? - 2 ^ 31)%Z; [discriminate H|].
  destruct (2 ^ 31 <=? m)%Z; [discriminate H|].
  destruct ((0 <=? m) && (m <=? 59))%Z eqn:E; [|discriminate H].
  injection H as <-. apply andb_true_iff in E. destruct E as [E1 E2].
  apply Z.leb_le in E1, E2. split; [reflexivity | lia].
Qed.

(** With a positive frequency the [while] loop ends within sixty
    iterations. *)
Lemma loop_from_total :
  forall now last_time f count,
    (0 < f)%Z ->
    forall fuel current departures,
      1 <= fuel ->
      (60 - minute current < Z.of_nat fuel)%Z ->
      exists r,
        loop_from fuel current now last_time f count departures = Some r.
Proof.
  intros now last_time f count Hf.
  induction fuel as [|fuel IH]; intros current departures Hone Hfuel; [lia|].
  cbn [loop_from].
  destruct (time_leb current last_time); [|eexists; reflexivity].
  match goal with
  | |- exists r, (if ?c then _ else _) = _ =>
      destruct c; [eexists; reflexivity|]
  end.
  destruct (replace_minute current (minute current + f)) as [c|e] eqn:Er;
    [|eexists; reflexivity].
  apply replace_minute_returned in Er. destruct Er as [Em Hm].
  apply IH; lia.
Qed.

Lemma calculate_total :
  forall fuel now first_dep last_dep h1 m1 f count,
    strptime_HM first_dep = Returned (h1, m1) ->
    (0 <= m1)%Z -> (0 < f)%Z -> 61 <= fuel ->
    exists r,
      calculate_next_departures strptime_HM fuel now first_dep last_dep f count
      = Some r.
Proof.
  intros fuel now first_dep last_dep h1 m1 f count Hfirst Hm1 Hf Hfuel.
  unfold calculate_next_departures, strptime_time. rewrite Hfirst.
  cbn [bind fst snd].
  destruct (strptime_HM last_dep) as [[h2 m2]|e]; cbn [bind fst snd];
    [|eexists; reflexivity].
  destruct (time_ltb _ now); [eexists; reflexivity|].
  destruct (time_ltb now _); [eexists; reflexivity|].
  destruct (loop_from_total now (Time h2 m2 0 0) f count Hf fuel
              (Time h1 m1 0 0) []) as [r ->].
  - lia.
  - cbn [minute]. lia.
  - eexists. reflexivity.
Qed.

(** X15. On every argument mapping [execute] returns a result: no
    exception leaves it, and the search for the next departures of a line
    of the table ends within 61 iterations at any time of the day. *)
Theorem bus_execute_returns :
  forall (arguments : dict) now_category now_departures fuel,
    61 <= fuel ->
    exists result,
      execute py strptime_HM interurban fuel now_category now_departures
              (VDict arguments)
      = Some (Returned result).
Proof.
  intros arguments now1 now2 fuel Hfuel.
  assert (forall r : outcome value,
             exists result,
               Some (try_except r (fun e => Returned (failure e)))
               = Some (Returned result)) as Hcatch.
  { intros [v|e]; eexists; reflexivity. }
  unfold execute. rewrite !get_dict.
  destruct (Py.is_str (u "urban") _ || Py.is_str (u "all") _); [|apply Hcatch].
  destruct (Py.is_str (u "all") _); [apply Hcatch|].
  destruct (lookup_line _) as [[info|]|e] eqn:El; try apply Hcatch.
  assert (exists key, In (key, info) SOTRACO_LINES) as [key Hin].
  { unfold lookup_line in El.
    destruct (Py.dict_get arguments (u "line_number") (VStr (u "all")));
      try discriminate El.
    injection El as El. eexists. eapply find_line_In. exact El. }
  destruct (line_facts key info Hin)
    as (_ & _ & h1 & m1 & h2 & m2 & Hf & Hl & Hh1 & Hh & Hm1 & Hp & Ho & _).
  match goal with
  | |- context [calculate_next_departures ?s ?fu ?n ?a ?b ?f ?c] =>
      destruct (calculate_total fu n a b h1 m1 f c Hf) as [r ->];
        [lia | destruct (PyStr.eqb _ _); lia | exact Hfuel | apply Hcatch]
  end.
Qed.

End BusProperties.

Lemma next_departures_stop_at_the_hour_witness :
  tool_bus_schedule.calculate_next_departures
    AsciiClock.parse_HM 61 (tool_bus_schedule.Time 6 50 30 0)
    (u "06:00") (u "20:00") 5 3
  = Some (Raised tool_bus_schedule.minute_error).
Proof.
  destruct (next_departures_stop_at_the_hour AsciiClock.parse_HM
              ascii_clock_parses
              61 (tool_bus_schedule.Time 6 50 30 0) (u "06:00") (u "20:00")
              6%Z 0%Z 20%Z 0%Z 5%Z 3 eq_refl eq_refl
              ltac:(lia) ltac:(lia) ltac:(lia) ltac:(rewrite two_to_31; lia)
              eq_refl ltac:(lia) (Nat.le_refl 61))
    as [_ H].
  destruct (H eq_refl) as [[k [Hk [_ [Hfit _]]]]|[_ Hrun]]; [|exact Hrun].
  exfalso. apply time_leb_spec in Hk.
  cbn [tool_bus_schedule.hour tool_bus_schedule.minute tool_bus_schedule.second
       tool_bus_schedule.microsecond] in Hk.
  change (Z.of_nat 3) with 3%Z in Hfit. lia.
Defined.

(** At 06:20 the three next departures of a line starting at 06:00 every
    five minutes fit in the hour and are returned. *)
Example next_departures_within_the_hour :
  tool_bus_schedule.calculate_next_departures
    AsciiClock.parse_HM 61 (tool_bus_schedule.Time 6 20 0 0)
    (u "06:00") (u "20:00") 5 3
  = Some (Returned [u "06:20"; u "06:25"; u "06:30"]).
Proof. vm_compute. reflexivity. Qed.

(** Before the first departure the minute is advanced once more after the
    last departure wanted: 06:00, 06:20 and 06:40 are in the hour, and the
    call still raises. *)
Example next_departures_one_step_further :
  tool_bus_schedule.calculate_next_departures
    AsciiClock.parse_HM 61 (tool_bus_schedule.Time 5 0 0 0)
    (u "06:00") (u "20:00") 20 3
  = Some (Raised tool_bus_schedule.minute_error).
Proof. vm_compute. reflexivity. Qed.

Lemma urban_line_fails_until_last_departure_witness :
  tool_bus_schedule.execute
    Latin1.lib AsciiClock.parse_HM BusExamples.no_interurban 61
    (tool_bus_schedule.Time 12 0 0 0) (tool_bus_schedule.Time 12 0 0 1)
    (VDict [(u "line_number", VStr (u "3"))])
  = Some (Returned (tool_bus_schedule.failure tool_bus_schedule.minute_error)).
Proof.
  apply (urban_line_fails_until_last_departure
           Latin1.lib AsciiClock.parse_HM BusExamples.no_interurban
           ascii_clock_parses (u "3")
           BusExamples.line_3
           [(u "line_number", VStr (u "3"))]
           (tool_bus_schedule.Time 12 0 0 0) (tool_bus_schedule.Time 12 0 0 1)
           20%Z 0%Z 61).
  - right. right. left. reflexivity.
  - reflexivity.
  - reflexivity.
  - reflexivity.
  - reflexivity.
  - intro H. discriminate H.
  - apply Nat.le_refl.
Defined.

Lemma urban_line_after_last_departure_witness :
  tool_bus_schedule.execute
    Latin1.lib AsciiClock.parse_HM BusExamples.no_interurban 0
    (tool_bus_schedule.Time 23 15 0 0) (tool_bus_schedule.Time 23 15 0 1)
    (VDict [(u "line_number", VStr (u "3")); (u "type", VStr (u "all"))])
  = Some (Returned
            (tool_bus_schedule.urban_line_result
               BusExamples.line_3
               60 [u "06:00 (demain)"])).
Proof.
  apply (urban_line_after_last_departure
           Latin1.lib AsciiClock.parse_HM BusExamples.no_interurban
           ascii_clock_parses (u "3") BusExamples.line_3
           [(u "line_number", VStr (u "3")); (u "type", VStr (u "all"))]
           (tool_bus_schedule.Time 23 15 0 0) (tool_bus_schedule.Time 23 15 0 1)
           20%Z 0%Z 0).
  - right. right. left. reflexivity.
  - reflexivity.
  - reflexivity.
  - reflexivity.
  - reflexivity.
Defined.

Lemma bus_execute_returns_witness :
  exists result,
    tool_bus_schedule.execute
      Latin1.lib AsciiClock.parse_HM BusExamples.no_interurban 61
      (tool_bus_schedule.Time 8 0 0 0) (tool_bus_schedule.Time 8 0 0 1)
      (VDict [(u "line_number", VStr (u "1"))])
    = Some (Returned result).
Proof.
  apply (bus_execute_returns Latin1.lib AsciiClock.parse_HM
           BusExamples.no_interurban ascii_clock_parses
           [(u "line_number", VStr (u "1"))]
           (tool_bus_schedule.Time 8 0 0 0) (tool_bus_schedule.Time 8 0 0 1) 61).
  apply Nat.le_refl.
Defined.

(** The one time at which the next buses of a line come out before its
    last departure: line 5 at 06:00:00.000000, at the peak frequency. *)
Example line_5_at_six_sharp :
  tool_bus_schedule.calculate_next_departures
    AsciiClock.parse_HM 61 (tool_bus_schedule.Time 6 0 0 0)
    (u "06:00") (u "21:30") 20 3
  = Some (Returned [u "06:00"; u "06:20"; u "06:40"])
  /\ tool_bus_schedule.calculate_next_departures
       AsciiClock.parse_HM 61 (tool_bus_schedule.Time 6 0 0 1)
       (u "06:00") (u "21:30") 20 3
     = Some (Raised tool_bus_schedule.minute_error).
Proof. split; vm_compute; reflexivity. Qed.

(* --------------------------------------------------------------------- *)
(** ** Booking tools *)
(* --------------------------------------------------------------------- *)

Lemma first_missing_dict :
  forall fields d,
    Booking.first_missing fields (VDict d)
    = Returned (BookingSpec.first_falsy fields d).
Proof.
  induction fields as [|f fields IH]; intro d.
  - reflexivity.
  - cbn [Booking.first_missing BookingSpec.first_falsy].
    rewrite get_dict. cbn [bind].
    destruct (Py.truthy (Py.dict_get d f VNone)); cbn [negb];
      [apply IH | reflexivity].
Qed.

Section BookingProperties.

Variable py : pylib.
Variable env : environ.

Lemma flight_ready_status :
  forall flight_offer_id passenger r,
    tool_flight_booking.ready_to_book py flight_offer_id passenger = Returned r ->
    status_of r = Some (VStr (u "ready_to_book")).
Proof.
  intros fid passenger r H. unfold tool_flight_booking.ready_to_book in H.
  destruct fid; try discriminate H.
  repeat match type of H with
         | bind ?c _ = _ => destruct c; cbn [bind] in H; [|discriminate H]
         end.
  injection H as <-. reflexivity.
Qed.

Lemma hotel_ready_status :
  forall hotel_offer_id guest payment r,
    tool_hotel_booking.ready_to_book py hotel_offer_id guest payment = Returned r ->
    status_of r = Some (VStr (u "ready_to_book")).
Proof.
  intros hid guest payment r H. unfold tool_hotel_booking.ready_to_book in H.
  destruct hid; try discriminate H.
  repeat match type of H with
         | bind ?c _ = _ => destruct c; cbn [bind] in H; [|discriminate H]
         end.
  injection H as <-. reflexivity.
Qed.

Ltac booking_done :=
  eexists; eexists; split; [reflexivity|]; split;
  [first [left; reflexivity | right; reflexivity]
  | first [left; reflexivity | right; eassumption]].

(** X16. The two booking tools never book and never raise: whatever
    their arguments and whatever the network does, [book_flight] and
    [book_hotel] send no request or the token request alone, and return a
    result whose status is "error" or "ready_to_book". *)
Theorem booking_tools_never_book :
  forall (offer_id traveller payment : value) (w : Net.world),
    (exists r tr,
        Net.run (tool_flight_booking.book_flight py env offer_id traveller) w
        = (Returned r, tr)
        /\ (tr = [] \/ tr = [Amadeus.token_request env])
        /\ (is_error r = true
            \/ status_of r = Some (VStr (u "ready_to_book"))))
    /\ (exists r tr,
           Net.run (tool_hotel_booking.book_hotel py env offer_id traveller payment) w
           = (Returned r, tr)
           /\ (tr = [] \/ tr = [Amadeus.token_request env])
           /\ (is_error r = true
               \/ status_of r = Some (VStr (u "ready_to_book")))).
Proof.
  intros offer_id traveller payment w. split.
  - unfold Net.run, tool_flight_booking.book_flight, Net.try_except.
    destruct (negb (nonempty (Amadeus.AMADEUS_API_KEY env))
              || negb (nonempty (Amadeus.AMADEUS_API_SECRET env)));
      [booking_done|].
    destruct (negb (Py.truthy offer_id)); [booking_done|].
    unfold Net.bind at 1. unfold Net.lift at 1.
    destruct (Booking.first_missing _ traveller) as [[field|]|e];
      [booking_done | | booking_done].
    unfold Net.bind.
    destruct (token_outcome env w []) as [token [-> _]]. cbn [app].
    destruct (negb (Py.truthy token)); [booking_done|].
    unfold Net.lift.
    destruct (tool_flight_booking.ready_to_book py offer_id traveller) as [r|e] eqn:Er;
      [|booking_done].
    apply flight_ready_status in Er. booking_done.
  - unfold Net.run, tool_hotel_booking.book_hotel, Net.try_except.
    destruct (negb (nonempty (Amadeus.AMADEUS_API_KEY env))
              || negb (nonempty (Amadeus.AMADEUS_API_SECRET env)));
      [booking_done|].
    destruct (negb (Py.truthy offer_id)); [booking_done|].
    unfold Net.bind at 1. unfold Net.lift at 1.
    destruct (Booking.first_missing _ traveller) as [[field|]|e];
      [booking_done | | booking_done].
    unfold Net.bind at 1. unfold Net.lift at 1.
    destruct (Booking.first_missing _ payment) as [[field|]|e];
      [booking_done | | booking_done].
    unfold Net.bind.
    destruct (token_outcome env w []) as [token [-> _]]. cbn [app].
    destruct (negb (Py.truthy token)); [booking_done|].
    unfold Net.lift.
    destruct (tool_hotel_booking.ready_to_book py offer_id traveller payment)
      as [r|e] eqn:Er; [|booking_done].
    apply hotel_ready_status in Er. booking_done.
Qed.

Hypothesis key_set : nonempty (Amadeus.AMADEUS_API_KEY env) = true.
Hypothesis secret_set : nonempty (Amadeus.AMADEUS_API_SECRET env) = true.

Lemma book_flight_missing_field :
  forall (flight_offer_id : value) (passenger : dict) (field : pystr)
         (w : Net.world),
    Py.truthy flight_offer_id = true ->
    BookingSpec.first_falsy tool_flight_booking.required_fields passenger
    = Some field ->
    Net.run (tool_flight_booking.book_flight py env flight_offer_id
               (VDict passenger)) w
    = (Returned (tool_flight_booking.missing_field_error field), []).
Proof.
  intros fid passenger field w Hid Hfield.
  unfold Net.run, tool_flight_booking.book_flight, Net.try_except.
  rewrite key_set, secret_set, Hid. cbn [negb orb].
  unfold Net.bind, Net.lift. rewrite first_missing_dict, Hfield. reflexivity.
Qed.

Lemma book_hotel_missing_guest :
  forall (hotel_offer_id : value) (guest payment : dict) (field : pystr)
         (w : Net.world),
    Py.truthy hotel_offer_id = true ->
    BookingSpec.first_falsy tool_hotel_booking.required_guest_fields guest
    = Some field ->
    Net.run (tool_hotel_booking.book_hotel py env hotel_offer_id
               (VDict guest) (VDict payment)) w
    = (Returned (tool_hotel_booking.missing_guest_error field), []).
Proof.
  intros hid guest payment field w Hid Hfield.
  unfold Net.run, tool_hotel_booking.book_hotel, Net.try_except.
  rewrite key_set, secret_set, Hid. cbn [negb orb].
  unfold Net.bind, Net.lift. rewrite first_missing_dict, Hfield. reflexivity.
Qed.

Lemma book_hotel_missing_payment :
  forall (hotel_offer_id : value) (guest payment : dict) (field : pystr)
         (w : Net.world),
    Py.truthy hotel_offer_id = true ->
    BookingSpec.first_falsy tool_hotel_booking.required_guest_fields guest
    = None ->
    BookingSpec.first_falsy tool_hotel_booking.required_payment_fields payment
    = Some field ->
    Net.run (tool_hotel_booking.book_hotel py env hotel_offer_id
               (VDict guest) (VDict payment)) w
    = (Returned (tool_hotel_booking.missing_payment_error field), []).
Proof.
  intros hid guest payment field w Hid Hguest Hfield.
  unfold Net.run, tool_hotel_booking.book_hotel, Net.try_except.
  rewrite key_set, secret_set, Hid. cbn [negb orb].
  unfold Net.bind, Net.lift. rewrite !first_missing_dict, Hguest, Hfield.
  reflexivity.
Qed.

(** X17. With the credentials configured and an offer identifier given,
    [book_flight] answers a passenger mapping in which a required field is
    missing or empty with the error naming the first such field, in the
    order first_name, last_name, date_of_birth, gender, email, phone, and
    sends no request. *)
Theorem flight_passenger_checked_before_network :
  forall (flight_offer_id : value) (passenger : dict) (field : pystr)
         (w : Net.world),
    Py.truthy flight_offer_id = true ->
    BookingSpec.first_falsy tool_flight_booking.required_fields passenger
    = Some field ->
    Net.run (tool_flight_booking.book_flight py env flight_offer_id
               (VDict passenger)) w
    = (Returned (tool_flight_booking.missing_field_error field), []).
Proof. exact book_flight_missing_field. Qed.

(** X18. With the credentials configured and an offer identifier given,
    [book_hotel] checks the guest before the payment and both before any
    request: a guest mapping lacking a required field gets the error
    naming the first such field, and with a complete guest a payment
    mapping lacking card_type or card_number gets the error naming the
    first of the two that is missing; no request is sent. *)
Theorem hotel_guest_and_payment_checked_before_network :
  forall (hotel_offer_id : value) (guest payment : dict) (w : Net.world),
    Py.truthy hotel_offer_id = true ->
    (forall field,
        BookingSpec.first_falsy tool_hotel_booking.required_guest_fields guest
        = Some field ->
        Net.run (tool_hotel_booking.book_hotel py env hotel_offer_id
                   (VDict guest) (VDict payment)) w
        = (Returned (tool_hotel_booking.missing_guest_error field), []))
    /\ (forall field,
           BookingSpec.first_falsy tool_hotel_booking.required_guest_fields guest
           = None ->
           BookingSpec.first_falsy tool_hotel_booking.required_payment_fields payment
           = Some field ->
           Net.run (tool_hotel_booking.book_hotel py env hotel_offer_id
                      (VDict guest) (VDict payment)) w
           = (Returned (tool_hotel_booking.missing_payment_error field), [])).
Proof.
  intros hid guest payment w Hid. split.
  - intros field Hfield. apply book_hotel_missing_guest; assumption.
  - intros field Hguest Hfield. apply book_hotel_missing_payment; assumption.
Qed.

End BookingProperties.

Lemma flight_passenger_checked_before_network_witness :
  Net.run (tool_flight_booking.book_flight Latin1.lib Examples.amadeus_env
             (VStr (u "1")) (VDict BookingSpec.passenger_without_phone))
          Latin1.offline
  = (Returned (tool_flight_booking.missing_field_error (u "email")), []).
Proof.
  apply (flight_passenger_checked_before_network Latin1.lib Examples.amadeus_env
           eq_refl eq_refl (VStr (u "1")) BookingSpec.passenger_without_phone
           (u "email") Latin1.offline); reflexivity.
Defined.

Lemma hotel_guest_and_payment_checked_before_network_witness :
  Net.run (tool_hotel_booking.book_hotel Latin1.lib Examples.amadeus_env
             (VStr (u "H1")) (VDict BookingSpec.guest)
             (VDict BookingSpec.payment_without_number))
          Latin1.offline
  = (Returned (tool_hotel_booking.missing_payment_error (u "card_number")), []).
Proof.
  apply (proj2 (hotel_guest_and_payment_checked_before_network
                  Latin1.lib Examples.amadeus_env eq_refl eq_refl
                  (VStr (u "H1")) BookingSpec.guest
                  BookingSpec.payment_without_number Latin1.offline eq_refl)
               (u "card_number")); reflexivity.
Defined.

(** A flight offer identifier without underscores, as the provider
    numbers its offers, books the route Ouagadougou to Paris. *)
Example flight_route_defaults :
  forall r,
    tool_flight_booking.ready_to_book Latin1.lib (VStr (u "7"))
      (VDict BookingSpec.passenger) = Returned r ->
    Py.getitem r (u "route")
    = Returned (VDict [(u "origin", VStr (u "OUA"));
                       (u "destination", VStr (u "CDG"));
                       (u "date", VStr [])]).
Proof. intros r H. vm_compute in H. injection H as <-. reflexivity. Qed.

(* --------------------------------------------------------------------- *)
(** ** Pharmacies *)
(* --------------------------------------------------------------------- *)

Lemma find_city_In :
  forall k table l,
    tool_pharmacy_locator.find_city k table = Some l -> In (k, l) table.
Proof.
  induction table as [|[k' l'] table IH]; intros l H.
  - discriminate H.
  - cbn [tool_pharmacy_locator.find_city] in H. destruct (PyStr.eqb k k') eqn:E.
    + apply eqb_eq in E. injection H as <-. subst k'. left. reflexivity.
    + right. apply IH. exact H.
Qed.

Section PharmacyProperties.

Import tool_pharmacy_locator.

Variable py : pylib.
Variable env : environ.
Variable azure_maps_search : value -> list value.

(** Every list of the table is non-empty and can be laid out as text. *)
Lemma table_lists :
  forall k l,
    In (k, l) PHARMACIES_DE_GARDE ->
    l <> [] /\ firstn 5 l = l /\ exists ts, texts py (firstn 5 l) = Returned ts.
Proof.
  intros k l Hin.
  repeat (destruct Hin as [Hin|Hin];
          [injection Hin as <- <-; split; [discriminate|]; split;
           [reflexivity | eexists; vm_compute; reflexivity] | ]).
  destruct Hin.
Qed.

Lemma local_list :
  forall s,
    exists k,
      In (k, match find_city (normalize s) PHARMACIES_DE_GARDE with
             | Some l => l
             | None => OUAGADOUGOU
             end) PHARMACIES_DE_GARDE.
Proof.
  intro s. destruct (find_city (normalize s) PHARMACIES_DE_GARDE) as [l|] eqn:E.
  - exists (normalize s). apply find_city_In. exact E.
  - exists (u "Ouagadougou"). left. reflexivity.
Qed.

(** X19. When the maps search gives nothing (no key is configured, or
    the search fails or finds nothing), [execute] answers every city
    given as text with a success holding the pharmacies of one city of
    the local table: those of the normalised city name when it is a key
    of the table, those of Ouagadougou otherwise.  The list is never
    empty, so that the "Aucune pharmacie de garde" error is never
    returned. *)
Theorem pharmacies_from_local_table :
  forall (arguments : dict) (s : pystr),
    Py.dict_get arguments (u "city") (VStr (u "Ouagadougou")) = VStr s ->
    search_pharmacies_azure_maps env azure_maps_search (VStr s) = [] ->
    exists r l,
      execute py env azure_maps_search (VDict arguments) = Returned (VDict r)
      /\ is_success (VDict r) = true
      /\ Py.dict_lookup (u "pharmacies") r = Some (VList l)
      /\ l <> []
      /\ l = match find_city (normalize s) PHARMACIES_DE_GARDE with
             | Some l => l
             | None => OUAGADOUGOU
             end.
Proof.
  intros arguments s Hcity Hsearch.
  destruct (local_list s) as [k Hin].
  destruct (table_lists k _ Hin) as [Hne [Hfive [ts Hts]]].
  unfold execute. rewrite !get_dict, Hcity. cbn [bind].
  rewrite Hsearch. cbn [get_local_pharmacies].
  destruct (find_city (normalize s) PHARMACIES_DE_GARDE) as [l|] eqn:E.
  - cbn [bind]. destruct l as [|p l]; [contradiction|].
    rewrite Hts. cbn [bind try_except].
    eexists. exists (firstn 5 (p :: l)). split; [reflexivity|].
    split; [reflexivity|]. split; [reflexivity|]. split; [discriminate|].
    exact Hfive.
  - cbn [bind]. destruct OUAGADOUGOU as [|p l] eqn:Eo; [contradiction|].
    rewrite Hts. cbn [bind try_except].
    eexists. exists (firstn 5 (p :: l)). split; [reflexivity|].
    split; [reflexivity|]. split; [reflexivity|]. split; [discriminate|].
    exact Hfive.
Qed.

(** X20. Asked for a city by the very name that keys it in the table,
    [get_local_pharmacies] gives the pharmacies of that city, except for
    Bobo-Dioulasso and Fada N'Gourma: the normalisation rewrites these
    names (into "Bobo-Dioulasso-Dioulasso" and "Fada N'Gourma N'Gourma"),
    and the pharmacies of Ouagadougou are returned in their place. *)
Theorem pharmacies_by_table_name :
  forall (key : pystr) (l : list value),
    In (key, l) PHARMACIES_DE_GARDE ->
    get_local_pharmacies (VStr key)
    = Returned (if PyStr.eqb key (u "Bobo-Dioulasso")
                   || PyStr.eqb key (u "Fada N'Gourma")
                then OUAGADOUGOU else l).
Proof.
  intros key l Hin.
  repeat (destruct Hin as [Hin|Hin];
          [injection Hin as <- <-; vm_compute; reflexivity | ]).
  destruct Hin.
Qed.

End PharmacyProperties.

Lemma pharmacies_from_local_table_witness :
  exists r l,
    tool_pharmacy_locator.execute Latin1.lib Examples.no_env (fun _ => [])
      (VDict [(u "city", VStr (u "Bobo"))])
    = Returned (VDict r)
    /\ Py.dict_lookup (u "pharmacies") r = Some (VList l)
    /\ List.length l = 2.
Proof.
  destruct (pharmacies_from_local_table Latin1.lib Examples.no_env (fun _ => [])
              [(u "city", VStr (u "Bobo"))] (u "Bobo") eq_refl eq_refl)
    as [r [l [Hrun [_ [Hl [_ El]]]]]].
  exists r, l. split; [exact Hrun|]. split; [exact Hl|].
  rewrite El. reflexivity.
Defined.

Lemma pharmacies_by_table_name_witness :
  tool_pharmacy_locator.get_local_pharmacies (VStr (u "Bobo-Dioulasso"))
  = Returned tool_pharmacy_locator.OUAGADOUGOU.
Proof.
  apply (pharmacies_by_table_name (u "Bobo-Dioulasso")
           [tool_pharmacy_locator.pharmacy (u "Pharmacie du Marché")
              (u "Grand Marché") (u "+226 20 97 23 45");
            tool_pharmacy_locator.pharmacy (u "Pharmacie Saint-Camille")
              (u "Route de Banfora") (u "+226 20 98 56 78")]).
  right. left. reflexivity.
Defined.

Example normalize_samples :
  tool_pharmacy_locator.normalize (u "Ouagadougou") = u "Ouagadougoudougou"
  /\ tool_pharmacy_locator.normalize (u "Bobo") = u "Bobo-Dioulasso"
  /\ tool_pharmacy_locator.normalize (u "Bobo-Dioulasso") = u "Bobo-Dioulasso-Dioulasso"
  /\ tool_pharmacy_locator.normalize (u "Fada N'Gourma") = u "Fada N'Gourma N'Gourma".
Proof. repeat split; vm_compute; reflexivity. Qed.

(* --------------------------------------------------------------------- *)
(** ** The MCP server *)
(* --------------------------------------------------------------------- *)

Section ServerProperties.

Variable py : pylib.
Variable call_error : pystr -> value -> pystr.
Variable json_dumps : value -> outcome pystr.
Variable server_name : pystr.
Variable version : pystr.
Variable tools : list (pystr * server_v2.tool).

Lemma error_envelope :
  forall request_id code message,
    code = (-32601)%Z \/ code = (-32603)%Z ->
    ServerSpec.envelope (server_v2.jsonrpc_error request_id code message) request_id 200.
Proof.
  intros request_id code message Hcode.
  exists (u "error"), (VDict [(u "code", VInt code); (u "message", VStr message)]).
  split; [reflexivity|]. right. split; [reflexivity|].
  exists code, message. split; [reflexivity|]. right. split; [exact Hcode | reflexivity].
Qed.

Lemma result_envelope :
  forall request_id result,
    ServerSpec.envelope (server_v2.jsonrpc_result request_id result) request_id 200.
Proof.
  intros request_id result. exists (u "result"), result.
  split; [reflexivity|]. left. split; reflexivity.
Qed.

(** X21. Every response that [_handle_mcp_request] builds is a JSON-RPC
    2.0 object with an id and exactly one of a result and an error.  When
    [request.get_json()] returns a falsy value (null, an empty mapping or
    list, 0, false, an empty string) the response is the error -32700 with
    HTTP status 400 and a null id; otherwise the body is a mapping, the
    status is 200, the id is the one the body gives (null when it gives
    none) and an error has the code -32601 or -32603.  No response is
    built when [get_json()] aborts, whose error leaves the handler, or
    when it returns a truthy value that is not a mapping, on which
    [data.get] raises AttributeError outside any [try]. *)
Theorem mcp_response_envelope :
  forall get_json : outcome value,
    (forall body status,
        server_v2.mcp_endpoint py json_dumps server_name version tools get_json
        = Returned (body, status) ->
        exists data request_id,
          get_json = Returned data
          /\ ServerSpec.envelope body request_id status
          /\ (Py.truthy data = false ->
              status = 400%Z
              /\ body = VDict [(u "jsonrpc", VStr (u "2.0"));
                               (u "id", VNone);
                               (u "error",
                                VDict [(u "code", VInt (-32700));
                                       (u "message", VStr (u "Parse error"))])])
          /\ (Py.truthy data = true ->
              status = 200%Z
              /\ exists d,
                   data = VDict d /\ request_id = Py.dict_get d (u "id") VNone))
    /\ (forall e,
           get_json = Raised e ->
           server_v2.mcp_endpoint py json_dumps server_name version tools get_json
           = Raised e)
    /\ (forall data,
           get_json = Returned data ->
           Py.truthy data = true ->
           (forall d, data <> VDict d) ->
           server_v2.mcp_endpoint py json_dumps server_name version tools get_json
           = Raised (Py.AttributeError data (u "get"))).
Proof.
  intro get_json. split; [|split].
  - intros body status H. unfold server_v2.mcp_endpoint in H.
    destruct get_json as [data|e]; [|discriminate H]. cbn [bind] in H.
    exists data. unfold server_v2._handle_mcp_request in H.
    destruct (Py.truthy data) eqn:Et; cbn [negb] in H.
    + destruct data as [ | b | z | s | l | d]; try discriminate H.
      rewrite !get_dict in H. cbn [bind] in H.
      exists (Py.dict_get d (u "id") VNone).
      split; [reflexivity|].
      assert (ServerSpec.envelope body (Py.dict_get d (u "id") VNone) status
              /\ status = 200%Z) as [Henv Hstatus].
      { destruct (Py.is_str (u "initialize") _).
        { injection H as <- <-. split; [apply result_envelope | reflexivity]. }
        destruct (Py.is_str (u "tools/list") _).
        { injection H as <- <-. split; [apply result_envelope | reflexivity]. }
        destruct (Py.is_str (u "tools/call") _).
        - destruct (Py.get _ (u "name") VNone) as [tool_name|e]; [|discriminate H].
          cbn [bind] in H.
          destruct (Py.get _ (u "arguments") (VDict [])) as [arguments|e];
            [|discriminate H].
          cbn [bind] in H.
          destruct (server_v2.lookup_tool tools tool_name) as [[t|]|e];
            [| |discriminate H]; cbn [bind] in H.
          + destruct (server_v2.handler t arguments) as [result|e];
              cbn [bind try_except] in H.
            * destruct (json_dumps result) as [text|e]; cbn [bind try_except] in H;
                injection H as <- <-.
              -- split; [apply result_envelope | reflexivity].
              -- split; [apply error_envelope; right; reflexivity | reflexivity].
            * injection H as <- <-.
              split; [apply error_envelope; right; reflexivity | reflexivity].
          + injection H as <- <-.
            split; [apply error_envelope; left; reflexivity | reflexivity].
        - injection H as <- <-.
          split; [apply error_envelope; left; reflexivity | reflexivity]. }
      split; [exact Henv|]. split; [discriminate|].
      intros _. split; [exact Hstatus|]. exists d. split; reflexivity.
    + injection H as <- <-. exists VNone. split; [reflexivity|].
      split; [|split; [intros _; split; reflexivity | discriminate]].
      exists (u "error"),
        (VDict [(u "code", VInt (-32700)); (u "message", VStr (u "Parse error"))]).
      split; [reflexivity|]. right. split; [reflexivity|].
      eexists. eexists. split; [reflexivity|]. left. repeat split.
  - intros e ->. reflexivity.
  - intros data -> Ht Hnot. unfold server_v2.mcp_endpoint. cbn [bind].
    unfold server_v2._handle_mcp_request. rewrite Ht. cbn [negb].
    destruct data as [ | b | z | s | l | d]; try reflexivity.
    destruct (Hnot d eq_refl).
Qed.

(** X22. What a tool handler does never prevents the answer: a request
    whose parsed body is a non-empty mapping (an empty one is falsy and
    gets the parse error with status 400), whose params are a mapping and
    whose tool name is not a list or a mapping gets a response with HTTP
    status 200 whatever the handlers return or raise, and a tool call
    whose handler raises gets the error -32603 carrying the text of the
    exception. *)
Theorem mcp_request_always_answered :
  forall (d p : dict),
    d <> [] ->
    Py.dict_get d (u "params") (VDict []) = VDict p ->
    (forall l, Py.dict_get p (u "name") VNone <> VList l) ->
    (forall m, Py.dict_get p (u "name") VNone <> VDict m) ->
    (exists body, server_v2._handle_mcp_request py json_dumps server_name version tools
      (VDict d) = Returned (body, 200%Z))
    /\ (forall n t e,
           Py.dict_get d (u "method") (VStr []) = VStr (u "tools/call") ->
           Py.dict_get p (u "name") VNone = VStr n ->
           server_v2.find_tool n tools = Some t ->
           server_v2.handler t (Py.dict_get p (u "arguments") (VDict [])) = Raised e ->
           server_v2._handle_mcp_request py json_dumps server_name version tools
      (VDict d)
           = Returned (server_v2.jsonrpc_error (Py.dict_get d (u "id") VNone)
                         (-32603) (exn_text e), 200%Z)).
Proof.
  intros d p Hd Hparams Hlist Hdict.
  assert (Py.truthy (VDict d) = true) as Ht by (destruct d; [contradiction | reflexivity]).
  split.
  - unfold server_v2._handle_mcp_request. rewrite Ht. cbn [negb].
    rewrite !get_dict. cbn [bind]. rewrite Hparams.
    destruct (Py.is_str (u "initialize") _); [eexists; reflexivity|].
    destruct (Py.is_str (u "tools/list") _); [eexists; reflexivity|].
    destruct (Py.is_str (u "tools/call") _); [|eexists; reflexivity].
    rewrite !get_dict. cbn [bind].
    destruct (Py.dict_get p (u "name") VNone) as [ | b | z | s | l | m] eqn:En;
      cbn [server_v2.lookup_tool bind];
      try (eexists; reflexivity).
    + destruct (server_v2.find_tool s tools) as [t|]; [|eexists; reflexivity].
      destruct (server_v2.handler t _) as [result|e]; cbn [bind try_except];
        [|eexists; reflexivity].
      destruct (json_dumps result); eexists; reflexivity.
    + destruct (Hlist l eq_refl).
    + destruct (Hdict m eq_refl).
  - intros n t e Hmethod Hname Hfind Hraise.
    unfold server_v2._handle_mcp_request. rewrite Ht. cbn [negb].
    rewrite !get_dict. cbn [bind]. rewrite Hparams, Hmethod.
    change (Py.is_str (u "initialize") (VStr (u "tools/call"))) with false.
    change (Py.is_str (u "tools/list") (VStr (u "tools/call"))) with false.
    change (Py.is_str (u "tools/call") (VStr (u "tools/call"))) with true.
    cbv iota. rewrite !get_dict. cbn [bind]. rewrite Hname.
    cbn [server_v2.lookup_tool bind]. rewrite Hfind, Hraise. reflexivity.
Qed.

Variable search_hotels_tool : dict -> outcome value.

Lemma search_hotels_raises :
  forall arguments,
    exists e,
      server_v2.search_hotels call_error search_hotels_tool arguments = Raised e
      /\ exn_class e = u "TypeError".
Proof.
  intro arguments. unfold server_v2.search_hotels.
  destruct (server_v2.call _ _ _ arguments) as [locals|e] eqn:Ec.
  - cbn [bind]. eexists. split; reflexivity.
  - exists e. split; [reflexivity|].
    unfold server_v2.call in Ec.
    destruct arguments; try (injection Ec as <-; reflexivity).
    destruct (forallb _ _); [|injection Ec as <-; reflexivity].
    destruct (server_v2.bind_parameters _ _); [discriminate Ec|].
    injection Ec as <-. reflexivity.
Qed.

(** X23. The hotel search cannot be reached through the server: its
    handler passes a [hotel_name] keyword that
    [tool_hotel_search.search_hotels] does not have, so that the handler
    raises TypeError on every argument value, before the tool runs, and
    every tools/call request for search_hotels is answered with the error
    -32603. *)
Theorem search_hotels_unreachable_through_server :
  forall (d p : dict) (t : server_v2.tool),
    Py.dict_get d (u "method") (VStr []) = VStr (u "tools/call") ->
    Py.dict_get d (u "params") (VDict []) = VDict p ->
    Py.dict_get p (u "name") VNone = VStr (u "search_hotels") ->
    server_v2.find_tool (u "search_hotels") tools = Some t ->
    server_v2.handler t = server_v2.search_hotels call_error search_hotels_tool ->
    exists e,
      server_v2.search_hotels call_error search_hotels_tool
        (Py.dict_get p (u "arguments") (VDict [])) = Raised e
      /\ exn_class e = u "TypeError"
      /\ server_v2._handle_mcp_request py json_dumps server_name version tools
      (VDict d)
         = Returned (server_v2.jsonrpc_error (Py.dict_get d (u "id") VNone)
                       (-32603) (exn_text e), 200%Z).
Proof.
  intros d p t Hmethod Hparams Hname Hfind Hhandler.
  destruct (search_hotels_raises (Py.dict_get p (u "arguments") (VDict [])))
    as [e [Hraise Hclass]].
  exists e. split; [exact Hraise|]. split; [exact Hclass|].
  assert (Py.truthy (VDict d) = true) as Ht.
  { destruct d; [discriminate Hmethod | reflexivity]. }
  unfold server_v2._handle_mcp_request. rewrite Ht. cbn [negb].
  rewrite !get_dict. cbn [bind]. rewrite Hparams, Hmethod.
  change (Py.is_str (u "initialize") (VStr (u "tools/call"))) with false.
  change (Py.is_str (u "tools/list") (VStr (u "tools/call"))) with false.
  change (Py.is_str (u "tools/call") (VStr (u "tools/call"))) with true.
  cbv iota. rewrite !get_dict. cbn [bind]. rewrite Hname.
  cbn [server_v2.lookup_tool bind]. rewrite Hfind, Hhandler, Hraise. reflexivity.
Qed.

End ServerProperties.

Lemma mcp_response_envelope_witness :
  exists data request_id,
    Returned (VDict [(u "method", VStr (u "ping"))]) = Returned data
    /\ ServerSpec.envelope
         (server_v2.jsonrpc_error VNone (-32601) (u "Method not found: ping"))
         request_id 200.
Proof.
  destruct (proj1 (mcp_response_envelope Latin1.lib ServerExamples.json_dumps
                     (u "voyage-agent") (u "2.0.0") ServerExamples.registry
                     (Returned (VDict [(u "method", VStr (u "ping"))])))
              (server_v2.jsonrpc_error VNone (-32601) (u "Method not found: ping"))
              200%Z eq_refl) as [data [request_id [Hdata [H _]]]].
  exists data, request_id. split; [exact Hdata | exact H].
Defined.

(** A JSON list is not a mapping: the handler raises on its first
    [data.get]. *)
Example mcp_list_body :
  server_v2.mcp_endpoint Latin1.lib ServerExamples.json_dumps
    (u "voyage-agent") (u "2.0.0") ServerExamples.registry
    (Returned (VList [VInt 1]))
  = Raised (Py.AttributeError (VList [VInt 1]) (u "get")).
Proof. reflexivity. Qed.

(** An empty mapping is falsy and gets the parse error. *)
Example mcp_empty_mapping :
  server_v2.mcp_endpoint Latin1.lib ServerExamples.json_dumps
    (u "voyage-agent") (u "2.0.0") ServerExamples.registry
    (Returned (VDict []))
  = Returned (server_v2.jsonrpc_error VNone (-32700) (u "Parse error"), 400%Z).
Proof. reflexivity. Qed.

Lemma mcp_request_always_answered_witness :
  exists body,
    server_v2._handle_mcp_request Latin1.lib ServerExamples.json_dumps
      (u "voyage-agent") (u "2.0.0") ServerExamples.registry
      (VDict ServerExamples.hotel_request)
    = Returned (body, 200%Z).
Proof.
  apply (proj1 (mcp_request_always_answered Latin1.lib ServerExamples.json_dumps
                  (u "voyage-agent") (u "2.0.0") ServerExamples.registry
                  ServerExamples.hotel_request
                  [(u "name", VStr (u "search_hotels"));
                   (u "arguments",
                    VDict [(u "city_code", VStr (u "PAR"));
                           (u "check_in_date", VStr (u "2025-12-15"));
                           (u "check_out_date", VStr (u "2025-12-18"))])]
                  ltac:(discriminate) eq_refl
                  ltac:(intros l H; discriminate H)
                  ltac:(intros m H; discriminate H))).
Defined.

Lemma search_hotels_unreachable_through_server_witness :
  exists e,
    exn_class e = u "TypeError"
    /\ server_v2._handle_mcp_request Latin1.lib ServerExamples.json_dumps
         (u "voyage-agent") (u "2.0.0") ServerExamples.registry
         (VDict ServerExamples.hotel_request)
       = Returned (server_v2.jsonrpc_error (VInt 7) (-32603) (exn_text e), 200%Z).
Proof.
  destruct (search_hotels_unreachable_through_server
              Latin1.lib ServerExamples.call_error ServerExamples.json_dumps
              (u "voyage-agent") (u "2.0.0") ServerExamples.registry
              ServerExamples.no_tool ServerExamples.hotel_request
              [(u "name", VStr (u "search_hotels"));
               (u "arguments",
                VDict [(u "city_code", VStr (u "PAR"));
                       (u "check_in_date", VStr (u "2025-12-15"));
                       (u "check_out_date", VStr (u "2025-12-18"))])]
              (server_v2.register (u "search_hotels")
                 (VStr (u "Recherche des hôtels disponibles avec prix via Amadeus API."))
                 [(u "required",
                   VList [VStr (u "city_code"); VStr (u "check_in_date");
                          VStr (u "check_out_date")])]
                 (server_v2.search_hotels ServerExamples.call_error
                    ServerExamples.no_tool))
              eq_refl eq_refl eq_refl eq_refl eq_refl)
    as [e [_ [Hclass Hrun]]].
  exists e. split; [exact Hclass | exact Hrun].
Defined.

Section ServerBooking.

Variable py : pylib.
Variable env : environ.
Variable call_error : pystr -> value -> pystr.

Hypothesis key_set : nonempty (Amadeus.AMADEUS_API_KEY env) = true.
Hypothesis secret_set : nonempty (Amadeus.AMADEUS_API_SECRET env) = true.

Lemma truthy_present :
  forall (d : dict) k,
    Py.truthy (Py.dict_get d k VNone) = true ->
    exists v, Py.dict_lookup k d = Some v /\ Py.truthy v = true.
Proof.
  intros d k H. unfold Py.dict_get in H.
  destruct (Py.dict_lookup k d) as [v|]; [|discriminate H].
  exists v. split; [reflexivity | exact H].
Qed.

(** X24. A hotel booking asked through the server with the arguments its
    schema requires, and no card number, is always refused: with the
    credentials configured, whatever the offer, the guest and the network,
    the handler builds a payment without card number, and [book_hotel]
    answers with the error "Champ paiement manquant: card_number". *)
Theorem book_hotel_through_server_needs_card_number :
  forall (arguments : dict) (w : Net.world),
    forallb (fun kv => server_v2.is_parameter server_v2.book_hotel_signature
                         (fst kv)) arguments = true ->
    Py.truthy (Py.dict_get arguments (u "hotel_offer_id") VNone) = true ->
    Py.truthy (Py.dict_get arguments (u "guest_first_name") VNone) = true ->
    Py.truthy (Py.dict_get arguments (u "guest_last_name") VNone) = true ->
    Py.truthy (Py.dict_get arguments (u "guest_email") VNone) = true ->
    Py.truthy (Py.dict_get arguments (u "guest_phone") VNone) = true ->
    Py.truthy (Py.dict_get arguments (u "card_type") (VStr (u "VISA"))) = true ->
    Py.truthy (Py.dict_get arguments (u "card_number") VNone) = false ->
    server_v2.book_hotel call_error (ServerSpec.book_hotel_tool py env w)
      (VDict arguments)
    = Returned (tool_hotel_booking.missing_payment_error (u "card_number")).
Proof.
  intros arguments w Hall Hid Hfn Hln Hem Hph Hct Hcn.
  destruct (truthy_present _ _ Hid) as [id [Eid Tid]].
  destruct (truthy_present _ _ Hfn) as [fn [Efn Tfn]].
  destruct (truthy_present _ _ Hln) as [ln [Eln Tln]].
  destruct (truthy_present _ _ Hem) as [em [Eem Tem]].
  destruct (truthy_present _ _ Hph) as [ph [Eph Tph]].
  assert (server_v2.call call_error (u "book_hotel") server_v2.book_hotel_signature
            (VDict arguments)
          = Returned
              [(u "hotel_offer_id", id); (u "guest_first_name", fn);
               (u "guest_last_name", ln); (u "guest_email", em);
               (u "guest_phone", ph);
               (u "card_type", Py.dict_get arguments (u "card_type") (VStr (u "VISA")));
               (u "card_number", Py.dict_get arguments (u "card_number") VNone)])
    as Hcall.
  { unfold server_v2.call. rewrite Hall.
    unfold server_v2.book_hotel_signature.
    cbn [server_v2.bind_parameters server_v2.required server_v2.optional
           server_v2.pname server_v2.pdefault].
    rewrite Eid, Efn, Eln, Eem, Eph. unfold Py.dict_get.
    destruct (Py.dict_lookup (u "card_type") arguments);
      destruct (Py.dict_lookup (u "card_number") arguments); reflexivity. }
  unfold server_v2.book_hotel. rewrite Hcall. cbn [bind].
  remember (Py.dict_get arguments (u "card_type") (VStr (u "VISA"))) as ct.
  remember (Py.dict_get arguments (u "card_number") VNone) as cn.
  change (server_v2.call call_error (u "book_hotel")
            server_v2.tool_book_hotel_signature _)
    with (Returned
            [(u "hotel_offer_id", id);
             (u "guest",
              VDict [(u "first_name", fn); (u "last_name", ln);
                     (u "email", em); (u "phone", ph)]);
             (u "payment", VDict [(u "card_type", ct); (u "card_number", cn)])]).
  cbn [bind]. unfold ServerSpec.book_hotel_tool.
  change (server_v2.var _ (u "hotel_offer_id")) with id.
  change (server_v2.var _ (u "guest"))
    with (VDict [(u "first_name", fn); (u "last_name", ln);
                 (u "email", em); (u "phone", ph)]).
  change (server_v2.var _ (u "payment"))
    with (VDict [(u "card_type", ct); (u "card_number", cn)]).
  rewrite (book_hotel_missing_payment py env key_set secret_set id _ _
             (u "card_number") w Tid); [reflexivity | |].
  - cbn. rewrite Tfn, Tln, Tem, Tph. reflexivity.
  - cbn. rewrite Hct, Hcn. reflexivity.
Qed.

End ServerBooking.

Lemma book_hotel_through_server_needs_card_number_witness :
  server_v2.book_hotel ServerExamples.call_error
    (ServerSpec.book_hotel_tool Latin1.lib Examples.amadeus_env Latin1.offline)
    (VDict ServerExamples.hotel_booking_arguments)
  = Returned (tool_hotel_booking.missing_payment_error (u "card_number")).
Proof.
  apply (book_hotel_through_server_needs_card_number
           Latin1.lib Examples.amadeus_env ServerExamples.call_error
           eq_refl eq_refl ServerExamples.hotel_booking_arguments Latin1.offline);
    reflexivity.
Defined.

(* --------------------------------------------------------------------- *)
(** ** The bus schedule as the servers call it *)
(* --------------------------------------------------------------------- *)

(** X25. Called as the two servers call it, with a mapping that holds
    [line_number], [from_city] and [to_city] only, [execute] never looks
    at the cities nor at the interurban lines: the result is the same for
    all cities and whatever the interurban branch would do.  When no line
    number is given (the servers then pass [None]), the result is the
    error "Ligne 'None' non trouvée", not the list of the lines. *)
Theorem bus_schedule_as_the_servers_call_it :
  forall (py : pylib) (strptime_HM : pystr -> outcome (Z * Z))
         (interurban interurban' : value -> outcome (option value))
         (fuel : nat) (now_category now_departures : tool_bus_schedule.time)
         (line_number from_city to_city from_city' to_city' : value),
    tool_bus_schedule.execute py strptime_HM interurban fuel
      now_category now_departures
      (VDict [(u "line_number", line_number); (u "from_city", from_city);
              (u "to_city", to_city)])
    = tool_bus_schedule.execute py strptime_HM interurban' fuel
        now_category now_departures
        (VDict [(u "line_number", line_number); (u "from_city", from_city');
                (u "to_city", to_city')])
    /\ tool_bus_schedule.execute py strptime_HM interurban fuel
         now_category now_departures
         (VDict [(u "line_number", VNone); (u "from_city", from_city);
                 (u "to_city", to_city)])
       = Some (Returned (tool_bus_schedule.not_found py VNone)).
Proof.
  intros. split; reflexivity.
Qed.

(* --------------------------------------------------------------------- *)
(** ** Advice from the conditions found *)
(* --------------------------------------------------------------------- *)

(** X26. The advice built from the conditions found always holds between
    two and eight remedies: the three default ones exactly when the
    lower-cased symptoms mention none of "ballonnement", "gaz", "douleur"
    and "fièvre", and paracetamol exactly when they mention "fièvre". *)
Theorem condition_advice_remedies :
  forall (py : pylib) (s : pystr) (conditions : value),
    let symptoms_lower := str_lower py s in
    exists general remedies doctor signs,
      health_conditions.generate_advice_from_conditions py (VStr s) conditions
      = Returned
          (VDict [(u "general_recommendations", general);
                  (u "remedies", tool_health_advice.strings remedies);
                  (u "when_to_see_doctor", doctor);
                  (u "emergency_signs", signs)])
      /\ 2 <= List.length remedies <= 8
      /\ (remedies = health_conditions.default_remedies
          <-> contains (u "ballonnement") symptoms_lower = false
              /\ contains (u "gaz") symptoms_lower = false
              /\ contains (u "douleur") symptoms_lower = false
              /\ contains (u "fièvre") symptoms_lower = false)
      /\ (In (u "Paracétamol selon dosage approprié") remedies
          <-> contains (u "fièvre") symptoms_lower = true).
Proof.
  intros py s conditions symptoms_lower.
  eexists. exists (health_conditions.remedies_for symptoms_lower).
  eexists. eexists. split; [reflexivity|].
  unfold health_conditions.remedies_for.
  destruct (contains (u "ballonnement") symptoms_lower);
    destruct (contains (u "gaz") symptoms_lower);
    destruct (contains (u "douleur") symptoms_lower);
    destruct (contains (u "fièvre") symptoms_lower);
    (split; [cbn; lia|]);
    (split;
     [split;
      [intro H; try discriminate H; repeat split; reflexivity
      | intros (H1 & H2 & H3 & H4); try discriminate; reflexivity]
     | split;
       [intro H; try reflexivity; exfalso; revert H;
        apply not_in_by_eqb; reflexivity
       | intro H; try discriminate H;
         cbn; auto 10]]).
Qed.

(* --------------------------------------------------------------------- *)
(** ** Validation of the email address *)
(* --------------------------------------------------------------------- *)

Lemma nullable_lang :
  forall r, Regex.nullable r = true <-> Regex.lang r [].
Proof.
  intro r. split.
  - induction r as [ | | p | a IHa b IHb | a IHa b IHb | a IHa]; cbn; intro H;
      try discriminate H.
    + constructor.
    + apply andb_true_iff in H. destruct H as [Ha Hb].
      apply (@Regex.lang_cat a b [] []); auto.
    + apply orb_true_iff in H. destruct H as [H|H].
      * apply Regex.lang_alt_l. auto.
      * apply Regex.lang_alt_r. auto.
    + constructor.
  - intro H. remember (@nil char) as s eqn:Es.
    induction H as [ | p c Hp | a b s t Ha IHa Hb IHb | a b s Ha IHa
                     | a b s Hb IHb | a | a s t Ha IHa Ht IHt]; cbn.
    + reflexivity.
    + discriminate Es.
    + apply app_eq_nil in Es. destruct Es as [-> ->].
      rewrite IHa, IHb; reflexivity.
    + rewrite IHa by exact Es. reflexivity.
    + rewrite IHb by exact Es. apply orb_true_r.
    + reflexivity.
    + reflexivity.
Qed.

Lemma deriv_sound :
  forall c r s, Regex.lang (Regex.deriv c r) s -> Regex.lang r (c :: s).
Proof.
  intros c r.
  induction r as [ | | p | a IHa b IHb | a IHa b IHb | a IHa]; cbn; intros s H.
  - inversion H.
  - inversion H.
  - destruct (p c) eqn:Ep; inversion H; subst. constructor. exact Ep.
  - destruct (Regex.nullable a) eqn:En.
    + inversion H as [ | | | a' b' s' Hl | a' b' s' Hr | | ]; subst.
      * inversion Hl as [ | | a' b' s1 s2 H1 H2 | | | | ]; subst.
        apply (@Regex.lang_cat a b (c :: s1) s2); auto.
      * apply (@Regex.lang_cat a b [] (c :: s)); [|auto].
        apply nullable_lang. exact En.
    + inversion H as [ | | a' b' s1 s2 H1 H2 | | | | ]; subst.
      apply (@Regex.lang_cat a b (c :: s1) s2); auto.
  - inversion H; subst.
    + apply Regex.lang_alt_l. auto.
    + apply Regex.lang_alt_r. auto.
  - inversion H as [ | | a' b' s1 s2 H1 H2 | | | | ]; subst.
    apply (@Regex.lang_star_app a (c :: s1) s2); auto.
Qed.

Lemma deriv_complete :
  forall r t, Regex.lang r t ->
              forall c s, t = c :: s -> Regex.lang (Regex.deriv c r) s.
Proof.
  intros r t H.
  induction H as [ | p c' Hp | a b s1 t1 Ha IHa Hb IHb | a b s1 Ha IHa
                   | a b s1 Hb IHb | a | a s1 t1 Ha IHa Ht IHt];
    intros c s E; cbn.
  - discriminate E.
  - injection E as -> <-. rewrite Hp. constructor.
  - destruct s1 as [|c1 s1'].
    + cbn in E. subst t1.
      assert (Regex.nullable a = true) as -> by (apply nullable_lang; exact Ha).
      apply Regex.lang_alt_r. apply IHb. reflexivity.
    + cbn in E. injection E as -> <-.
      assert (Regex.lang (Regex.Cat (Regex.deriv c a) b) (s1' ++ t1)) as Hc.
      { apply Regex.lang_cat; [apply IHa; reflexivity | exact Hb]. }
      destruct (Regex.nullable a); [apply Regex.lang_alt_l|]; exact Hc.
  - apply Regex.lang_alt_l. apply IHa. exact E.
  - apply Regex.lang_alt_r. apply IHb. exact E.
  - discriminate E.
  - destruct s1 as [|c1 s1'].
    + cbn in E. apply IHt. exact E.
    + cbn in E. injection E as -> <-.
      apply Regex.lang_cat; [apply IHa; reflexivity | exact Ht].
Qed.

(** Matching by derivatives decides the language. *)
Lemma matches_lang :
  forall s r, Regex.matches r s = true <-> Regex.lang r s.
Proof.
  induction s as [|c s IH]; intro r; cbn.
  - apply nullable_lang.
  - rewrite IH. split.
    + apply deriv_sound.
    + intro H. eapply deriv_complete; [exact H | reflexivity].
Qed.

Lemma lang_cat_inv :
  forall a b s,
    Regex.lang (Regex.Cat a b) s
    <-> exists s1 s2, s = s1 ++ s2 /\ Regex.lang a s1 /\ Regex.lang b s2.
Proof.
  intros a b s. split.
  - intro H. inversion H; subst. eexists. eexists. split; [reflexivity|]. split; assumption.
  - intros [s1 [s2 [-> [H1 H2]]]]. constructor; assumption.
Qed.

Lemma lang_class_inv :
  forall p s,
    Regex.lang (Regex.Class p) s <-> exists c, s = [c] /\ p c = true.
Proof.
  intros p s. split.
  - intro H. inversion H; subst. eexists. split; [reflexivity | assumption].
  - intros [c [-> H]]. constructor. exact H.
Qed.

Lemma lang_star_class :
  forall p s,
    Regex.lang (Regex.Star (Regex.Class p)) s <-> Forall (fun c => p c = true) s.
Proof.
  intros p s. split.
  - intro H. remember (Regex.Star (Regex.Class p)) as r eqn:Er.
    induction H as [ | | | | | a | a s1 t1 Ha IHa Ht IHt]; try discriminate Er.
    + constructor.
    + injection Er as ->. inversion Ha; subst. cbn.
      constructor; [assumption | apply IHt; reflexivity].
  - induction 1 as [|c s Hc Hs IH].
    + constructor.
    + apply (@Regex.lang_star_app (Regex.Class p) [c] s); [|exact IH].
      constructor. exact Hc.
Qed.

Lemma lang_plus_class :
  forall p s,
    Regex.lang (Regex.plus (Regex.Class p)) s
    <-> s <> [] /\ Forall (fun c => p c = true) s.
Proof.
  intros p s. unfold Regex.plus. rewrite lang_cat_inv. split.
  - intros [s1 [s2 [-> [H1 H2]]]].
    apply lang_class_inv in H1. destruct H1 as [c [-> Hc]].
    apply lang_star_class in H2. split; [discriminate|].
    constructor; assumption.
  - intros [Hne H]. destruct s as [|c s]; [contradiction|].
    inversion H; subst. exists [c], s. split; [reflexivity|]. split.
    + constructor. assumption.
    + apply lang_star_class. assumption.
Qed.

Lemma lang_two_class :
  forall p s,
    Regex.lang (Regex.at_least_two (Regex.Class p)) s
    <-> 2 <= List.length s /\ Forall (fun c => p c = true) s.
Proof.
  intros p s. unfold Regex.at_least_two. rewrite lang_cat_inv. split.
  - intros [s1 [s2 [-> [H1 H2]]]].
    apply lang_class_inv in H1. destruct H1 as [c [-> Hc]].
    apply (lang_plus_class p s2) in H2. destruct H2 as [Hne H2].
    destruct s2 as [|c2 s2]; [contradiction|]. split; [cbn; lia|].
    constructor; assumption.
  - intros [Hlen H]. destruct s as [|c s]; [cbn in Hlen; lia|].
    inversion H; subst. exists [c], s. split; [reflexivity|]. split.
    + constructor. assumption.
    + apply (lang_plus_class p s). split; [|assumption].
      destruct s; [cbn in Hlen; lia | discriminate].
Qed.

Lemma email_regex_lang :
  forall s,
    Regex.lang email_validation.EMAIL_REGEX s <-> email_validation.well_formed s.
Proof.
  intro s. unfold email_validation.EMAIL_REGEX, email_validation.well_formed.
  split.
  - intro H.
    apply lang_cat_inv in H. destruct H as [local [r1 [-> [Hlocal H]]]].
    apply lang_cat_inv in H. destruct H as [at_ [r2 [-> [Hat H]]]].
    apply lang_cat_inv in H. destruct H as [domain [r3 [-> [Hdomain H]]]].
    apply lang_cat_inv in H. destruct H as [dot [r4 [-> [Hdot H]]]].
    apply lang_cat_inv in H. destruct H as [label [ending [-> [Hlabel Hend]]]].
    apply lang_plus_class in Hlocal. destruct Hlocal as [Hl1 Hl2].
    apply lang_plus_class in Hdomain. destruct Hdomain as [Hd1 Hd2].
    apply lang_two_class in Hlabel. destruct Hlabel as [Ht1 Ht2].
    apply lang_class_inv in Hat. destruct Hat as [c1 [-> Hc1]].
    apply lang_class_inv in Hdot. destruct Hdot as [c2 [-> Hc2]].
    apply N.eqb_eq in Hc1, Hc2. subst c1 c2.
    exists local, domain, label, ending.
    split; [reflexivity|]. repeat (split; [assumption|]).
    inversion Hend as [ | | | a b s' Hl | a b s' Hr | | ]; subst.
    + inversion Hl. left. reflexivity.
    + apply lang_class_inv in Hr. destruct Hr as [c [-> Hc]].
      apply N.eqb_eq in Hc. subst c. right. reflexivity.
  - intros (local & domain & label & ending & -> & Hl1 & Hl2 & Hd1 & Hd2 & Ht1
            & Ht2 & Hend).
    apply (@Regex.lang_cat _ _ local); [apply lang_plus_class; split; assumption|].
    apply (@Regex.lang_cat _ _ [email_validation.AT]);
      [constructor; apply N.eqb_refl|].
    apply (@Regex.lang_cat _ _ domain); [apply lang_plus_class; split; assumption|].
    apply (@Regex.lang_cat _ _ [email_validation.DOT]);
      [constructor; apply N.eqb_refl|].
    apply (@Regex.lang_cat _ _ label); [apply lang_two_class; split; assumption|].
    destruct Hend as [-> | ->].
    + apply Regex.lang_alt_l. constructor.
    + apply Regex.lang_alt_r. constructor. apply N.eqb_refl.
Qed.

Lemma email_regex_matches :
  forall s,
    Regex.matches email_validation.EMAIL_REGEX s = true
    <-> email_validation.well_formed s.
Proof. intro s. rewrite matches_lang. apply email_regex_lang. Qed.

(** X27. The pattern that validates an address accepts exactly the texts
    made of a non-empty local part of letters, digits and the characters
    . _ % + -, an at sign, a non-empty domain of letters, digits, dots and
    hyphens, a dot and a final label of at least two letters, possibly
    followed by one line feed; in particular an accepted address holds a
    single at sign and no space. *)
Theorem accepted_addresses :
  forall s,
    (Regex.matches email_validation.EMAIL_REGEX s = true
     <-> email_validation.well_formed s)
    /\ (Regex.matches email_validation.EMAIL_REGEX s = true ->
        count_occ N.eq_dec s email_validation.AT = 1 /\ ~ In SPACE s).
Proof.
  intro s. split; [apply email_regex_matches|].
  intro H. apply email_regex_matches in H.
  destruct H as (local & domain & label & ending & -> & _ & Hl & _ & Hd & _
                 & Ht & Hend).
  assert (forall (p : char -> bool) l,
             Forall (fun c => p c = true) l ->
             p email_validation.AT = false -> p SPACE = false ->
             count_occ N.eq_dec l email_validation.AT = 0 /\ ~ In SPACE l)
    as Hclass.
  { intros p l Hall Hat Hsp. split.
    - apply count_occ_not_In. intro Hin. rewrite Forall_forall in Hall.
      apply Hall in Hin. congruence.
    - intro Hin. rewrite Forall_forall in Hall. apply Hall in Hin. congruence. }
  destruct (Hclass _ _ Hl eq_refl eq_refl) as [Cl Sl].
  destruct (Hclass _ _ Hd eq_refl eq_refl) as [Cd Sd].
  destruct (Hclass _ _ Ht eq_refl eq_refl) as [Ct St].
  assert (count_occ N.eq_dec ending email_validation.AT = 0 /\ ~ In SPACE ending)
    as [Ce Se].
  { destruct Hend as [-> | ->]; split; cbn; try reflexivity.
    - intros [].
    - intros [H|[]]. discriminate H. }
  split.
  - unfold char in *.
    rewrite count_occ_app, count_occ_cons_eq by reflexivity.
    rewrite count_occ_app, count_occ_cons_neq; [|intro Hx; discriminate Hx].
    rewrite count_occ_app, Cl, Cd, Ct, Ce. reflexivity.
  - intro Hin. apply in_app_or in Hin. destruct Hin as [Hin|Hin]; [contradiction|].
    destruct Hin as [Hin|Hin]; [discriminate Hin|].
    apply in_app_or in Hin. destruct Hin as [Hin|Hin]; [contradiction|].
    destruct Hin as [Hin|Hin]; [discriminate Hin|].
    apply in_app_or in Hin. destruct Hin as [Hin|Hin]; contradiction.
Qed.

(** X28. The email tool refuses a malformed address before it looks at
    its configuration or sends anything: when the subject and the message
    are texts and the address resolved from the aliases, once trimmed,
    lower-cased and stripped of surrounding quotes, is not of the accepted
    form, [execute] returns the missing-address error if it is empty and
    the invalid-format error naming it otherwise, whatever the
    environment and the mail service. *)
Theorem malformed_address_refused_before_sending :
  forall (py : pylib) (env : environ)
         (deliver : pystr -> value -> value -> value -> value)
         (on_error : exn -> value -> value)
         (d : dict) (subject message trimmed : pystr),
    Py.dict_get d (u "subject") (VStr []) = VStr subject ->
    Spec.first_truthy Spec.message_aliases d (VStr []) = VStr message ->
    email_validation.clean py (Spec.first_truthy Spec.email_aliases d (VStr []))
    = Returned trimmed ->
    ~ email_validation.well_formed
        (email_validation.strip_chars email_validation.QUOTES trimmed) ->
    tool_email.execute
      (fun email subject message url =>
         Returned (email_validation.send_email py env deliver on_error
                     email subject message url))
      (VDict d)
    = Returned
        (let email :=
           email_validation.strip_chars email_validation.QUOTES trimmed in
         if nonempty email then email_validation.format_error email
         else email_validation.missing_error).
Proof.
  intros py env deliver on_error d subject message trimmed Hs Hm Hc Hbad.
  unfold tool_email.execute.
  destruct (email_aliases_first_truthy_parts d) as [-> [-> ->]].
  cbn [bind]. rewrite get_dict, Hs, Hm. cbn [bind tool_email.slice_check
                                               tool_email.len_check].
  unfold email_validation.send_email. rewrite Hc. cbv zeta.
  destruct (nonempty (email_validation.strip_chars email_validation.QUOTES trimmed));
    cbn [negb]; [|reflexivity].
  destruct (Regex.matches email_validation.EMAIL_REGEX _) eqn:E; [|reflexivity].
  exfalso. apply Hbad. apply email_regex_matches. exact E.
Qed.

Lemma malformed_address_refused_before_sending_witness :
  tool_email.execute
    (fun email subject message url =>
       Returned (email_validation.send_email Latin1.lib Examples.no_env
                   (fun _ _ _ _ => VNone) (fun _ _ => VNone)
                   email subject message url))
    (VDict [(u "to_email", VStr (u " Awa Traore@Example.org "));
            (u "subject", VStr (u "Bonjour"));
            (u "body", VStr (u "Votre billet"))])
  = Returned (email_validation.format_error (u "awa traore@example.org")).
Proof.
  apply (malformed_address_refused_before_sending
           Latin1.lib Examples.no_env (fun _ _ _ _ => VNone) (fun _ _ => VNone)
           [(u "to_email", VStr (u " Awa Traore@Example.org "));
            (u "subject", VStr (u "Bonjour"));
            (u "body", VStr (u "Votre billet"))]
           (u "Bonjour") (u "Votre billet") (u "awa traore@example.org")
           eq_refl eq_refl eq_refl).
  intro H. apply email_regex_matches in H. vm_compute in H. discriminate H.
Defined.

(** An address followed by a line feed inside quotes is accepted. *)
Example address_with_line_feed :
  Regex.matches email_validation.EMAIL_REGEX (u "a@b.co" ++ [10%N]) = true
  /\ Regex.matches email_validation.EMAIL_REGEX (u "a@b..co") = true
  /\ Regex.matches email_validation.EMAIL_REGEX (u "a@b.c") = false
  /\ Regex.matches email_validation.EMAIL_REGEX (u "a b@c.de") = false.
Proof. repeat split; vm_compute; reflexivity. Qed.

(* --------------------------------------------------------------------- *)
(** ** The end of the conversation *)
(* --------------------------------------------------------------------- *)

(** X29. The end-of-conversation tool gives its end signal, with the
    reason and the farewell message as given, whenever the farewell
    message is a text or a list; a farewell message that is [None], a
    number or a boolean makes it raise a [TypeError] instead, because the
    log line slices it. *)
Theorem end_conversation_signal :
  forall (py : pylib) (d : dict),
    match Py.dict_get d (u "farewell_message") (VStr (u "Au revoir!")) with
    | VStr _ | VList _ =>
        exists r,
          tool_end_conversation.execute py (VDict d) = Returned (VDict r)
          /\ is_success (VDict r) = true
          /\ Py.dict_lookup (u "signal_end_conversation") r = Some (VBool true)
          /\ Py.dict_lookup (u "reason") r
             = Some (Py.dict_get d (u "reason") (VStr (u "natural_end")))
          /\ Py.dict_lookup (u "farewell_message") r
             = Some (Py.dict_get d (u "farewell_message") (VStr (u "Au revoir!")))
    | VDict _ => True
    | _ =>
        exists e,
          tool_end_conversation.execute py (VDict d) = Raised e
          /\ exn_class e = u "TypeError"
    end.
Proof.
  intros py d. unfold tool_end_conversation.execute. rewrite !get_dict.
  cbn [bind].
  destruct (Py.dict_get d (u "farewell_message") (VStr (u "Au revoir!")));
    cbn [tool_email.slice_check bind];
    try exact I;
    try (eexists; split; reflexivity);
    (eexists; split; [reflexivity|]; repeat split; reflexivity).
Qed.

(* --------------------------------------------------------------------- *)
(** ** Administrative services *)
(* --------------------------------------------------------------------- *)

Lemma services_filter :
  forall (py : pylib) (q : pystr),
    (forall n info,
        In (n, info) tool_government_services.ADMINISTRATIVE_SERVICES ->
        str_lower py n = Latin1.lower n) ->
    filter (fun kv => PyStr.eqb q (u "all")
                      || contains q (str_lower py (fst kv)))
           tool_government_services.ADMINISTRATIVE_SERVICES
    = filter (fun kv => PyStr.eqb q (u "all")
                        || contains q (Latin1.lower (fst kv)))
             tool_government_services.ADMINISTRATIVE_SERVICES.
Proof.
  intros py q Hlower. apply filter_ext_in. intros [n info] Hin.
  cbn [fst]. rewrite (Hlower n info Hin). reflexivity.
Qed.

(** X30. A service query that mentions one of the keywords of the
    normalisation gets the details of the service this keyword stands
    for, and of no other: the keywords are tried in the order cnib (or
    carte with identité), permis, passeport, acte with naissance,
    nationalité, casier, immatriculation (or carte grise), the first one
    found decides, and the normalised name it gives matches exactly one
    name of the table. *)
Theorem service_found_by_keyword :
  forall (py : pylib) (d : dict) (s name : pystr),
    (forall n info,
        In (n, info) tool_government_services.ADMINISTRATIVE_SERVICES ->
        str_lower py n = Latin1.lower n) ->
    Py.dict_get d (u "service") (VStr (u "all")) = VStr s ->
    tool_government_services.keyword_service (str_lower py s) = Some name ->
    exists info message,
      Py.dict_lookup name tool_government_services.ADMINISTRATIVE_SERVICES
      = Some info
      /\ tool_government_services.execute py (VDict d)
         = Returned
             (VDict [(u "status", VStr (u "success"));
                     (u "type", VStr (u "single_service"));
                     (u "service_name", VStr name);
                     (u "data", info);
                     (u "message", VStr message)]).
Proof.
  intros py d s name Hlower Hs Hk.
  unfold tool_government_services.execute. rewrite get_dict, Hs. cbn [bind].
  unfold tool_government_services.search_service.
  rewrite (services_filter py _ Hlower).
  unfold tool_government_services.keyword_service in Hk.
  unfold tool_government_services.normalise.
  repeat match type of Hk with
         | (if ?c then _ else _) = _ =>
             destruct c;
             [injection Hk as <-; vm_compute filter; cbn [bind try_except];
              eexists; eexists; split; reflexivity|]
         end.
  discriminate Hk.
Qed.

Lemma service_found_by_keyword_witness :
  exists info message,
    Py.dict_lookup (u "Permis de conduire")
      tool_government_services.ADMINISTRATIVE_SERVICES = Some info
    /\ tool_government_services.execute Latin1.lib
         (VDict [(u "service", VStr (u "Mon PERMIS et mon passeport"))])
       = Returned
           (VDict [(u "status", VStr (u "success"));
                   (u "type", VStr (u "single_service"));
                   (u "service_name", VStr (u "Permis de conduire"));
                   (u "data", info);
                   (u "message", VStr message)]).
Proof.
  apply (service_found_by_keyword Latin1.lib
           [(u "service", VStr (u "Mon PERMIS et mon passeport"))]
           (u "Mon PERMIS et mon passeport") (u "Permis de conduire")).
  - intros n info Hin. reflexivity.
  - reflexivity.
  - reflexivity.
Defined.

(** An empty query is contained in every name, and lists the seven
    services like "all"; a query that no name contains finds none. *)
Example service_queries :
  (exists r,
      tool_government_services.execute Latin1.lib
        (VDict [(u "service", VStr [])]) = Returned (VDict r)
      /\ Py.dict_lookup (u "type") r = Some (VStr (u "service_list"))
      /\ Py.dict_lookup (u "count") r = Some (VInt 7))
  /\ is_error
       match tool_government_services.execute Latin1.lib
               (VDict [(u "service", VStr (u "visa"))]) with
       | Returned r => r
       | Raised _ => VNone
       end = true.
Proof.
  split.
  - eexists. split; [vm_compute; reflexivity|]. split; reflexivity.
  - vm_compute. reflexivity.
Qed.
